(** * Consensus matrix and decision engine of the medical multi-agent system

    Shallow embedding of [consensus/consensus_matrix.py] and
    [consensus/decision_engine.py], together with the data classes of
    [agents/base_agent.py] they consume, and of their callers
    [experiments/evaluator.py] and [experiments/experiment_runner.py], where
    the language-model agents and the clock are parameters.

    Modelling conventions.
    - A Python [float] is a real number ([R]): arithmetic is exact, rounding
      and NaN are not modelled.  [len(..)] and counters are [nat], injected
      with [INR] where the source divides.
    - An exception is a value of [exn]; a function that can raise returns
      [result A].  Divisions are guarded the way the source guards them, and
      [np.average] raises [ZeroDivisionError] on weights that sum to zero.
    - A Python [dict] is an insertion-ordered association list with unique
      keys ([pydict]); a Python [set] of strings is a [gset string].
    - A [str] is a [string] holding the UTF-8 bytes of the text.
    - Display strings that interpolate floats (the dissent lines, the decision
      summary) are kept as the tuple of the values interpolated. *)

From Stdlib Require Import Reals Lra Lia Ascii String Sorted.
From stdpp Require Import base list gmap strings pretty.

Local Open Scope R_scope.

(** ** Python and numpy primitives *)

Module Py.

Inductive exn : Type :=
| ValueError (msg : string)
| ZeroDivisionError.

Definition result (A : Type) : Type := exn + A.

Definition ret {A} (a : A) : result A := inr a.
Definition raise {A} (e : exn) : result A := inl e.
Definition bind {A B} (m : result A) (k : A → result B) : result B :=
  match m with
  | inl e => inl e
  | inr a => k a
  end.

(** Comparisons of floats, as they occur in [if] and in comprehensions. *)
#[global] Instance Rlt_decision (x y : R) : Decision (x < y) := Rlt_dec x y.
#[global] Instance Rle_decision (x y : R) : Decision (x <= y) := Rle_dec x y.
#[global] Instance Rgt_decision (x y : R) : Decision (x > y) := Rgt_dec x y.
#[global] Instance Rge_decision (x y : R) : Decision (x >= y) := Rge_dec x y.
#[global] Instance R_eq_dec : EqDecision R := Req_dec_T.

(** [max(a, b)] and [min(a, b)] of Python on two floats: the first argument
    is returned unless the second is strictly beyond it. *)
Definition max (a b : R) : R := if decide (b > a) then b else a.
Definition min (a b : R) : R := if decide (b < a) then b else a.

Definition NL : string := String "010"%char EmptyString.

(** [dict]: insertion-ordered, one entry per key. *)
Definition pydict (K V : Type) : Type := list (K * V).

Section Dict.
Context {K V : Type} `{EqDecision K}.

Fixpoint dict_lookup (d : pydict K V) (k : K) : option V :=
  match d with
  | [] => None
  | (k', v) :: d' => if decide (k' = k) then Some v else dict_lookup d' k
  end.

(** [d.get(k, dflt)] *)
Definition dict_get (d : pydict K V) (k : K) (dflt : V) : V :=
  match dict_lookup d k with
  | Some v => v
  | None => dflt
  end.

(** [d[k] = v]: overwrite in place, or append a new entry. *)
Fixpoint dict_set (d : pydict K V) (k : K) (v : V) : pydict K V :=
  match d with
  | [] => [(k, v)]
  | (k', v') :: d' =>
      if decide (k' = k) then (k', v) :: d' else (k', v') :: dict_set d' k v
  end.

Definition dict_keys (d : pydict K V) : list K := d.*1.
Definition dict_values (d : pydict K V) : list V := d.*2.
End Dict.

(** [kw in s] on strings: [kw] occurs in [s] as a contiguous substring. *)
Fixpoint str_contains (kw s : string) : bool :=
  match s with
  | EmptyString => String.prefix kw EmptyString
  | String _ s' => String.prefix kw s || str_contains kw s'
  end.

(** [s[:n]] counts code points: a byte [10xxxxxx] continues the code point
    opened before it and is kept with it. *)
Definition is_continuation (c : ascii) : bool :=
  match c with
  | Ascii _ _ _ _ _ _ false true => true
  | _ => false
  end.

Fixpoint str_take (n : nat) (s : string) : string :=
  match s with
  | EmptyString => EmptyString
  | String c s' =>
      if is_continuation c then String c (str_take n s')
      else match n with
           | O => EmptyString
           | S n' => String c (str_take n' s')
           end
  end.

(** ** numpy *)

Definition np_sum (a : list R) : R := foldr Rplus 0 a.

(** [np.mean(a)]; on the empty list numpy returns NaN, here [0 / 0]. *)
Definition np_mean (a : list R) : R := np_sum a / INR (length a).

(** [np.std(a)]: population standard deviation. *)
Definition np_std (a : list R) : R :=
  sqrt (np_mean (map (λ x, (x - np_mean a) ^ 2) a)).

(** [np.average(a, weights=w)] for [a] and [w] of one length. *)
Definition np_average (a w : list R) : result R :=
  let scl := np_sum w in
  if decide (scl = 0) then raise ZeroDivisionError
  else ret (np_sum (zip_with Rmult a w) / scl).

End Py.

#[global] Instance result_ret : MRet Py.result := @Py.ret.
#[global] Instance result_bind : MBind Py.result := λ A B k m, Py.bind m k.

(** ** agents/base_agent.py *)

Inductive AgentRole : Type :=
| ONCOLOGIST
| RADIOLOGIST
| NURSE
| PSYCHOLOGIST
| PATIENT_ADVOCATE.

#[global] Instance AgentRole_eq_dec : EqDecision AgentRole.
Proof. solve_decision. Defined.

(** [AgentRole.value] *)
Definition AgentRole_value (r : AgentRole) : string :=
  match r with
  | ONCOLOGIST => "oncologist"
  | RADIOLOGIST => "radiologist"
  | NURSE => "nurse"
  | PSYCHOLOGIST => "psychologist"
  | PATIENT_ADVOCATE => "patient_advocate"
  end.

(** [len(AgentRole)] *)
Definition AgentRole_members : list AgentRole :=
  [ONCOLOGIST; RADIOLOGIST; NURSE; PSYCHOLOGIST; PATIENT_ADVOCATE].

(** The fields of [MedicalCase] typed [Dict[str, Any]] carry no structure the
    decision layer reads and are left out. *)
Record MedicalCase : Type := {
  case_id : string;
  symptoms : list string;
  medical_history : list string;
  current_treatment : option string
}.

Record AgentOpinion : Type := {
  agent_id : string;
  role : AgentRole;
  opinion : string;
  confidence : R;
  reasoning : string;
  recommendations : list string;
  concerns : list string;
  priority_score : R;
  timestamp : string
}.

(** ** consensus/consensus_matrix.py *)

(** One line of [dissenting_opinions].  The source renders
    [f"{role.value}: 置信度较低({confidence:.2f}) - {opinion[:100]}..."] and
    [f"{role.value}: 独特关注 - {list(unique_concerns)}"]; the values
    interpolated are kept. *)
Inductive Dissent : Type :=
| LowConfidence (role_value : string) (conf : R) (excerpt : string)
| UniqueConcerns (role_value : string) (unique_concerns : gset string).

Record ConsensusResult : Type := {
  final_recommendation : string;
  consensus_score : R;
  weighted_priority : R;
  dissenting_opinions : list Dissent;
  confidence_interval : R * R;
  risk_assessment : Py.pydict string R
}.

Module ConsensusMatrix.
Import Py.

Definition role_weights : pydict AgentRole R :=
  [ (ONCOLOGIST, 0.35);
    (RADIOLOGIST, 0.25);
    (NURSE, 0.15);
    (PSYCHOLOGIST, 0.15);
    (PATIENT_ADVOCATE, 0.10) ].

Definition decision_dimensions : pydict string R :=
  [ ("medical_accuracy", 0.40);
    ("patient_safety", 0.30);
    ("quality_of_life", 0.20);
    ("cost_effectiveness", 0.10) ].

(** [[self.role_weights.get(op.role, 0.2) for op in opinions]] *)
Definition opinion_weights (opinions : list AgentOpinion) : list R :=
  map (λ op, dict_get role_weights (role op) 0.2) opinions.

(** *** _calculate_consensus_score *)

Definition all_recommendations (opinions : list AgentOpinion) : list string :=
  flat_map recommendations opinions.

(** The loop [recommendation_counts[rec] = recommendation_counts.get(rec, 0) + 1]. *)
Definition recommendation_counts (recs : list string) : pydict string nat :=
  fold_left (λ d rec, dict_set d rec (dict_get d rec 0 + 1)%nat) recs [].

(** [sum(count for count in recommendation_counts.values() if count > 1)] *)
Definition overlapping_count (recs : list string) : nat :=
  sum_list (filter (λ count, 1 < count)%nat (dict_values (recommendation_counts recs))).

(** [overlapping_count / total_recommendations], the local [consensus_score]. *)
Definition overlap_ratio (opinions : list AgentOpinion) : R :=
  let recs := all_recommendations opinions in
  INR (overlapping_count recs) / INR (length recs).

(** [1 - min(confidence_std, 0.5) / 0.5] *)
Definition confidence_consistency (opinions : list AgentOpinion) : R :=
  let confidence_std := np_std (map confidence opinions) in
  1 - min confidence_std 0.5 / 0.5.

Definition _calculate_consensus_score (opinions : list AgentOpinion) : R :=
  if (length opinions <=? 1)%nat then 1.0
  else
    let total_recommendations := length (all_recommendations opinions) in
    if (total_recommendations =? 0)%nat then 0.0
    else
      let final_consensus :=
        0.7 * overlap_ratio opinions + 0.3 * confidence_consistency opinions in
      min final_consensus 1.0.

(** *** _generate_final_recommendation *)

(** The accumulation [weighted_recommendations[rec] += weight] over the
    opinions, [weight = role_weights[i] * opinion.confidence]. *)
Definition weighted_recommendations
    (opinions : list AgentOpinion) (role_weights : list R) : pydict string R :=
  fold_left
    (λ d '(op, w),
       let weight := w * confidence op in
       fold_left
         (λ d rec,
            match dict_lookup d rec with
            | Some acc => dict_set d rec (acc + weight)
            | None => dict_set d rec weight
            end)
         (recommendations op) d)
    (zip opinions role_weights) [].

(** [sorted(items, key=lambda x: x[1], reverse=True)]: stable, largest
    weight first. *)
Fixpoint insert_desc (x : string * R) (l : list (string * R)) : list (string * R) :=
  match l with
  | [] => [x]
  | y :: l' => if decide (y.2 <= x.2) then x :: l else y :: insert_desc x l'
  end.

Definition sorted_desc (l : list (string * R)) : list (string * R) :=
  foldr insert_desc [] l.

(** [for i, rec in enumerate(items, 1): final_rec += f"{i}. {rec}\n"] *)
Definition numbered_lines (items : list string) : string :=
  foldr String.append EmptyString
    (imap (λ i rec, pretty (S i) +:+ ". " +:+ rec +:+ NL) items).

(** [list(set(all_concerns))[:3]] iterates a set, in an order Python leaves
    unspecified; the order of first occurrence stands for it. *)
Definition shown_concerns (opinions : list AgentOpinion) : list string :=
  take 3 (remove_dups (flat_map concerns opinions)).

Definition _generate_final_recommendation
    (opinions : list AgentOpinion) (role_weights : list R) : string :=
  let weighted := weighted_recommendations opinions role_weights in
  let sorted_recommendations := sorted_desc weighted in
  let final_rec := "综合多学科意见，推荐治疗方案：" +:+ NL +:+ NL in
  let avg_weight := np_mean (dict_values weighted) in
  let high_priority :=
    (filter (λ x, x.2 > avg_weight) sorted_recommendations).*1 in
  let final_rec :=
    match high_priority with
    | [] => final_rec
    | _ => final_rec +:+ "核心推荐：" +:+ NL +:+ numbered_lines (take 5 high_priority)
    end in
  let other_recommendations :=
    (filter (λ x, x.2 <= avg_weight) sorted_recommendations).*1 in
  let final_rec :=
    match other_recommendations with
    | [] => final_rec
    | _ => final_rec +:+ NL +:+ "补充建议：" +:+ NL
             +:+ numbered_lines (take 3 other_recommendations)
    end in
  match flat_map concerns opinions with
  | [] => final_rec
  | _ => final_rec +:+ NL +:+ "重要关注点：" +:+ NL
           +:+ numbered_lines (shown_concerns opinions)
  end.

(** *** _identify_dissenting_opinions *)

Definition other_concerns (opinions : list AgentOpinion) (op : AgentOpinion) : list string :=
  flat_map concerns (filter (λ other_op, agent_id other_op ≠ agent_id op) opinions).

Definition unique_concerns (opinions : list AgentOpinion) (op : AgentOpinion) : gset string :=
  list_to_set (concerns op) ∖ list_to_set (other_concerns opinions op).

Definition dissent_of (opinions : list AgentOpinion) (op : AgentOpinion) : list Dissent :=
  (if decide (confidence op < 0.5)
   then [LowConfidence (AgentRole_value (role op)) (confidence op)
           (str_take 100 (opinion op))]
   else [])
  ++
  (if decide (unique_concerns opinions op = ∅)
   then []
   else [UniqueConcerns (AgentRole_value (role op)) (unique_concerns opinions op)]).

Definition _identify_dissenting_opinions
    (opinions : list AgentOpinion) (consensus_score : R) : list Dissent :=
  if decide (consensus_score > 0.8) then []
  else flat_map (dissent_of opinions) opinions.

(** *** _calculate_confidence_interval *)

Definition _calculate_confidence_interval
    (confidences weights : list R) : result (R * R) :=
  weighted_mean ← np_average confidences weights;
  weighted_var ← np_average (map (λ c, (c - weighted_mean) ^ 2) confidences) weights;
  let weighted_std := sqrt weighted_var in
  let margin_error := 1.96 * weighted_std / sqrt (INR (length confidences)) in
  let lower_bound := max 0 (weighted_mean - margin_error) in
  let upper_bound := min 1 (weighted_mean + margin_error) in
  mret (lower_bound, upper_bound).

(** *** _assess_risks *)

(** [sum(1 for concern in concerns if any(keyword in concern for keyword in keywords))] *)
Definition keyword_hits (keywords concerns : list string) : nat :=
  length (filter (λ concern, existsb (λ keyword, str_contains keyword concern) keywords)
                 concerns).

(** [min(hits / len(concerns) if concerns else 0, 1.0)] *)
Definition risk_ratio (keywords concerns : list string) : R :=
  min (match concerns with
       | [] => 0
       | _ => INR (keyword_hits keywords concerns) / INR (length concerns)
       end) 1.0.

Definition risk_keywords : list string := ["转移"; "复发"; "副作用"; "并发症"].
Definition psych_risk_keywords : list string := ["抑郁"; "焦虑"; "自杀"; "创伤"].
Definition economic_keywords : list string := ["费用"; "经济"; "负担"].
Definition quality_keywords : list string := ["生活质量"; "功能"; "自理"].

Definition initial_risks : pydict string R :=
  [ ("medical_risk", 0.0);
    ("psychological_risk", 0.0);
    ("economic_risk", 0.0);
    ("quality_of_life_risk", 0.0) ].

(** The body of [for opinion in opinions]. *)
Definition assess_opinion (risks : pydict string R) (op : AgentOpinion) : pydict string R :=
  match role op with
  | ONCOLOGIST =>
      dict_set risks "medical_risk" (risk_ratio risk_keywords (concerns op))
  | PSYCHOLOGIST =>
      dict_set risks "psychological_risk" (risk_ratio psych_risk_keywords (concerns op))
  | PATIENT_ADVOCATE =>
      let risks :=
        dict_set risks "economic_risk" (risk_ratio economic_keywords (concerns op)) in
      dict_set risks "quality_of_life_risk" (risk_ratio quality_keywords (concerns op))
  | RADIOLOGIST | NURSE => risks
  end.

Definition _assess_risks (opinions : list AgentOpinion) : pydict string R :=
  fold_left assess_opinion opinions initial_risks.

(** *** calculate_consensus *)

(** The local [weighted_confidence]. *)
Definition weighted_confidence (opinions : list AgentOpinion) : result R :=
  np_average (map confidence opinions) (opinion_weights opinions).

Definition calculate_consensus (opinions : list AgentOpinion) : result ConsensusResult :=
  match opinions with
  | [] => raise (ValueError "至少需要一个意见进行共识计算")
  | _ =>
      let confidences := map confidence opinions in
      let priorities := map priority_score opinions in
      let role_weights := opinion_weights opinions in
      _ ← weighted_confidence opinions;
      weighted_priority ← np_average priorities role_weights;
      let consensus_score := _calculate_consensus_score opinions in
      let final_recommendation := _generate_final_recommendation opinions role_weights in
      let dissenting_opinions := _identify_dissenting_opinions opinions consensus_score in
      confidence_interval ← _calculate_confidence_interval confidences role_weights;
      let risk_assessment := _assess_risks opinions in
      mret {| final_recommendation := final_recommendation;
              consensus_score := consensus_score;
              weighted_priority := weighted_priority;
              dissenting_opinions := dissenting_opinions;
              confidence_interval := confidence_interval;
              risk_assessment := risk_assessment |}
  end.

End ConsensusMatrix.

(** ** consensus/decision_engine.py *)

(** The holes of the [decision_summary] template: the numbers are formatted
    with [:.2f] and [:.1f] in the source and kept as numbers here. *)
Record DecisionSummary : Type := {
  summary_consensus_score : R;
  summary_weighted_priority : R;
  summary_confidence_interval : R * R;
  summary_final_recommendation : string;
  summary_risk_lines : list (string * string * R);
  summary_dissent_lines : list Dissent
}.

(** The [decision_report] dict, one field per key. *)
Record DecisionReport : Type := {
  report_case_id : string;
  report_consensus_result : ConsensusResult;
  report_agent_opinions : list AgentOpinion;
  report_decision_summary : DecisionSummary;
  report_next_steps : list string;
  report_follow_up_plan : Py.pydict string (list string);
  report_quality_metrics : Py.pydict string R
}.

Module DecisionEngine.
Import Py.

(** The mutable part of a [DecisionEngine] instance; [consensus_matrix]
    holds constant tables only. *)
Record state : Type := {
  decision_history : list DecisionReport
}.

(** [__init__] *)
Definition init : state := {| decision_history := [] |}.

(** [a / b] on Python numbers. *)
Definition py_div (a b : R) : result R :=
  if decide (b = 0) then raise ZeroDivisionError else mret (a / b).

Definition risk_desc (risk_level : R) : string :=
  if decide (risk_level < 0.3) then "低"
  else if decide (risk_level < 0.7) then "中"
  else "高".

Definition _generate_decision_summary (consensus_result : ConsensusResult)
    : DecisionSummary :=
  {| summary_consensus_score := consensus_score consensus_result;
     summary_weighted_priority := weighted_priority consensus_result;
     summary_confidence_interval := confidence_interval consensus_result;
     summary_final_recommendation := final_recommendation consensus_result;
     summary_risk_lines :=
       map (λ '(risk_type, risk_level), (risk_type, risk_desc risk_level, risk_level))
           (risk_assessment consensus_result);
     summary_dissent_lines := dissenting_opinions consensus_result |}.

Definition high_priority_step : string := "高优先级处理，48小时内启动治疗".
Definition moderate_priority_step : string := "中等优先级，一周内完成相关检查".
Definition default_step : string := "按计划执行推荐方案".

Definition _determine_next_steps
    (consensus_result : ConsensusResult) (case : MedicalCase) : list string :=
  let next_steps := [] in
  let next_steps :=
    if decide (consensus_score consensus_result < 0.5)
    then next_steps ++ ["需要进一步的多学科讨论"; "考虑获取第二诊疗意见"]
    else next_steps in
  let risks := risk_assessment consensus_result in
  let next_steps :=
    if decide (dict_get risks "medical_risk" 0 > 0.7)
    then next_steps ++ ["紧急医疗评估和监护"] else next_steps in
  let next_steps :=
    if decide (dict_get risks "psychological_risk" 0 > 0.5)
    then next_steps ++ ["心理健康专业干预"] else next_steps in
  let next_steps :=
    if decide (dict_get risks "economic_risk" 0 > 0.5)
    then next_steps ++ ["社会工作者介入，评估经济支持需求"] else next_steps in
  let next_steps :=
    if decide (weighted_priority consensus_result > 8.0)
    then high_priority_step :: next_steps
    else if decide (weighted_priority consensus_result > 6.0)
    then moderate_priority_step :: next_steps
    else next_steps in
  match next_steps with
  | [] => [default_step]
  | _ => next_steps
  end.

(** [follow_up[key].extend(items)] *)
Definition extend (follow_up : pydict string (list string)) (key : string)
    (items : list string) : pydict string (list string) :=
  dict_set follow_up key (dict_get follow_up key [] ++ items).

Definition short_term_items : list string :=
  ["症状监测和评估"; "治疗反应评价"; "副作用管理"].
Definition medium_term_items : list string :=
  ["疗效评估"; "生活质量评估"; "心理状态评估"].
Definition long_term_items : list string :=
  ["定期复查"; "复发监测"; "康复评估"].

Definition _create_follow_up_plan (consensus_result : ConsensusResult)
    : pydict string (list string) :=
  let follow_up := [("short_term", []); ("medium_term", []); ("long_term", [])] in
  let risks := risk_assessment consensus_result in
  let follow_up :=
    if existsb (λ risk, bool_decide (risk > 0.6)) (dict_values risks)
    then extend follow_up "short_term" short_term_items
    else follow_up in
  let follow_up := extend follow_up "medium_term" medium_term_items in
  extend follow_up "long_term" long_term_items.

(** [len(s.split('\n'))] *)
Fixpoint count_lines (s : string) : nat :=
  match s with
  | EmptyString => 1
  | String c s' => if decide (c = "010"%char) then S (count_lines s') else count_lines s'
  end.

Definition _calculate_quality_metrics
    (opinions : list AgentOpinion) (consensus_result : ConsensusResult)
    : result (pydict string R) :=
  opinion_diversity ←
    py_div (INR (length (remove_dups (map role opinions))))
           (INR (length AgentRole_members));
  average_confidence ←
    py_div (np_sum (map confidence opinions)) (INR (length opinions));
  risk_coverage ←
    py_div (INR (length (filter (λ r, r > 0) (dict_values (risk_assessment consensus_result)))))
           (INR (length (risk_assessment consensus_result)));
  completeness ←
    py_div (INR (count_lines (final_recommendation consensus_result))) 10;
  mret [ ("opinion_diversity", opinion_diversity);
         ("average_confidence", average_confidence);
         ("consensus_strength", consensus_score consensus_result);
         ("risk_coverage", risk_coverage);
         ("recommendation_completeness", min completeness 1.0) ].

(** The report of [make_decision], before it is recorded. *)
Definition decision_report (case : MedicalCase) (opinions : list AgentOpinion)
    : result DecisionReport :=
  consensus_result ← ConsensusMatrix.calculate_consensus opinions;
  quality_metrics ← _calculate_quality_metrics opinions consensus_result;
  mret {| report_case_id := case_id case;
          report_consensus_result := consensus_result;
          report_agent_opinions := opinions;
          report_decision_summary := _generate_decision_summary consensus_result;
          report_next_steps := _determine_next_steps consensus_result case;
          report_follow_up_plan := _create_follow_up_plan consensus_result;
          report_quality_metrics := quality_metrics |}.

(** [make_decision]: an exception leaves [self] as it was; a report is
    appended to [self.decision_history] and returned. *)
Definition make_decision (self : state) (case : MedicalCase)
    (opinions : list AgentOpinion) : result DecisionReport * state :=
  match decision_report case opinions with
  | inl e => (inl e, self)
  | inr report =>
      (inr report, {| decision_history := decision_history self ++ [report] |})
  end.

End DecisionEngine.

(** ** experiments/evaluator.py *)

(** The evaluator scores the opinions that [make_decision] consumes; the
    experiment runner calls both on every case.  [str.lower] follows the
    Unicode case tables and is taken as a parameter [lower]. *)

(** The entries of [ground_truth] that the evaluator reads with [.get]:
    [None] stands for a missing key (or a stored [None]). *)
Record GroundTruth : Type := {
  true_diagnosis : option string;
  recommended_treatment : option (list string);
  expected_concerns : option (list string)
}.

(** [results['detail_scores']] *)
Record DetailScores : Type := {
  agent_confidence_avg : R;
  agent_confidence_std : R;
  recommendation_overlap : R;
  concern_coverage : R
}.

(** The [results] dict of [evaluate_case_analysis], one field per key;
    [res_case_id] is the key [case_id] that [evaluate_batch] adds. *)
Record CaseResult : Type := {
  res_overall_score : R;
  res_diagnosis_score : R;
  res_treatment_score : R;
  res_consensus_score : R;
  res_detail_scores : DetailScores;
  res_case_id : option string
}.

(** The objects found under [test_case['case']]: a [MedicalCase], or the
    [MockCase] that the experiment runner makes up, whose only attribute is
    [case_id]. *)
Inductive CaseObject : Type :=
| ACase (case : MedicalCase)
| MockCase (mock_case_id : string).

(** [case.case_id] *)
Definition object_case_id (case : CaseObject) : string :=
  match case with
  | ACase case => case_id case
  | MockCase mock_case_id => mock_case_id
  end.

(** What the experiment code can raise: the exceptions of [Py], the
    [TypeError] of a subscript on an object without [__getitem__], and the
    [IndexError] of a list index out of range. *)
Inductive exception : Type :=
| TypeError (msg : string)
| IndexError
| Raised (e : Py.exn).

(** [case[key]]: neither [MedicalCase] nor [MockCase] can be subscripted. *)
Definition case_getitem (case : CaseObject) (key : string) : exception + string :=
  inl (TypeError "object is not subscriptable").

(** One element of [test_cases]. *)
Record TestCase : Type := {
  tc_case : CaseObject;
  tc_agent_opinions : list AgentOpinion;
  tc_ground_truth : GroundTruth
}.

(** [batch_results['avg_scores']] and [batch_results['score_distribution']] *)
Record AvgScores : Type := {
  avg_overall : R;
  avg_diagnosis : R;
  avg_treatment : R;
  avg_consensus : R
}.

Record ScoreDistribution : Type := {
  overall_std : R;
  high_performers : nat;
  low_performers : nat
}.

(** The [metrics] dict of [_generate_summary_metrics]. *)
Record SummaryMetrics : Type := {
  system_reliability : R;
  areas_for_improvement : list string;
  strength_areas : list string;
  summary_recommendations : list string
}.

Record BatchResults : Type := {
  total_cases : nat;
  avg_scores : AvgScores;
  score_distribution : ScoreDistribution;
  case_results : list CaseResult;
  summary_metrics : SummaryMetrics
}.

Module MedicalAIEvaluator.
Import Py.

Section Lower.
Variable lower : string → string.

Definition _evaluate_diagnosis (opinions : list AgentOpinion)
    (true_diagnosis : option string) : R :=
  match true_diagnosis with
  | None | Some EmptyString => 0.0
  | Some diagnosis =>
      let '(diagnosis_mentions, total_diagnostic_opinions) :=
        fold_left
          (λ '(mentioned, total) op,
             if bool_decide (AgentRole_value (role op) ∈ ["oncologist"; "radiologist"])
             then (if str_contains (lower diagnosis) (lower (opinion op))
                   then S mentioned else mentioned,
                   S total)
             else (mentioned, total))
          opinions (0%nat, 0%nat) in
      if (total_diagnostic_opinions =? 0)%nat then 0.0
      else INR diagnosis_mentions / INR total_diagnostic_opinions
  end.

Definition _evaluate_treatment (opinions : list AgentOpinion)
    (recommended_treatment : option (list string)) : R :=
  match recommended_treatment with
  | None | Some [] => 0.0
  | Some treatments =>
      let '(treatment_score, total_treatment_opinions) :=
        fold_left
          (λ '(score, total) op,
             if bool_decide (AgentRole_value (role op) ∈ ["oncologist"; "nurse"])
             then
               let opinion_recommendations : gset string :=
                 list_to_set (map lower (recommendations op)) in
               let ground_truth_treatments : gset string :=
                 list_to_set (map lower treatments) in
               let overlap := size (opinion_recommendations ∩ ground_truth_treatments) in
               (if (0 <? size ground_truth_treatments)%nat
                then score + INR overlap / INR (size ground_truth_treatments)
                else score,
                S total)
             else (score, total))
          opinions (0.0, 0%nat) in
      if (0 <? total_treatment_opinions)%nat
      then treatment_score / INR total_treatment_opinions
      else 0.0
  end.

(** [Counter(all_recommendations)] counts as the loop of the consensus
    matrix does. *)
Definition _calculate_recommendation_overlap (opinions : list AgentOpinion) : R :=
  let all_recommendations :=
    flat_map (λ op, map lower (recommendations op)) opinions in
  match all_recommendations with
  | [] => 0.0
  | _ =>
      INR (ConsensusMatrix.overlapping_count all_recommendations)
      / INR (length all_recommendations)
  end.

Definition _evaluate_consensus_quality (opinions : list AgentOpinion) : R :=
  if (length opinions <=? 1)%nat then 1.0
  else
    let confidences := map confidence opinions in
    let confidence_consistency :=
      if decide (np_mean confidences > 0)
      then 1 - np_std confidences / np_mean confidences
      else 0 in
    let recommendation_overlap := _calculate_recommendation_overlap opinions in
    let all_concerns := flat_map concerns opinions in
    let unique_concerns := size (list_to_set all_concerns : gset string) in
    let total_concerns := length all_concerns in
    let concern_diversity :=
      if (0 <? total_concerns)%nat
      then INR unique_concerns / INR total_concerns
      else 0 in
    let consensus_quality :=
      confidence_consistency * 0.4 + recommendation_overlap * 0.4
      + concern_diversity * 0.2 in
    min consensus_quality 1.0.

Definition _evaluate_concern_coverage (opinions : list AgentOpinion)
    (ground_truth : GroundTruth) : R :=
  match default [] (expected_concerns ground_truth) with
  | [] => 1.0
  | expected_concerns =>
      let all_concerns := flat_map (λ op, map lower (concerns op)) opinions in
      let covered_concerns :=
        fold_left
          (λ covered expected,
             if existsb (λ concern, str_contains (lower expected) concern) all_concerns
             then S covered else covered)
          expected_concerns 0%nat in
      INR covered_concerns / INR (length expected_concerns)
  end.

(** [evaluate_case_analysis] never reads its [case]. *)
Definition evaluate_case_analysis {Case : Type} (case : Case)
    (agent_opinions : list AgentOpinion) (ground_truth : GroundTruth) : CaseResult :=
  let diagnosis_score := _evaluate_diagnosis agent_opinions (true_diagnosis ground_truth) in
  let treatment_score :=
    _evaluate_treatment agent_opinions (recommended_treatment ground_truth) in
  let consensus_score := _evaluate_consensus_quality agent_opinions in
  {| res_overall_score :=
       diagnosis_score * 0.4 + treatment_score * 0.4 + consensus_score * 0.2;
     res_diagnosis_score := diagnosis_score;
     res_treatment_score := treatment_score;
     res_consensus_score := consensus_score;
     res_detail_scores :=
       {| agent_confidence_avg := np_mean (map confidence agent_opinions);
          agent_confidence_std := np_std (map confidence agent_opinions);
          recommendation_overlap := _calculate_recommendation_overlap agent_opinions;
          concern_coverage := _evaluate_concern_coverage agent_opinions ground_truth |};
     res_case_id := None |}.

End Lower.

(** [a / b] on two [int]s. *)
Definition int_div (a b : nat) : result R :=
  if (b =? 0)%nat then raise ZeroDivisionError else mret (INR a / INR b).

(** [_generate_summary_metrics] reads three entries of [batch_results]. *)
Definition _generate_summary_metrics (total_cases : nat) (avg_scores : AvgScores)
    (score_distribution : ScoreDistribution) : result SummaryMetrics :=
  system_reliability ← int_div (high_performers score_distribution) total_cases;
  let areas := [] in
  let areas :=
    if decide (avg_diagnosis avg_scores < 0.7)
    then areas ++ ["诊断准确性需要提升"] else areas in
  let areas :=
    if decide (avg_treatment avg_scores < 0.7)
    then areas ++ ["治疗方案需要优化"] else areas in
  let areas :=
    if decide (avg_consensus avg_scores < 0.7)
    then areas ++ ["多智能体共识机制需要改进"] else areas in
  let strengths := [] in
  let strengths :=
    if decide (avg_diagnosis avg_scores >= 0.8)
    then strengths ++ ["诊断能力表现优秀"] else strengths in
  let strengths :=
    if decide (avg_treatment avg_scores >= 0.8)
    then strengths ++ ["治疗方案制定能力强"] else strengths in
  let strengths :=
    if decide (avg_consensus avg_scores >= 0.8)
    then strengths ++ ["多智能体协作效果好"] else strengths in
  let recommendations :=
    if (0 <? length areas)%nat
    then ["需要增加相关领域的训练数据"; "考虑调整模型参数或架构"] else [] in
  mret {| system_reliability := system_reliability;
          areas_for_improvement := areas;
          strength_areas := strengths;
          summary_recommendations := recommendations |}.

(** One round of the loop of [evaluate_batch]: the progress line is
    formatted first, with [test_case['case']['case_id']]. *)
Definition evaluate_batch_step (lower : string → string)
    (case_results : list CaseResult) (test_case : TestCase)
    : exception + list CaseResult :=
  match case_getitem (tc_case test_case) "case_id" with
  | inl e => inl e
  | inr _ =>
      let case_result :=
        evaluate_case_analysis lower (tc_case test_case)
          (tc_agent_opinions test_case) (tc_ground_truth test_case) in
      inr (case_results ++
           [ {| res_overall_score := res_overall_score case_result;
                res_diagnosis_score := res_diagnosis_score case_result;
                res_treatment_score := res_treatment_score case_result;
                res_consensus_score := res_consensus_score case_result;
                res_detail_scores := res_detail_scores case_result;
                res_case_id := Some (object_case_id (tc_case test_case)) |} ])
  end.

(** [evaluate_batch]; the [decision_engine] argument is not used by the
    source. *)
Definition evaluate_batch (lower : string → string) (test_cases : list TestCase)
    : exception + BatchResults :=
  let looped :=
    fold_left
      (λ acc test_case,
         match acc with
         | inl e => inl e
         | inr case_results => evaluate_batch_step lower case_results test_case
         end)
      test_cases (inr []) in
  match looped with
  | inl e => inl e
  | inr case_results =>
      let all_scores := map res_overall_score case_results in
      let diagnosis_scores := map res_diagnosis_score case_results in
      let treatment_scores := map res_treatment_score case_results in
      let consensus_scores := map res_consensus_score case_results in
      let avg_scores :=
        {| avg_overall := np_mean all_scores;
           avg_diagnosis := np_mean diagnosis_scores;
           avg_treatment := np_mean treatment_scores;
           avg_consensus := np_mean consensus_scores |} in
      let score_distribution :=
        {| overall_std := np_std all_scores;
           high_performers := length (filter (λ s, s >= 0.8) all_scores);
           low_performers := length (filter (λ s, s < 0.6) all_scores) |} in
      match _generate_summary_metrics (length test_cases) avg_scores
              score_distribution with
      | inl e => inl (Raised e)
      | inr summary_metrics =>
          inr {| total_cases := length test_cases;
                 avg_scores := avg_scores;
                 score_distribution := score_distribution;
                 case_results := case_results;
                 summary_metrics := summary_metrics |}
      end
  end.

(** A guideline is read through the keys it has. *)
Definition _calculate_guideline_adherence {V} (case_result : CaseResult)
    (guideline : pydict string V) : R :=
  let '(adherence_score, total_criteria) := (0.0, 0%nat) in
  let '(adherence_score, total_criteria) :=
    if bool_decide ("diagnosis_criteria" ∈ dict_keys guideline)
    then (if decide (res_diagnosis_score case_result >= 0.8)
          then adherence_score + 1 else adherence_score,
          S total_criteria)
    else (adherence_score, total_criteria) in
  let '(adherence_score, total_criteria) :=
    if bool_decide ("treatment_criteria" ∈ dict_keys guideline)
    then (if decide (res_treatment_score case_result >= 0.8)
          then adherence_score + 1 else adherence_score,
          S total_criteria)
    else (adherence_score, total_criteria) in
  if (0 <? total_criteria)%nat then adherence_score / INR total_criteria else 0.0.

Definition _identify_deviations {V} (case_result : CaseResult)
    (guideline : pydict string V) : list string :=
  let deviations := [] in
  let deviations :=
    if decide (res_diagnosis_score case_result < 0.8)
    then deviations ++ ["诊断准确性低于指南标准"] else deviations in
  if decide (res_treatment_score case_result < 0.8)
  then deviations ++ ["治疗方案不符合指南推荐"] else deviations.

End MedicalAIEvaluator.

(** ** experiments/experiment_runner.py *)

(** The runner reads two keys of its configuration; [_load_config] puts
    both into every configuration. *)
Record Config : Type := {
  include_agents : list string;
  batch_size : Z
}.

(** One element of the list that [load_test_dataset] builds; its key
    [expected_outcomes] is read nowhere. *)
Record DatasetCase : Type := {
  ds_case : MedicalCase;
  ds_ground_truth : GroundTruth
}.

(** The dict that [run_single_case_experiment] returns. *)
Record SingleResult : Type := {
  sr_case_id : string;
  sr_agent_opinions : list AgentOpinion;
  sr_decision_result : DecisionReport;
  sr_evaluation_result : CaseResult;
  sr_analysis_time : R;
  sr_ground_truth : GroundTruth
}.

(** The [metrics] dict of [_calculate_performance_metrics]. *)
Record PerformanceMetrics : Type := {
  average_analysis_time : R;
  median_analysis_time : R;
  max_analysis_time : R;
  min_analysis_time : R;
  average_score : R;
  score_std : R;
  high_score_cases : nat;
  low_score_cases : nat;
  throughput : R
}.

(** The [experiment_results] dict of [run_batch_experiment]. *)
Record ExperimentResults : Type := {
  experiment_config : Config;
  start_time : R;
  er_case_results : list SingleResult;
  batch_evaluation : BatchResults;
  performance_metrics : option PerformanceMetrics;
  end_time : R;
  total_duration : R
}.

Module ExperimentRunner.
Import Py.

Definition xresult (A : Type) : Type := exception + A.

(** [a / b] on Python numbers. *)
Definition div (a b : R) : xresult R :=
  if decide (b = 0) then inl (Raised ZeroDivisionError) else inr (a / b).

(** [sum(a)] *)
Definition sum (a : list R) : R := fold_left Rplus a 0.

(** [max(a)] and [min(a)] on the list [x :: a]. *)
Definition max (x : R) (a : list R) : R :=
  fold_left (λ m y, if decide (y > m) then y else m) a x.

Definition min (x : R) (a : list R) : R :=
  fold_left (λ m y, if decide (y < m) then y else m) a x.

(** [sorted(a)] *)
Fixpoint insert_asc (x : R) (a : list R) : list R :=
  match a with
  | [] => [x]
  | y :: a' => if decide (y <= x) then y :: insert_asc x a' else x :: y :: a'
  end.

Definition sorted (a : list R) : list R := foldr insert_asc [] a.

(** [a[i]] *)
Definition getitem (a : list R) (i : nat) : xresult R :=
  match a !! i with
  | Some x => inr x
  | None => inl IndexError
  end.

(** [range(0, stop, step)] *)
Definition range (stop : nat) (step : Z) : xresult (list nat) :=
  if decide (step = 0)%Z
  then inl (Raised (ValueError "range() arg 3 must not be zero"))
  else if decide (step < 0)%Z then inr []
  else
    let step := Z.to_nat step in
    inr (map (λ k, k * step)%nat (seq 0 ((stop + step - 1) / step))).

Definition _calculate_performance_metrics (case_results : list SingleResult)
    : xresult (option PerformanceMetrics) :=
  match case_results with
  | [] => inr None
  | first :: others =>
      let analysis_times := map sr_analysis_time case_results in
      let overall_scores :=
        map (λ r, res_overall_score (sr_evaluation_result r)) case_results in
      match div (sum analysis_times) (INR (length analysis_times)) with
      | inl e => inl e
      | inr average_analysis_time =>
      match getitem (sorted analysis_times) (length analysis_times / 2) with
      | inl e => inl e
      | inr median_analysis_time =>
      let max_analysis_time :=
        max (sr_analysis_time first) (map sr_analysis_time others) in
      let min_analysis_time :=
        min (sr_analysis_time first) (map sr_analysis_time others) in
      match div (sum overall_scores) (INR (length overall_scores)) with
      | inl e => inl e
      | inr average_score =>
      match div (sum (map (λ s, (s - average_score) ^ 2) overall_scores))
                (INR (length overall_scores)) with
      | inl e => inl e
      | inr variance =>
      let score_std := sqrt variance in
      let high_score_cases := length (filter (λ s, s >= 0.8) overall_scores) in
      let low_score_cases := length (filter (λ s, s < 0.6) overall_scores) in
      match div (INR (length case_results)) (sum analysis_times) with
      | inl e => inl e
      | inr per_second =>
      inr (Some {| average_analysis_time := average_analysis_time;
                   median_analysis_time := median_analysis_time;
                   max_analysis_time := max_analysis_time;
                   min_analysis_time := min_analysis_time;
                   average_score := average_score;
                   score_std := score_std;
                   high_score_cases := high_score_cases;
                   low_score_cases := low_score_cases;
                   throughput := per_second * 3600 |})
      end end end end end
  end.

Section Runner.

(** The agents call a language model and the runner reads the clock:
    [W] is the state of that outside world, [analyze_case] the call
    [agent.analyze_case(case)] of the agent of a role, with [None] for a
    call that raises, and [time] is [time.time()]. *)
Context {W : Type}.
Variable lower : string → string.
Variable analyze_case : AgentRole → MedicalCase → W → option AgentOpinion * W.
Variable time : W → R * W.
Variable config : Config.

(** The loop over [self.agents.items()] in [run_single_case_experiment];
    an agent that raises is skipped. *)
Definition collect_opinions (case : MedicalCase) (w : W) : list AgentOpinion * W :=
  fold_left
    (λ '(agent_opinions, w) role,
       if bool_decide (AgentRole_value role ∈ include_agents config)
       then match analyze_case role case w with
            | (Some opinion, w) => (agent_opinions ++ [opinion], w)
            | (None, w) => (agent_opinions, w)
            end
       else (agent_opinions, w))
    AgentRole_members ([], w).

Definition run_single_case_experiment (test_case : DatasetCase)
    (engine : DecisionEngine.state) (w : W)
    : xresult SingleResult * DecisionEngine.state * W :=
  let case := ds_case test_case in
  let ground_truth := ds_ground_truth test_case in
  let '(start_time, w) := time w in
  let '(agent_opinions, w) := collect_opinions case w in
  match DecisionEngine.make_decision engine case agent_opinions with
  | (inl e, engine) => (inl (Raised e), engine, w)
  | (inr decision_result, engine) =>
      let '(now, w) := time w in
      let analysis_time := now - start_time in
      let evaluation_result :=
        MedicalAIEvaluator.evaluate_case_analysis lower case agent_opinions
          ground_truth in
      (inr {| sr_case_id := case_id case;
              sr_agent_opinions := agent_opinions;
              sr_decision_result := decision_result;
              sr_evaluation_result := evaluation_result;
              sr_analysis_time := analysis_time;
              sr_ground_truth := ground_truth |},
       engine, w)
  end.

Definition _evaluate_batch_performance (case_results : list SingleResult)
    : xresult BatchResults :=
  let test_cases_for_eval :=
    map (λ result,
           {| tc_case := MockCase (sr_case_id result);
              tc_agent_opinions := sr_agent_opinions result;
              tc_ground_truth := sr_ground_truth result |})
        case_results in
  MedicalAIEvaluator.evaluate_batch lower test_cases_for_eval.

(** The loop over one [batch] in [run_batch_experiment]: a case that
    raises goes to the handler, which formats
    [test_case['case']['case_id']] for its message. *)
Definition run_batch (batch : list DatasetCase) (case_results : list SingleResult)
    (engine : DecisionEngine.state) (w : W)
    : xresult (list SingleResult) * DecisionEngine.state * W :=
  fold_left
    (λ '(acc, engine, w) test_case,
       match acc with
       | inl e => (inl e, engine, w)
       | inr case_results =>
           match run_single_case_experiment test_case engine w with
           | (inr case_result, engine, w) =>
               (inr (case_results ++ [case_result]), engine, w)
           | (inl _, engine, w) =>
               match case_getitem (ACase (ds_case test_case)) "case_id" with
               | inl e => (inl e, engine, w)
               | inr _ => (inr case_results, engine, w)
               end
           end
       end)
    batch (inr case_results, engine, w).

Definition run_batch_experiment (test_cases : list DatasetCase)
    (engine : DecisionEngine.state) (w : W)
    : xresult ExperimentResults * DecisionEngine.state * W :=
  let '(start_time, w) := time w in
  let batch_size := batch_size config in
  match range (length test_cases) batch_size with
  | inl e => (inl e, engine, w)
  | inr starts =>
      let '(looped, engine, w) :=
        fold_left
          (λ '(acc, engine, w) i,
             match acc with
             | inl e => (inl e, engine, w)
             | inr case_results =>
                 let batch := take (Z.to_nat batch_size) (drop i test_cases) in
                 run_batch batch case_results engine w
             end)
          starts (inr [], engine, w) in
      match looped with
      | inl e => (inl e, engine, w)
      | inr case_results =>
          let '(end_time, w) := time w in
          let total_duration := end_time - start_time in
          match _evaluate_batch_performance case_results with
          | inl e => (inl e, engine, w)
          | inr batch_evaluation =>
              match _calculate_performance_metrics case_results with
              | inl e => (inl e, engine, w)
              | inr performance_metrics =>
                  (inr {| experiment_config := config;
                          start_time := start_time;
                          er_case_results := case_results;
                          batch_evaluation := batch_evaluation;
                          performance_metrics := performance_metrics;
                          end_time := end_time;
                          total_duration := total_duration |},
                   engine, w)
              end
          end
      end
  end.

End Runner.

End ExperimentRunner.

(** ** Vocabulary of the statements *)

(** The keys of [risk_assessment], in the order [_assess_risks] creates them. *)
Definition risk_keys : list string :=
  ["medical_risk"; "psychological_risk"; "economic_risk"; "quality_of_life_risk"].

(** An opinion as an agent builds it, [priority_score] at its default. *)
Definition mk_opinion (id : string) (r : AgentRole) (conf : R)
    (recs cons : list string) : AgentOpinion :=
  {| agent_id := id; role := r; opinion := "assessment"; confidence := conf;
     reasoning := ""; recommendations := recs; concerns := cons;
     priority_score := 5.0; timestamp := "0" |}.

(** Two opinions without recommendations and of one confidence. *)
Definition no_recommendations : list AgentOpinion :=
  [ mk_opinion "onc_1" ONCOLOGIST 0.5 [] [];
    mk_opinion "rad_1" RADIOLOGIST 0.5 [] [] ].

(** The scenario of the oncologist and the radiologist on a biopsy. *)
Definition biopsy_oncologist : AgentOpinion :=
  mk_opinion "onc_1" ONCOLOGIST 0.9 ["biopsy"; "MRI"] [].
Definition biopsy_radiologist : AgentOpinion :=
  mk_opinion "rad_1" RADIOLOGIST 0.3 ["biopsy"] [].
Definition biopsy_scenario : list AgentOpinion :=
  [biopsy_oncologist; biopsy_radiologist].

(** Two opinions of low confidence and with concerns of their own that
    recommend the same thing. *)
Definition agreeing_low_confidence : list AgentOpinion :=
  [ mk_opinion "onc_1" ONCOLOGIST 0.3 ["biopsy"] ["转移风险"];
    mk_opinion "psy_1" PSYCHOLOGIST 0.3 ["biopsy"] ["焦虑"] ].




(** The keys of [risk_assessment] that the branch of [_assess_risks] for a
    role assigns. *)
Definition keys_written (r : AgentRole) : list string :=
  match r with
  | ONCOLOGIST => ["medical_risk"]
  | PSYCHOLOGIST => ["psychological_risk"]
  | PATIENT_ADVOCATE => ["economic_risk"; "quality_of_life_risk"]
  | RADIOLOGIST | NURSE => []
  end.

(** Which role is authoritative for which key, and with which keywords: the
    branches of [_assess_risks] read as a table. *)
Definition risk_authority : list (AgentRole * string * list string) :=
  [ (ONCOLOGIST, "medical_risk", ConsensusMatrix.risk_keywords);
    (PSYCHOLOGIST, "psychological_risk", ConsensusMatrix.psych_risk_keywords);
    (PATIENT_ADVOCATE, "economic_risk", ConsensusMatrix.economic_keywords);
    (PATIENT_ADVOCATE, "quality_of_life_risk", ConsensusMatrix.quality_keywords) ].

(** A risk table with every category at zero. *)
Definition zero_risks : Py.pydict string R := map (λ key, (key, 0)) risk_keys.

(** A consensus result of a given score and priority and without risk. *)
Definition calm_result (score priority : R) : ConsensusResult :=
  {| final_recommendation := "";
     consensus_score := score;
     weighted_priority := priority;
     dissenting_opinions := [];
     confidence_interval := (0, 1);
     risk_assessment := zero_risks |}.

Definition sample_case : MedicalCase :=
  {| case_id := "case_001"; symptoms := []; medical_history := [];
     current_treatment := None |}.

(** Two oncologists around a nurse. *)
Definition first_oncologist : AgentOpinion :=
  mk_opinion "onc_1" ONCOLOGIST 0.8 [] ["肿瘤转移"; "复发"].
Definition ward_nurse : AgentOpinion :=
  mk_opinion "nur_1" NURSE 0.8 [] ["副作用"; "并发症"].
Definition second_oncologist : AgentOpinion :=
  mk_opinion "onc_2" ONCOLOGIST 0.8 [] ["复发风险"; "依从性"].

(** The loop [counts[x] = counts.get(x, 0) + 1] over [l], started on [d]. *)
Definition count_into {K} `{EqDecision K} (d : Py.pydict K nat) (l : list K)
    : Py.pydict K nat :=
  fold_left (λ d x, Py.dict_set d x (Py.dict_get d x 0 + 1)%nat) l d.

(** How often a recommendation is mentioned in a list of recommendations. *)
Definition mentions (rec : string) (recs : list string) : nat :=
  length (filter (λ r, r = rec) recs).

(** A sequence of [make_decision] calls on one engine, each with its case
    and its opinions; a call that raises is caught by the caller, as the
    experiment runner does, and the engine goes on to the next one. *)
Definition make_decisions (self : DecisionEngine.state)
    (calls : list (MedicalCase * list AgentOpinion)) : DecisionEngine.state :=
  fold_left (λ engine call, (DecisionEngine.make_decision engine call.1 call.2).2)
            calls self.

(** The locals of [_generate_final_recommendation], for the weights that
    [calculate_consensus] passes in. *)
Definition weighted_of (opinions : list AgentOpinion) : Py.pydict string R :=
  ConsensusMatrix.weighted_recommendations opinions
    (ConsensusMatrix.opinion_weights opinions).

Definition sorted_recommendations (opinions : list AgentOpinion) : list (string * R) :=
  ConsensusMatrix.sorted_desc (weighted_of opinions).

Definition avg_weight (opinions : list AgentOpinion) : R :=
  Py.np_mean (Py.dict_values (weighted_of opinions)).

Definition high_priority (opinions : list AgentOpinion) : list string :=
  (filter (λ x, x.2 > avg_weight opinions) (sorted_recommendations opinions)).*1.

Definition other_recommendations (opinions : list AgentOpinion) : list string :=
  (filter (λ x, x.2 <= avg_weight opinions) (sorted_recommendations opinions)).*1.

(** Three opinions without recommendations and concerns, two of confidence 0
    and one of confidence 1. *)
Definition split_panel : list AgentOpinion :=
  [ mk_opinion "onc_1" ONCOLOGIST 0 [] [];
    mk_opinion "rad_1" RADIOLOGIST 0 [] [];
    mk_opinion "nur_1" NURSE 1 [] [] ].

(** The result of one experiment on [sample_case] that took [seconds] and
    scored [score] overall. *)
Definition timed_result (seconds score : R) : SingleResult :=
  let consensus_result := calm_result 0.9 5 in
  let ground_truth :=
    {| true_diagnosis := None; recommended_treatment := None;
       expected_concerns := None |} in
  {| sr_case_id := case_id sample_case;
     sr_agent_opinions := [];
     sr_decision_result :=
       {| report_case_id := case_id sample_case;
          report_consensus_result := consensus_result;
          report_agent_opinions := [];
          report_decision_summary :=
            DecisionEngine._generate_decision_summary consensus_result;
          report_next_steps :=
            DecisionEngine._determine_next_steps consensus_result sample_case;
          report_follow_up_plan :=
            DecisionEngine._create_follow_up_plan consensus_result;
          report_quality_metrics := [] |};
     sr_evaluation_result :=
       {| res_overall_score := score;
          res_diagnosis_score := score;
          res_treatment_score := score;
          res_consensus_score := score;
          res_detail_scores :=
            {| agent_confidence_avg := 0; agent_confidence_std := 0;
               recommendation_overlap := 0; concern_coverage := 1 |};
          res_case_id := None |};
     sr_analysis_time := seconds;
     sr_ground_truth := ground_truth |}.

(** A world for the runner: a counter that every reading of the clock
    advances; the oncologist and the nurse answer, the other agents raise. *)
Definition ticking_clock (w : nat) : R * nat := (INR w, S w).

Definition two_agents (role : AgentRole) (case : MedicalCase) (w : nat)
    : option AgentOpinion * nat :=
  (match role with
   | ONCOLOGIST => Some first_oncologist
   | NURSE => Some ward_nurse
   | _ => None
   end, w).

Definition every_agent : Config :=
  {| include_agents := map AgentRole_value AgentRole_members; batch_size := 10 |}.

Definition no_agent : Config := {| include_agents := []; batch_size := 10 |}.

Definition sample_test_case : DatasetCase :=
  {| ds_case := sample_case;
     ds_ground_truth :=
       {| true_diagnosis := None; recommended_treatment := None;
          expected_concerns := None |} |}.

(** Two opinions that recommend three different things. *)
Definition disagreeing_panel : list AgentOpinion :=
  [ mk_opinion "onc_1" ONCOLOGIST 0.8 ["biopsy"; "MRI"] [];
    mk_opinion "rad_1" RADIOLOGIST 0.8 ["PET-CT"] [] ].

(** Decides membership of a given string in a list of given strings. *)
Ltac string_mem :=
  lazymatch goal with
  | |- _ ∈ _ => apply (bool_decide_unpack _); vm_compute; exact I
  | |- _ ∉ _ => apply (bool_decide_eq_false_1 _); vm_compute; reflexivity
  | |- _ ∈ _ → False => apply (bool_decide_eq_false_1 _); vm_compute; reflexivity
  end.

(** Runs the binds of the exception monad whose first computation has
    already been evaluated to a value or to an exception. *)
Ltac result_steps :=
  cbn [mbind mret result_bind result_ret Py.bind Py.ret Py.raise].

(** Settles the comparisons of [if], [min] and [max] on closed numbers. *)
Ltac decide_R :=
  repeat first [ rewrite decide_True by lra | rewrite decide_False by lra ].

(** * Properties *)

(** ** The string primitives on UTF-8 text *)

Example str_contains_keyword : Py.str_contains "复发" "术后复发风险" = true.
Proof. reflexivity. Qed.

Example str_contains_absent : Py.str_contains "转移" "术后复发风险" = false.
Proof. reflexivity. Qed.

Example str_take_code_points : Py.str_take 2 "术后复发风险" = "术后".
Proof. reflexivity. Qed.

Example keyword_hits_oncologist :
  ConsensusMatrix.keyword_hits ConsensusMatrix.risk_keywords ["复发风险"; "依从性"] = 1%nat.
Proof. reflexivity. Qed.

Example recommendation_counts_order :
  ConsensusMatrix.recommendation_counts ["biopsy"; "MRI"; "biopsy"]
  = [("biopsy", 2%nat); ("MRI", 1%nat)].
Proof. reflexivity. Qed.

(** ** Dictionaries *)

Section DictFacts.
Context {K V : Type} `{EqDecision K}.
Implicit Types (d : Py.pydict K V) (k : K) (v : V).

Lemma dict_lookup_set_eq d k v : Py.dict_lookup (Py.dict_set d k v) k = Some v.
Proof.
  induction d as [|[k' v'] d IH]; simpl.
  - by rewrite decide_True.
  - destruct (decide (k' = k)) as [->|Hne]; simpl.
    + by rewrite decide_True.
    + by rewrite decide_False.
Qed.

Lemma dict_lookup_set_ne d k k' v :
  k ≠ k' → Py.dict_lookup (Py.dict_set d k v) k' = Py.dict_lookup d k'.
Proof.
  intros Hne. induction d as [|[k0 v0] d IH]; simpl.
  - by rewrite decide_False.
  - destruct (decide (k0 = k)) as [->|Hk0]; simpl.
    + by rewrite !decide_False.
    + by rewrite IH.
Qed.

Lemma dict_get_set_eq d k v dflt : Py.dict_get (Py.dict_set d k v) k dflt = v.
Proof. unfold Py.dict_get. by rewrite dict_lookup_set_eq. Qed.

Lemma dict_get_set_ne d k k' v dflt :
  k ≠ k' → Py.dict_get (Py.dict_set d k v) k' dflt = Py.dict_get d k' dflt.
Proof. intros Hne. unfold Py.dict_get. by rewrite dict_lookup_set_ne. Qed.

(** Assigning to a key the dict already has keeps the keys and their order. *)
Lemma dict_keys_set_present d k v :
  k ∈ Py.dict_keys d → Py.dict_keys (Py.dict_set d k v) = Py.dict_keys d.
Proof.
  unfold Py.dict_keys. induction d as [|[k' v'] d IH]; simpl; intros Hin.
  - by apply elem_of_nil in Hin.
  - destruct (decide (k' = k)) as [->|Hne]; simpl; [done|].
    f_equal. apply IH. apply elem_of_cons in Hin as [->|]; done.
Qed.

Lemma dict_values_set_Forall (P : V → Prop) d k v :
  P v → Forall P (Py.dict_values d) → Forall P (Py.dict_values (Py.dict_set d k v)).
Proof.
  unfold Py.dict_values. intros Hv. induction d as [|[k' v'] d IH]; simpl; intros Hd.
  - by constructor.
  - apply Forall_cons in Hd as [Hv' Hd].
    destruct (decide (k' = k)); simpl; constructor; auto.
Qed.

End DictFacts.

(** ** numpy on positive weights *)

Lemma np_sum_nonneg (l : list R) : Forall (λ x, 0 <= x) l → 0 <= Py.np_sum l.
Proof.
  induction 1 as [|x l Hx _ IH]; simpl; lra.
Qed.

Lemma np_sum_pos (x : R) (l : list R) :
  Forall (λ w, 0 < w) (x :: l) → 0 < Py.np_sum (x :: l).
Proof.
  intros Hl. apply Forall_cons in Hl as [Hx Hl].
  assert (0 <= Py.np_sum l).
  { apply np_sum_nonneg. eapply Forall_impl; [exact Hl|]. simpl. intros; lra. }
  simpl. lra.
Qed.

Lemma np_average_ok (a w : list R) :
  0 < Py.np_sum w →
  Py.np_average a w = inr (Py.np_sum (zip_with Rmult a w) / Py.np_sum w).
Proof.
  intros Hw. unfold Py.np_average. rewrite decide_False; [done|lra].
Qed.

Lemma role_weight_pos (r : AgentRole) :
  0 < Py.dict_get ConsensusMatrix.role_weights r 0.2.
Proof. destruct r; vm_compute; lra. Qed.

Lemma opinion_weights_pos (opinions : list AgentOpinion) :
  Forall (λ w, 0 < w) (ConsensusMatrix.opinion_weights opinions).
Proof.
  unfold ConsensusMatrix.opinion_weights. apply Forall_map, Forall_forall.
  intros op _. apply role_weight_pos.
Qed.

Lemma opinion_weights_sum_pos (op : AgentOpinion) (opinions : list AgentOpinion) :
  0 < Py.np_sum (ConsensusMatrix.opinion_weights (op :: opinions)).
Proof. apply np_sum_pos, (opinion_weights_pos (op :: opinions)). Qed.

(** ** Risk assessment: keys and range *)

Lemma assess_opinion_keys (risks : Py.pydict string R) (op : AgentOpinion) :
  Py.dict_keys risks = risk_keys →
  Py.dict_keys (ConsensusMatrix.assess_opinion risks op) = risk_keys.
Proof.
  intros Hk. unfold ConsensusMatrix.assess_opinion.
  assert (Hset : ∀ d k v, Py.dict_keys d = risk_keys → k ∈ risk_keys →
                   Py.dict_keys (Py.dict_set (V:=R) d k v) = risk_keys).
  { intros d k v Hd Hin. rewrite dict_keys_set_present; [done|]. by rewrite Hd. }
  destruct (role op); try done; repeat (apply Hset; [|set_solver]); done.
Qed.

Lemma fold_assess_keys (opinions : list AgentOpinion) (risks : Py.pydict string R) :
  Py.dict_keys risks = risk_keys →
  Py.dict_keys (fold_left ConsensusMatrix.assess_opinion opinions risks) = risk_keys.
Proof.
  revert risks. induction opinions as [|op opinions IH]; simpl; intros risks Hk; [done|].
  by apply IH, assess_opinion_keys.
Qed.

Lemma assess_risks_keys (opinions : list AgentOpinion) :
  Py.dict_keys (ConsensusMatrix._assess_risks opinions) = risk_keys.
Proof. by apply fold_assess_keys. Qed.

Lemma assess_risks_length (opinions : list AgentOpinion) :
  length (ConsensusMatrix._assess_risks opinions) = 4%nat.
Proof.
  pose proof (assess_risks_keys opinions) as Hk.
  apply (f_equal length) in Hk. unfold Py.dict_keys in Hk.
  by rewrite length_fmap in Hk.
Qed.

(** ** C1: the empty sequence is the only error *)

Lemma py_div_ok (a b : R) : b ≠ 0 → DecisionEngine.py_div a b = inr (a / b).
Proof. intros Hb. unfold DecisionEngine.py_div. by rewrite decide_False. Qed.

Lemma confidence_interval_returns (confidences weights : list R) :
  0 < Py.np_sum weights →
  ∃ ci, ConsensusMatrix._calculate_confidence_interval confidences weights = inr ci.
Proof.
  intros Hw. unfold ConsensusMatrix._calculate_confidence_interval.
  rewrite np_average_ok by done. result_steps.
  rewrite np_average_ok by done. result_steps. eauto.
Qed.

Lemma calculate_consensus_returns (op : AgentOpinion) (opinions : list AgentOpinion) :
  ∃ r, ConsensusMatrix.calculate_consensus (op :: opinions) = inr r
     ∧ consensus_score r = ConsensusMatrix._calculate_consensus_score (op :: opinions)
     ∧ dissenting_opinions r =
         ConsensusMatrix._identify_dissenting_opinions (op :: opinions) (consensus_score r)
     ∧ risk_assessment r = ConsensusMatrix._assess_risks (op :: opinions).
Proof.
  pose proof (opinion_weights_sum_pos op opinions) as Hw.
  destruct (confidence_interval_returns
              (map confidence (op :: opinions)) _ Hw) as [ci Hci].
  unfold ConsensusMatrix.calculate_consensus, ConsensusMatrix.weighted_confidence.
  rewrite !np_average_ok by done. result_steps.
  rewrite Hci. result_steps. eexists. split; [reflexivity|]. done.
Qed.

Lemma quality_metrics_returns (op : AgentOpinion) (opinions : list AgentOpinion)
    (r : ConsensusResult) :
  risk_assessment r = ConsensusMatrix._assess_risks (op :: opinions) →
  ∃ qm, DecisionEngine._calculate_quality_metrics (op :: opinions) r = inr qm.
Proof.
  intros Hr. unfold DecisionEngine._calculate_quality_metrics.
  rewrite !py_div_ok
    by first [ lra
             | apply not_0_INR; done
             | rewrite Hr, assess_risks_length; apply not_0_INR; done ].
  result_steps. eauto.
Qed.

Lemma decision_report_returns (case : MedicalCase) (op : AgentOpinion)
    (opinions : list AgentOpinion) :
  ∃ report, DecisionEngine.decision_report case (op :: opinions) = inr report
          ∧ ConsensusMatrix.calculate_consensus (op :: opinions)
            = inr (report_consensus_result report)
          ∧ report_case_id report = case_id case
          ∧ report_agent_opinions report = op :: opinions.
Proof.
  destruct (calculate_consensus_returns op opinions) as (r & Hr & _ & _ & Hrisk).
  destruct (quality_metrics_returns op opinions r Hrisk) as [qm Hqm].
  unfold DecisionEngine.decision_report.
  rewrite Hr. result_steps. rewrite Hqm. result_steps.
  eexists. split; [reflexivity|]. done.
Qed.

(** C1.  [calculate_consensus([])] raises [ValueError]; [make_decision] on
    an empty opinion list raises the same exception and leaves
    [decision_history] as it was.  On every non-empty list
    [calculate_consensus] returns a result, whose score, dissent list and
    risk table are the ones its helpers compute, and [make_decision] returns
    a report built on that result and appends exactly this report to the
    history. *)
Theorem C1_empty_is_the_only_error :
  (∃ msg, ConsensusMatrix.calculate_consensus [] = inl (Py.ValueError msg)
        ∧ ∀ self case,
            DecisionEngine.make_decision self case [] = (inl (Py.ValueError msg), self))
  ∧ (∀ op opinions,
       ∃ r, ConsensusMatrix.calculate_consensus (op :: opinions) = inr r
          ∧ consensus_score r = ConsensusMatrix._calculate_consensus_score (op :: opinions)
          ∧ dissenting_opinions r =
              ConsensusMatrix._identify_dissenting_opinions (op :: opinions)
                (consensus_score r)
          ∧ risk_assessment r = ConsensusMatrix._assess_risks (op :: opinions))
  ∧ (∀ self case op opinions,
       ∃ report,
         DecisionEngine.make_decision self case (op :: opinions)
         = (inr report,
            {| DecisionEngine.decision_history :=
                 DecisionEngine.decision_history self ++ [report] |})
         ∧ ConsensusMatrix.calculate_consensus (op :: opinions)
           = inr (report_consensus_result report)).
Proof.
  split; [|split].
  - eexists. split; [reflexivity|]. intros self case. reflexivity.
  - apply calculate_consensus_returns.
  - intros self case op opinions.
    destruct (decision_report_returns case op opinions) as (report & Hrep & Hcr & _).
    exists report. split; [|done].
    unfold DecisionEngine.make_decision. by rewrite Hrep.
Qed.

(** What [calculate_consensus] returns, field by field. *)
Lemma calculate_consensus_inv (opinions : list AgentOpinion) (r : ConsensusResult) :
  ConsensusMatrix.calculate_consensus opinions = inr r →
  opinions ≠ []
  ∧ consensus_score r = ConsensusMatrix._calculate_consensus_score opinions
  ∧ dissenting_opinions r =
      ConsensusMatrix._identify_dissenting_opinions opinions (consensus_score r)
  ∧ risk_assessment r = ConsensusMatrix._assess_risks opinions
  ∧ ConsensusMatrix._calculate_confidence_interval
      (map confidence opinions) (ConsensusMatrix.opinion_weights opinions)
    = inr (confidence_interval r).
Proof.
  destruct opinions as [|op opinions]; [discriminate|].
  pose proof (opinion_weights_sum_pos op opinions) as Hw.
  destruct (confidence_interval_returns
              (map confidence (op :: opinions)) _ Hw) as [ci Hci].
  unfold ConsensusMatrix.calculate_consensus, ConsensusMatrix.weighted_confidence.
  rewrite !np_average_ok by done. result_steps.
  rewrite Hci. result_steps. intros [= <-]. done.
Qed.

(** ** C4: a single opinion *)

(** C4.  On a sequence of exactly one opinion the consensus computation
    returns a result with [consensus_score = 1.0] and an empty
    [dissenting_opinions]. *)
Theorem C4_single_opinion (op : AgentOpinion) :
  ∃ r, ConsensusMatrix.calculate_consensus [op] = inr r
     ∧ consensus_score r = 1
     ∧ dissenting_opinions r = [].
Proof.
  destruct (calculate_consensus_returns op []) as (r & Hr & Hscore & Hdis & _).
  exists r. split; [done|].
  assert (consensus_score r = 1) as H1.
  { rewrite Hscore. unfold ConsensusMatrix._calculate_consensus_score. simpl. lra. }
  split; [done|].
  rewrite Hdis, H1. unfold ConsensusMatrix._identify_dissenting_opinions.
  rewrite decide_True; [done|lra].
Qed.

(** ** C6: dissent suppression *)

Lemma identify_dissenting_suppressed (opinions : list AgentOpinion) (score : R) :
  score > 0.8 → ConsensusMatrix._identify_dissenting_opinions opinions score = [].
Proof.
  intros Hs. unfold ConsensusMatrix._identify_dissenting_opinions.
  by rewrite decide_True.
Qed.

(** C6.  Whenever the consensus computation returns a result whose
    [consensus_score] exceeds 0.8, its [dissenting_opinions] is the empty
    list, whatever the confidences and concerns of the opinions are. *)
Theorem C6_dissent_suppressed (opinions : list AgentOpinion) (r : ConsensusResult) :
  ConsensusMatrix.calculate_consensus opinions = inr r →
  consensus_score r > 0.8 →
  dissenting_opinions r = [].
Proof.
  intros Hr Hs.
  destruct (calculate_consensus_inv opinions r Hr) as (_ & _ & Hdis & _).
  rewrite Hdis. by apply identify_dissenting_suppressed.
Qed.

(** ** Evaluating the numeric helpers *)

Lemma np_std_nonneg (a : list R) : 0 <= Py.np_std a.
Proof. apply sqrt_pos. Qed.

Lemma np_std_pair (a b : R) : Py.np_std [a; b] = Rabs (a - b) / 2.
Proof.
  unfold Py.np_std, Py.np_mean. cbn [map length Py.np_sum foldr INR].
  replace (_ / (1 + 1)) with (Rsqr ((a - b) / 2)) by (unfold Rsqr; field).
  rewrite sqrt_Rsqr_abs. unfold Rdiv. rewrite Rabs_mult.
  rewrite (Rabs_right (/ 2)) by lra. reflexivity.
Qed.

Lemma min_le_l (a b : R) : Py.min a b <= a.
Proof. unfold Py.min. case_decide; lra. Qed.

Lemma min_le_r (a b : R) : Py.min a b <= b.
Proof. unfold Py.min. case_decide; lra. Qed.

Lemma min_glb (a b c : R) : c <= a → c <= b → c <= Py.min a b.
Proof. unfold Py.min. case_decide; lra. Qed.


(** ** C2: no recommendation at all *)

Lemma all_recommendations_empty (opinions : list AgentOpinion) :
  Forall (λ op, recommendations op = []) opinions →
  ConsensusMatrix.all_recommendations opinions = [].
Proof.
  unfold ConsensusMatrix.all_recommendations.
  induction 1 as [|op opinions Hop _ IH]; simpl; [done|]. by rewrite Hop, IH.
Qed.

(** C2, as the code has it.  For every sequence of at least two opinions
    whose recommendation lists are all empty, [_calculate_consensus_score]
    returns 0.0 at its guard [total_recommendations == 0], before an overlap
    ratio or a confidence consistency is formed; the result of
    [calculate_consensus] carries that score. *)
Theorem C2_no_recommendations_score_zero (opinions : list AgentOpinion) :
  (2 <= length opinions)%nat →
  Forall (λ op, recommendations op = []) opinions →
  ConsensusMatrix._calculate_consensus_score opinions = 0
  ∧ ∃ r, ConsensusMatrix.calculate_consensus opinions = inr r
       ∧ consensus_score r = 0.
Proof.
  intros Hlen Hrecs.
  assert (ConsensusMatrix._calculate_consensus_score opinions = 0) as Hscore.
  { unfold ConsensusMatrix._calculate_consensus_score.
    destruct (Nat.leb_spec (length opinions) 1) as [Hle|_]; [lia|].
    rewrite all_recommendations_empty by done. simpl. lra. }
  split; [done|].
  destruct opinions as [|op opinions]; [simpl in Hlen; lia|].
  destruct (calculate_consensus_returns op opinions) as (r & Hr & Hs & _).
  exists r. split; [done|]. by rewrite Hs.
Qed.

Lemma C2_no_recommendations_score_zero_witness :
  ConsensusMatrix._calculate_consensus_score no_recommendations = 0
  ∧ ∃ r, ConsensusMatrix.calculate_consensus no_recommendations = inr r
       ∧ consensus_score r = 0.
Proof.
  apply (C2_no_recommendations_score_zero no_recommendations).
  - simpl. lia.
  - repeat constructor.
Defined.

(** C2 as worded fails: on two opinions of confidence 0.5 without
    recommendations the worded value is [0.3 * (1 - 0 / 0.5) = 0.3], and the
    code returns 0. *)
Lemma C2_counterexample :
  (2 <= length no_recommendations)%nat
  ∧ Forall (λ op, recommendations op = []) no_recommendations
  ∧ Py.min (0.7 * 0 + 0.3 * ConsensusMatrix.confidence_consistency no_recommendations) 1.0
    = 0.3
  ∧ ConsensusMatrix._calculate_consensus_score no_recommendations
    ≠ Py.min (0.7 * 0 + 0.3 * ConsensusMatrix.confidence_consistency no_recommendations) 1.0.
Proof.
  assert (ConsensusMatrix.confidence_consistency no_recommendations = 1) as Hc.
  { unfold ConsensusMatrix.confidence_consistency, no_recommendations.
    cbn [map confidence mk_opinion]. rewrite np_std_pair.
    replace (0.5 - 0.5) with 0 by lra. rewrite Rabs_R0.
    unfold Py.min. decide_R. lra. }
  assert (ConsensusMatrix._calculate_consensus_score no_recommendations = 0) as Hs.
  { unfold ConsensusMatrix._calculate_consensus_score. simpl. lra. }
  split; [simpl; lia|]. split; [repeat constructor|].
  rewrite Hc, Hs. unfold Py.min. decide_R. split; lra.
Qed.

(** ** C3: the biopsy scenario *)

Lemma overlapping_count_biopsy :
  ConsensusMatrix.overlapping_count ["biopsy"; "MRI"; "biopsy"] = 2%nat.
Proof. reflexivity. Qed.

Section BiopsyScenario.
Variables a b : AgentOpinion.
Hypothesis Hra : role a = ONCOLOGIST.
Hypothesis Hca : confidence a = 0.9.
Hypothesis Hreca : recommendations a = ["biopsy"; "MRI"].
Hypothesis Hrb : role b = RADIOLOGIST.
Hypothesis Hcb : confidence b = 0.3.
Hypothesis Hrecb : recommendations b = ["biopsy"].

Lemma biopsy_overlap_ratio : ConsensusMatrix.overlap_ratio [a; b] = 2 / 3.
Proof using Hreca Hrecb.
  unfold ConsensusMatrix.overlap_ratio, ConsensusMatrix.all_recommendations.
  cbn [flat_map]. rewrite Hreca, Hrecb. cbn [app length].
  rewrite overlapping_count_biopsy. simpl. lra.
Qed.

Lemma biopsy_confidence_consistency :
  ConsensusMatrix.confidence_consistency [a; b] = 0.4.
Proof using Hca Hcb.
  unfold ConsensusMatrix.confidence_consistency. cbn [map].
  rewrite Hca, Hcb, np_std_pair.
  replace (0.9 - 0.3) with 0.6 by lra. rewrite Rabs_right by lra.
  unfold Py.min. decide_R. lra.
Qed.

Lemma biopsy_consensus_score :
  ConsensusMatrix._calculate_consensus_score [a; b] = 0.7 * (2 / 3) + 0.3 * 0.4.
Proof using Hca Hcb Hreca Hrecb.
  unfold ConsensusMatrix._calculate_consensus_score,
    ConsensusMatrix.all_recommendations.
  cbn [flat_map length Nat.leb]. rewrite Hreca, Hrecb. cbn [app length Nat.eqb].
  rewrite biopsy_overlap_ratio, biopsy_confidence_consistency.
  unfold Py.min. decide_R. reflexivity.
Qed.

Lemma biopsy_weighted_confidence :
  ConsensusMatrix.weighted_confidence [a; b] = inr 0.65.
Proof using Hra Hrb Hca Hcb.
  unfold ConsensusMatrix.weighted_confidence, ConsensusMatrix.opinion_weights.
  cbn [map]. rewrite Hra, Hrb, Hca, Hcb.
  rewrite np_average_ok by (vm_compute; lra).
  f_equal. vm_compute. lra.
Qed.

End BiopsyScenario.

(** C3, as the code has it.  For two opinions, an oncologist (weight 0.35) of
    confidence 0.9 recommending [biopsy; MRI] and a radiologist (weight 0.25)
    of confidence 0.3 recommending [biopsy]: the weighted confidence is
    (0.35*0.9 + 0.25*0.3) / 0.6 = 0.65; the overlap ratio is 2/3, both
    mentions of the repeated item being counted; the consensus score is
    0.7 * 2/3 + 0.3 * 0.4, below 0.8; and [dissenting_opinions] holds a
    low-confidence line for the radiologist. *)
Theorem C3_biopsy_scenario (a b : AgentOpinion) :
  role a = ONCOLOGIST → confidence a = 0.9 → recommendations a = ["biopsy"; "MRI"] →
  role b = RADIOLOGIST → confidence b = 0.3 → recommendations b = ["biopsy"] →
  ConsensusMatrix.weighted_confidence [a; b] = inr 0.65
  ∧ ConsensusMatrix.overlap_ratio [a; b] = 2 / 3
  ∧ ∃ r, ConsensusMatrix.calculate_consensus [a; b] = inr r
       ∧ consensus_score r = 0.7 * (2 / 3) + 0.3 * 0.4
       ∧ consensus_score r < 0.8
       ∧ LowConfidence "radiologist" 0.3 (Py.str_take 100 (opinion b))
         ∈ dissenting_opinions r.
Proof.
  intros Hra Hca Hreca Hrb Hcb Hrecb.
  split; [by apply biopsy_weighted_confidence|].
  split; [by apply biopsy_overlap_ratio|].
  destruct (calculate_consensus_returns a [b]) as (r & Hr & Hs & Hdis & _).
  rewrite (biopsy_consensus_score a b) in Hs by done.
  exists r. rewrite Hs in *. repeat split; [done|lra|].
  rewrite Hdis. unfold ConsensusMatrix._identify_dissenting_opinions.
  rewrite decide_False by lra. cbn [flat_map].
  apply elem_of_app. right. apply elem_of_app. left.
  unfold ConsensusMatrix.dissent_of. rewrite Hcb, Hrb. decide_R.
  apply elem_of_app. left. cbn [AgentRole_value]. apply list_elem_of_singleton.
  reflexivity.
Qed.

Lemma C3_biopsy_scenario_witness :
  ConsensusMatrix.weighted_confidence biopsy_scenario = inr 0.65
  ∧ ConsensusMatrix.overlap_ratio biopsy_scenario = 2 / 3
  ∧ ∃ r, ConsensusMatrix.calculate_consensus biopsy_scenario = inr r
       ∧ consensus_score r = 0.7 * (2 / 3) + 0.3 * 0.4
       ∧ consensus_score r < 0.8
       ∧ LowConfidence "radiologist" 0.3 (Py.str_take 100 (opinion biopsy_radiologist))
         ∈ dissenting_opinions r.
Proof.
  apply (C3_biopsy_scenario biopsy_oncologist biopsy_radiologist); reflexivity.
Defined.

(** C3 as worded fails on the scenario itself: the overlap ratio is 2/3, not
    1/3, and the weighted confidence is 0.65, more than 0.01 away from
    0.6375. *)
Lemma C3_counterexample :
  ConsensusMatrix.overlap_ratio biopsy_scenario ≠ 1 / 3
  ∧ ∃ wc, ConsensusMatrix.weighted_confidence biopsy_scenario = inr wc
        ∧ Rabs (wc - 0.6375) > 0.01.
Proof.
  unfold biopsy_scenario. split.
  - rewrite (biopsy_overlap_ratio biopsy_oncologist biopsy_radiologist) by reflexivity.
    lra.
  - exists 0.65. split.
    + by apply biopsy_weighted_confidence.
    + replace (0.65 - 0.6375) with 0.0125 by lra. rewrite Rabs_right; lra.
Qed.

(** ** Range of the consensus score *)

Lemma confidence_consistency_range (opinions : list AgentOpinion) :
  0 <= ConsensusMatrix.confidence_consistency opinions <= 1.
Proof.
  unfold ConsensusMatrix.confidence_consistency.
  pose proof (np_std_nonneg (map confidence opinions)) as Hstd.
  pose proof (min_le_r (Py.np_std (map confidence opinions)) 0.5).
  pose proof (min_glb (Py.np_std (map confidence opinions)) 0.5 0 Hstd ltac:(lra)).
  lra.
Qed.

Lemma overlap_ratio_nonneg (opinions : list AgentOpinion) :
  ConsensusMatrix.all_recommendations opinions ≠ [] →
  0 <= ConsensusMatrix.overlap_ratio opinions.
Proof.
  intros Hne. unfold ConsensusMatrix.overlap_ratio.
  apply Rmult_le_pos; [apply pos_INR|].
  left. apply Rinv_0_lt_compat, lt_0_INR.
  destruct (ConsensusMatrix.all_recommendations opinions); [done|simpl; lia].
Qed.

Lemma consensus_score_range (opinions : list AgentOpinion) :
  0 <= ConsensusMatrix._calculate_consensus_score opinions <= 1.
Proof.
  unfold ConsensusMatrix._calculate_consensus_score.
  destruct (length opinions <=? 1)%nat; [lra|].
  destruct (Nat.eqb_spec (length (ConsensusMatrix.all_recommendations opinions)) 0)
    as [|Hne]; [lra|].
  assert (0 <= ConsensusMatrix.overlap_ratio opinions).
  { apply overlap_ratio_nonneg. intros Hnil. by rewrite Hnil in Hne. }
  pose proof (confidence_consistency_range opinions).
  split; [apply min_glb; lra|].
  eapply Rle_trans; [apply min_le_r|lra].
Qed.

Lemma agreeing_low_confidence_score :
  ConsensusMatrix._calculate_consensus_score agreeing_low_confidence = 1.
Proof.
  assert (ConsensusMatrix.overlap_ratio agreeing_low_confidence = 1) as Hov.
  { unfold ConsensusMatrix.overlap_ratio.
    change (ConsensusMatrix.all_recommendations _) with ["biopsy"; "biopsy"].
    change (ConsensusMatrix.overlapping_count _) with 2%nat. simpl. lra. }
  assert (ConsensusMatrix.confidence_consistency agreeing_low_confidence = 1) as Hc.
  { unfold ConsensusMatrix.confidence_consistency, agreeing_low_confidence.
    cbn [map confidence mk_opinion].
    rewrite np_std_pair. replace (0.3 - 0.3) with 0 by lra. rewrite Rabs_R0.
    unfold Py.min. decide_R. lra. }
  unfold ConsensusMatrix._calculate_consensus_score.
  change (length agreeing_low_confidence <=? 1)%nat with false.
  change (length _ =? 0)%nat with false. cbv iota.
  rewrite Hov, Hc. unfold Py.min. decide_R. lra.
Qed.

Lemma C6_dissent_suppressed_witness :
  ∃ r, ConsensusMatrix.calculate_consensus agreeing_low_confidence = inr r
     ∧ consensus_score r > 0.8
     ∧ dissenting_opinions r = [].
Proof.
  destruct (calculate_consensus_returns
              (mk_opinion "onc_1" ONCOLOGIST 0.3 ["biopsy"] ["转移风险"])
              [mk_opinion "psy_1" PSYCHOLOGIST 0.3 ["biopsy"] ["焦虑"]])
    as (r & Hr & Hs & _).
  assert (consensus_score r > 0.8) as Hhigh.
  { rewrite Hs. fold agreeing_low_confidence.
    rewrite agreeing_low_confidence_score. lra. }
  exists r. split; [exact Hr|]. split; [exact Hhigh|].
  exact (C6_dissent_suppressed agreeing_low_confidence r Hr Hhigh).
Defined.

(** ** Range of the confidence interval *)

Lemma weighted_sum_range (a w : list R) :
  Forall (λ c, 0 <= c <= 1) a → Forall (λ x, 0 < x) w →
  0 <= Py.np_sum (zip_with Rmult a w) <= Py.np_sum w.
Proof.
  intros Ha. revert w. induction Ha as [|c a Hc _ IH]; intros w Hw.
  - simpl. split; [lra|]. apply np_sum_nonneg.
    eapply Forall_impl; [exact Hw|]. simpl. intros; lra.
  - destruct Hw as [|x w Hx Hw]; simpl; [lra|].
    specialize (IH w Hw). nra.
Qed.

Lemma confidence_interval_range (confidences weights : list R) (lo hi : R) :
  confidences ≠ [] →
  Forall (λ c, 0 <= c <= 1) confidences →
  Forall (λ x, 0 < x) weights →
  0 < Py.np_sum weights →
  ConsensusMatrix._calculate_confidence_interval confidences weights = inr (lo, hi) →
  0 <= lo ∧ lo <= hi ∧ hi <= 1.
Proof.
  intros Hne Hc Hw Hsum. unfold ConsensusMatrix._calculate_confidence_interval.
  rewrite np_average_ok by done. result_steps.
  rewrite np_average_ok by done. result_steps.
  set (mean := Py.np_sum (zip_with Rmult confidences weights) / Py.np_sum weights).
  set (margin := 1.96 * sqrt _ / sqrt (INR (length confidences))).
  intros [= <- <-].
  assert (0 <= mean <= 1) as Hmean.
  { pose proof (weighted_sum_range confidences weights Hc Hw) as [H0 H1].
    unfold mean. split.
    - apply Rmult_le_pos; [done|]. left. by apply Rinv_0_lt_compat.
    - apply (Rmult_le_reg_r (Py.np_sum weights)); [done|].
      unfold Rdiv. rewrite Rmult_assoc, Rinv_l by lra. lra. }
  assert (0 <= margin) as Hmargin.
  { unfold margin. apply Rmult_le_pos.
    - apply Rmult_le_pos; [lra|apply sqrt_pos].
    - left. apply Rinv_0_lt_compat, sqrt_lt_R0, lt_0_INR.
      destruct confidences; [done|simpl; lia]. }
  unfold Py.max, Py.min. repeat case_decide; lra.
Qed.

(** ** Range of the risk values *)

Lemma keyword_hits_le (keywords concerns : list string) :
  (ConsensusMatrix.keyword_hits keywords concerns <= length concerns)%nat.
Proof. unfold ConsensusMatrix.keyword_hits. apply length_filter. Qed.

Lemma risk_ratio_range (keywords concerns : list string) :
  0 <= ConsensusMatrix.risk_ratio keywords concerns <= 1.
Proof.
  unfold ConsensusMatrix.risk_ratio.
  set (x := match concerns with [] => 0 | _ => _ end).
  assert (0 <= x) as Hx.
  { unfold x. destruct concerns as [|c concerns]; [lra|].
    apply Rmult_le_pos; [apply pos_INR|].
    left. apply Rinv_0_lt_compat, lt_0_INR. simpl. lia. }
  split; [apply min_glb; lra|].
  eapply Rle_trans; [apply min_le_r|lra].
Qed.

Lemma risk_ratio_no_concerns (keywords : list string) :
  ConsensusMatrix.risk_ratio keywords [] = 0.
Proof. unfold ConsensusMatrix.risk_ratio, Py.min. decide_R. reflexivity. Qed.

Lemma assess_opinion_range (risks : Py.pydict string R) (op : AgentOpinion) :
  Forall (λ v, 0 <= v <= 1) (Py.dict_values risks) →
  Forall (λ v, 0 <= v <= 1) (Py.dict_values (ConsensusMatrix.assess_opinion risks op)).
Proof.
  intros Hr. unfold ConsensusMatrix.assess_opinion.
  destruct (role op); try done;
    repeat (apply dict_values_set_Forall; [apply risk_ratio_range|]); done.
Qed.

Lemma assess_risks_range (opinions : list AgentOpinion) :
  Forall (λ v, 0 <= v <= 1) (Py.dict_values (ConsensusMatrix._assess_risks opinions)).
Proof.
  unfold ConsensusMatrix._assess_risks.
  assert (Forall (λ v, 0 <= v <= 1) (Py.dict_values ConsensusMatrix.initial_risks)) as H0.
  { unfold ConsensusMatrix.initial_risks, Py.dict_values. simpl.
    repeat (apply Forall_cons; split; [lra|]). apply Forall_nil_2. }
  revert H0. generalize ConsensusMatrix.initial_risks.
  induction opinions as [|op opinions IH]; simpl; intros risks Hr; [done|].
  by apply IH, assess_opinion_range.
Qed.

(** An opinion leaves alone every key its role does not assign. *)
Lemma assess_opinion_lookup_other (risks : Py.pydict string R) (op : AgentOpinion)
    (key : string) :
  key ∉ keys_written (role op) →
  Py.dict_lookup (ConsensusMatrix.assess_opinion risks op) key
  = Py.dict_lookup risks key.
Proof.
  intros Hkey. unfold ConsensusMatrix.assess_opinion.
  destruct (role op); simpl in Hkey; try done;
    rewrite !dict_lookup_set_ne; try done; set_solver.
Qed.

Lemma fold_assess_lookup_other (opinions : list AgentOpinion)
    (risks : Py.pydict string R) (key : string) :
  Forall (λ op, key ∉ keys_written (role op)) opinions →
  Py.dict_lookup (fold_left ConsensusMatrix.assess_opinion opinions risks) key
  = Py.dict_lookup risks key.
Proof.
  intros Hall. revert risks.
  induction Hall as [|op opinions Hop _ IH]; simpl; intros risks; [done|].
  by rewrite IH, assess_opinion_lookup_other.
Qed.

(** A role that is not [r] assigns none of the keys of [r]. *)
Lemma not_written_by_others (r : AgentRole) (key : string) (opinions : list AgentOpinion) :
  key ∈ keys_written r →
  Forall (λ op, role op ≠ r) opinions →
  Forall (λ op, key ∉ keys_written (role op)) opinions.
Proof.
  intros Hkey Hall. eapply Forall_impl; [exact Hall|]. simpl. intros op Hop.
  assert (Forall (λ k, k ∉ keys_written (role op)) (keys_written r)) as Hdisjoint.
  { destruct r, (role op); try done; apply (bool_decide_unpack _); by vm_compute. }
  by eapply Forall_forall in Hdisjoint.
Qed.

Lemma assess_risks_default (r : AgentRole) (key : string) (opinions : list AgentOpinion) :
  key ∈ keys_written r →
  Forall (λ op, role op ≠ r) opinions →
  Py.dict_lookup (ConsensusMatrix._assess_risks opinions) key = Some 0.
Proof.
  intros Hkey Hall. unfold ConsensusMatrix._assess_risks.
  rewrite fold_assess_lookup_other by eauto using not_written_by_others.
  destruct r; simpl in Hkey;
    repeat (apply elem_of_cons in Hkey as [->|Hkey]);
    try (by apply elem_of_nil in Hkey);
    cbn; f_equal; lra.
Qed.

(** ** C5: ranges of the result *)

(** C5.  On every non-empty opinion sequence whose confidences lie in [0,1]
    the consensus computation returns a result with
    [0 <= consensus_score <= 1]; with a confidence interval whose lower bound
    is at most its upper bound, both in [0,1]; and with a [risk_assessment]
    whose keys are exactly the four categories, each value in [0,1] and equal
    to 0.0, the initial entry, for a category whose authoritative role gave
    no opinion. *)
Theorem C5_result_ranges (opinions : list AgentOpinion) :
  opinions ≠ [] →
  Forall (λ op, 0 <= confidence op <= 1) opinions →
  ∃ r, ConsensusMatrix.calculate_consensus opinions = inr r
     ∧ 0 <= consensus_score r <= 1
     ∧ (confidence_interval r).1 <= (confidence_interval r).2
     ∧ 0 <= (confidence_interval r).1 <= 1
     ∧ 0 <= (confidence_interval r).2 <= 1
     ∧ Py.dict_keys (risk_assessment r) = risk_keys
     ∧ Forall (λ v, 0 <= v <= 1) (Py.dict_values (risk_assessment r))
     ∧ (∀ owner key,
          key ∈ keys_written owner →
          Forall (λ op, role op ≠ owner) opinions →
          Py.dict_lookup (risk_assessment r) key = Some 0).
Proof.
  intros Hne Hconf. destruct opinions as [|op opinions]; [done|].
  destruct (calculate_consensus_returns op opinions) as (r & Hr & Hs & _ & Hrisk).
  destruct (calculate_consensus_inv _ _ Hr) as (_ & _ & _ & _ & Hci).
  exists r. split; [done|].
  split; [rewrite Hs; apply consensus_score_range|].
  destruct (confidence_interval r) as [lo hi]. simpl.
  apply confidence_interval_range in Hci as (Hlo & Hle & Hhi).
  - rewrite Hrisk. repeat split; try lra.
    + apply assess_risks_keys.
    + apply assess_risks_range.
    + intros owner key. apply assess_risks_default.
  - done.
  - by apply Forall_map.
  - apply opinion_weights_pos.
  - apply opinion_weights_sum_pos.
Qed.

Lemma C5_result_ranges_witness :
  ∃ r, ConsensusMatrix.calculate_consensus biopsy_scenario = inr r
     ∧ 0 <= consensus_score r <= 1
     ∧ (confidence_interval r).1 <= (confidence_interval r).2
     ∧ 0 <= (confidence_interval r).1 <= 1
     ∧ 0 <= (confidence_interval r).2 <= 1
     ∧ Py.dict_keys (risk_assessment r) = risk_keys
     ∧ Forall (λ v, 0 <= v <= 1) (Py.dict_values (risk_assessment r))
     ∧ (∀ owner key,
          key ∈ keys_written owner →
          Forall (λ op, role op ≠ owner) biopsy_scenario →
          Py.dict_lookup (risk_assessment r) key = Some 0).
Proof.
  apply (C5_result_ranges biopsy_scenario).
  - discriminate.
  - unfold biopsy_scenario. repeat (apply Forall_cons; split; [simpl; lra|]).
    apply Forall_nil_2.
Defined.

(** ** C7: confidences that move toward their mean *)
















(** ** C8: priority gating of the next steps *)

(** C8.  In [_determine_next_steps]: when [weighted_priority > 8.0] the first
    step is the high-priority one; when it is not but
    [weighted_priority > 6.0], the first step is the moderate-priority one;
    and when no rule fires ([consensus_score >= 0.5], the medical risk at
    most 0.7, the psychological and the economic risk at most 0.5,
    [weighted_priority <= 6.0]) the steps are the default step alone. *)
Theorem C8_next_steps_priority (r : ConsensusResult) (case : MedicalCase) :
  (weighted_priority r > 8.0 →
   head (DecisionEngine._determine_next_steps r case)
   = Some DecisionEngine.high_priority_step)
  ∧ (weighted_priority r <= 8.0 → weighted_priority r > 6.0 →
     head (DecisionEngine._determine_next_steps r case)
     = Some DecisionEngine.moderate_priority_step)
  ∧ (consensus_score r >= 0.5 →
     Py.dict_get (risk_assessment r) "medical_risk" 0 <= 0.7 →
     Py.dict_get (risk_assessment r) "psychological_risk" 0 <= 0.5 →
     Py.dict_get (risk_assessment r) "economic_risk" 0 <= 0.5 →
     weighted_priority r <= 6.0 →
     DecisionEngine._determine_next_steps r case = [DecisionEngine.default_step]).
Proof.
  unfold DecisionEngine._determine_next_steps. cbv zeta. split; [|split].
  - intros Hp. by rewrite (decide_True (P := weighted_priority r > 8.0)).
  - intros Hp8 Hp6.
    rewrite (decide_False (P := weighted_priority r > 8.0)) by lra.
    by rewrite (decide_True (P := weighted_priority r > 6.0)).
  - intros Hs Hm Hpsy He Hp.
    rewrite (decide_False (P := consensus_score r < 0.5)) by lra.
    rewrite (decide_False (P := Py.dict_get _ "medical_risk" 0 > 0.7)) by lra.
    rewrite (decide_False (P := Py.dict_get _ "psychological_risk" 0 > 0.5)) by lra.
    rewrite (decide_False (P := Py.dict_get _ "economic_risk" 0 > 0.5)) by lra.
    rewrite (decide_False (P := weighted_priority r > 8.0)) by lra.
    by rewrite (decide_False (P := weighted_priority r > 6.0)) by lra.
Qed.

Lemma C8_next_steps_priority_witness :
  head (DecisionEngine._determine_next_steps (calm_result 0.9 9) sample_case)
  = Some DecisionEngine.high_priority_step
  ∧ head (DecisionEngine._determine_next_steps (calm_result 0.9 7) sample_case)
    = Some DecisionEngine.moderate_priority_step
  ∧ DecisionEngine._determine_next_steps (calm_result 0.9 5) sample_case
    = [DecisionEngine.default_step].
Proof.
  split; [|split].
  - apply (proj1 (C8_next_steps_priority (calm_result 0.9 9) sample_case)).
    cbn [weighted_priority calm_result]. lra.
  - apply (proj1 (proj2 (C8_next_steps_priority (calm_result 0.9 7) sample_case)));
      cbn [weighted_priority calm_result]; lra.
  - apply (proj2 (proj2 (C8_next_steps_priority (calm_result 0.9 5) sample_case)));
      cbn [weighted_priority consensus_score risk_assessment calm_result];
      try change (Py.dict_get zero_risks _ 0) with 0; lra.
Defined.

(** ** C9: opinions without concerns *)

Lemma initial_risks_zero : ConsensusMatrix.initial_risks = zero_risks.
Proof.
  unfold ConsensusMatrix.initial_risks, zero_risks, risk_keys. simpl.
  repeat f_equal; lra.
Qed.

Lemma assess_opinion_no_concerns (op : AgentOpinion) :
  concerns op = [] → ConsensusMatrix.assess_opinion zero_risks op = zero_risks.
Proof.
  intros Hc. unfold ConsensusMatrix.assess_opinion.
  rewrite Hc, !risk_ratio_no_concerns. by destruct (role op).
Qed.

Lemma assess_risks_no_concerns (opinions : list AgentOpinion) :
  Forall (λ op, concerns op = []) opinions →
  ConsensusMatrix._assess_risks opinions = zero_risks.
Proof.
  unfold ConsensusMatrix._assess_risks. rewrite initial_risks_zero.
  induction 1 as [|op opinions Hop _ IH]; simpl; [done|].
  by rewrite assess_opinion_no_concerns.
Qed.

Lemma follow_up_without_high_risk (r : ConsensusResult) :
  Forall (λ risk, risk <= 0.6) (Py.dict_values (risk_assessment r)) →
  DecisionEngine._create_follow_up_plan r
  = [ ("short_term", []);
      ("medium_term", DecisionEngine.medium_term_items);
      ("long_term", DecisionEngine.long_term_items) ].
Proof.
  intros Hlow. unfold DecisionEngine._create_follow_up_plan. cbv zeta.
  assert (existsb (λ risk, bool_decide (risk > 0.6)) (Py.dict_values (risk_assessment r))
          = false) as ->.
  { induction Hlow as [|risk risks Hrisk _ IH]; simpl; [done|].
    rewrite bool_decide_eq_false_2 by lra. done. }
  reflexivity.
Qed.

(** C9.  On every non-empty opinion sequence in which no opinion has a
    concern, [make_decision] returns a report whose four [risk_assessment]
    values are 0.0 and whose [follow_up_plan] has an empty [short_term] and
    the fixed three-item lists under [medium_term] and [long_term]. *)
Theorem C9_no_concerns (self : DecisionEngine.state) (case : MedicalCase)
    (opinions : list AgentOpinion) :
  opinions ≠ [] →
  Forall (λ op, concerns op = []) opinions →
  ∃ report,
    (DecisionEngine.make_decision self case opinions).1 = inr report
    ∧ risk_assessment (report_consensus_result report)
      = [ ("medical_risk", 0); ("psychological_risk", 0);
          ("economic_risk", 0); ("quality_of_life_risk", 0) ]
    ∧ report_follow_up_plan report
      = [ ("short_term", []);
          ("medium_term", ["疗效评估"; "生活质量评估"; "心理状态评估"]);
          ("long_term", ["定期复查"; "复发监测"; "康复评估"]) ].
Proof.
  intros Hne Hnone. destruct opinions as [|op opinions]; [done|].
  destruct (calculate_consensus_returns op opinions) as (r & Hr & _ & _ & Hrisk).
  destruct (quality_metrics_returns op opinions r Hrisk) as [qm Hqm].
  rewrite assess_risks_no_concerns in Hrisk by done.
  unfold DecisionEngine.make_decision, DecisionEngine.decision_report.
  rewrite Hr. result_steps. rewrite Hqm. result_steps.
  eexists. split; [reflexivity|]. cbn [report_consensus_result report_follow_up_plan].
  split; [exact Hrisk|].
  apply follow_up_without_high_risk. rewrite Hrisk.
  unfold zero_risks, Py.dict_values. simpl.
  repeat (apply Forall_cons; split; [lra|]). apply Forall_nil_2.
Qed.

Lemma C9_no_concerns_witness :
  ∃ report,
    (DecisionEngine.make_decision DecisionEngine.init sample_case biopsy_scenario).1
    = inr report
    ∧ risk_assessment (report_consensus_result report)
      = [ ("medical_risk", 0); ("psychological_risk", 0);
          ("economic_risk", 0); ("quality_of_life_risk", 0) ]
    ∧ report_follow_up_plan report
      = [ ("short_term", []);
          ("medium_term", ["疗效评估"; "生活质量评估"; "心理状态评估"]);
          ("long_term", ["定期复查"; "复发监测"; "康复评估"]) ].
Proof.
  apply (C9_no_concerns DecisionEngine.init sample_case biopsy_scenario).
  - discriminate.
  - repeat constructor.
Defined.

(** ** C10: who writes the risk table *)

Lemma assess_opinion_bystander (risks : Py.pydict string R) (op : AgentOpinion) :
  role op = NURSE ∨ role op = RADIOLOGIST →
  ConsensusMatrix.assess_opinion risks op = risks.
Proof. unfold ConsensusMatrix.assess_opinion. by intros [-> | ->]. Qed.

Lemma assess_opinion_authoritative (risks : Py.pydict string R) (op : AgentOpinion)
    (owner : AgentRole) (key : string) (keywords : list string) :
  (owner, key, keywords) ∈ risk_authority →
  role op = owner →
  Py.dict_lookup (ConsensusMatrix.assess_opinion risks op) key
  = Some (ConsensusMatrix.risk_ratio keywords (concerns op)).
Proof.
  intros Hin Hrole. unfold ConsensusMatrix.assess_opinion, risk_authority in *.
  repeat (apply elem_of_cons in Hin as [[= -> -> ->]|Hin]);
    try (by apply elem_of_nil in Hin);
    rewrite Hrole; cbv iota zeta;
    rewrite ?(dict_lookup_set_ne _ "quality_of_life_risk" "economic_risk") by done;
    apply dict_lookup_set_eq.
Qed.

Lemma risk_authority_written (owner : AgentRole) (key : string) (keywords : list string) :
  (owner, key, keywords) ∈ risk_authority → key ∈ keys_written owner.
Proof.
  unfold risk_authority. intros Hin.
  repeat (apply elem_of_cons in Hin as [[= -> -> ->]|Hin]);
    try (by apply elem_of_nil in Hin);
    simpl; repeat constructor.
Qed.

(** The last opinion of the authoritative role decides its category. *)
Lemma assess_risks_last_wins (owner : AgentRole) (key : string) (keywords : list string)
    (pre : list AgentOpinion) (op : AgentOpinion) (post : list AgentOpinion) :
  (owner, key, keywords) ∈ risk_authority →
  role op = owner →
  Forall (λ later, role later ≠ owner) post →
  Py.dict_lookup (ConsensusMatrix._assess_risks (pre ++ op :: post)) key
  = Some (ConsensusMatrix.risk_ratio keywords (concerns op)).
Proof.
  intros Hin Hrole Hpost. unfold ConsensusMatrix._assess_risks.
  rewrite fold_left_app. simpl.
  rewrite fold_assess_lookup_other
    by eauto using not_written_by_others, risk_authority_written.
  by apply (assess_opinion_authoritative _ _ owner).
Qed.

(** C10.  In [_assess_risks]: an opinion of a nurse or of a radiologist can
    be taken out of the sequence without changing the result, whatever its
    concerns, and a sequence of such opinions only leaves every category at
    the default 0.0; and for each category, when opinions of its
    authoritative role are present (oncologist for the medical risk,
    psychologist for the psychological risk, patient advocate for the
    economic and the quality-of-life risk), the value is the keyword-match
    ratio of the last of them in input order. *)
Theorem C10_risk_authority :
  (∀ pre op post,
     role op = NURSE ∨ role op = RADIOLOGIST →
     ConsensusMatrix._assess_risks (pre ++ op :: post)
     = ConsensusMatrix._assess_risks (pre ++ post))
  ∧ (∀ opinions,
       Forall (λ op, role op = NURSE ∨ role op = RADIOLOGIST) opinions →
       ConsensusMatrix._assess_risks opinions
       = [ ("medical_risk", 0.0); ("psychological_risk", 0.0);
           ("economic_risk", 0.0); ("quality_of_life_risk", 0.0) ])
  ∧ (∀ owner key keywords pre op post,
       (owner, key, keywords) ∈ risk_authority →
       role op = owner →
       Forall (λ later, role later ≠ owner) post →
       Py.dict_lookup (ConsensusMatrix._assess_risks (pre ++ op :: post)) key
       = Some (ConsensusMatrix.risk_ratio keywords (concerns op))).
Proof.
  unfold ConsensusMatrix._assess_risks. split; [|split].
  - intros pre op post Hrole.
    rewrite !fold_left_app. simpl. by rewrite assess_opinion_bystander.
  - intros opinions Hall. fold ConsensusMatrix.initial_risks.
    generalize ConsensusMatrix.initial_risks.
    induction Hall as [|op opinions Hop _ IH]; intros risks; simpl; [done|].
    by rewrite assess_opinion_bystander.
  - intros owner key keywords pre op post. apply assess_risks_last_wins.
Qed.

Lemma C10_risk_authority_witness :
  ConsensusMatrix._assess_risks [first_oncologist; ward_nurse; second_oncologist]
  = ConsensusMatrix._assess_risks [first_oncologist; second_oncologist]
  ∧ Py.dict_lookup
      (ConsensusMatrix._assess_risks [first_oncologist; ward_nurse; second_oncologist])
      "medical_risk"
    = Some (ConsensusMatrix.risk_ratio ConsensusMatrix.risk_keywords
              (concerns second_oncologist)).
Proof.
  split.
  - apply (proj1 C10_risk_authority [first_oncologist] ward_nurse [second_oncologist]).
    left. reflexivity.
  - apply (proj2 (proj2 C10_risk_authority)
             ONCOLOGIST "medical_risk" ConsensusMatrix.risk_keywords
             [first_oncologist; ward_nurse] second_oncologist []).
    + unfold risk_authority. apply elem_of_cons. left. reflexivity.
    + reflexivity.
    + apply Forall_nil_2.
Defined.

(** The ratio the two oncologists of the example leave behind: the first one
    alone would give 1, the second one gives 1/2, and 1/2 it is. *)
Lemma risk_ratio_eval (keywords concerns : list string) (hits total : nat) :
  ConsensusMatrix.keyword_hits keywords concerns = hits →
  length concerns = total →
  (0 < total)%nat →
  ConsensusMatrix.risk_ratio keywords concerns = INR hits / INR total.
Proof.
  intros <- <- Htot. unfold ConsensusMatrix.risk_ratio.
  destruct concerns as [|c concerns]; [simpl in Htot; lia|].
  set (cs := c :: concerns) in *.
  pose proof (keyword_hits_le keywords cs) as Hle.
  unfold Py.min. apply decide_False.
  apply le_INR in Hle. apply lt_0_INR in Htot.
  intros Hlt. apply (Rmult_lt_compat_r (INR (length cs))) in Hlt; [|done].
  unfold Rdiv in Hlt. rewrite Rmult_assoc, Rinv_l in Hlt by lra. lra.
Qed.

Lemma second_oncologist_decides :
  ConsensusMatrix.risk_ratio ConsensusMatrix.risk_keywords (concerns first_oncologist) = 1
  ∧ Py.dict_lookup
      (ConsensusMatrix._assess_risks [first_oncologist; ward_nurse; second_oncologist])
      "medical_risk"
    = Some (1 / 2).
Proof.
  split.
  - rewrite (risk_ratio_eval _ _ 2 2) by (reflexivity || lia). simpl. lra.
  - change [first_oncologist; ward_nurse; second_oncologist]
      with ([first_oncologist; ward_nurse] ++ [second_oncologist]).
    rewrite (assess_risks_last_wins ONCOLOGIST "medical_risk"
               ConsensusMatrix.risk_keywords
               [first_oncologist; ward_nurse] second_oncologist []).
    + rewrite (risk_ratio_eval _ _ 1 2) by (reflexivity || lia).
      f_equal; try (simpl; lra).
    + unfold risk_authority. apply elem_of_cons. left. reflexivity.
    + reflexivity.
    + apply Forall_nil_2.
Qed.

(** * Further properties of the consensus matrix *)

(** ** Weighted averages *)

Lemma weighted_sum_between (lo hi : R) (a w : list R) :
  Forall2 (λ x y, lo <= x <= hi ∧ 0 < y) a w →
  lo * Py.np_sum w <= Py.np_sum (zip_with Rmult a w) <= hi * Py.np_sum w.
Proof.
  induction 1 as [|x y a w [Hx Hy] _ IH]; simpl; [lra|]. nra.
Qed.

Lemma weighted_average_between (lo hi : R) (a w : list R) :
  Forall2 (λ x y, lo <= x <= hi ∧ 0 < y) a w →
  0 < Py.np_sum w →
  lo <= Py.np_sum (zip_with Rmult a w) / Py.np_sum w <= hi.
Proof.
  intros Hall Hw. pose proof (weighted_sum_between lo hi a w Hall) as [Hlo Hhi].
  split.
  - apply (Rmult_le_reg_r (Py.np_sum w)); [done|].
    unfold Rdiv. rewrite Rmult_assoc, Rinv_l by lra. lra.
  - apply (Rmult_le_reg_r (Py.np_sum w)); [done|].
    unfold Rdiv. rewrite Rmult_assoc, Rinv_l by lra. lra.
Qed.

Lemma opinions_weighted_between (field : AgentOpinion → R) (lo hi : R)
    (opinions : list AgentOpinion) :
  Forall (λ op, lo <= field op <= hi) opinions →
  Forall2 (λ x y, lo <= x <= hi ∧ 0 < y)
          (map field opinions) (ConsensusMatrix.opinion_weights opinions).
Proof.
  induction 1 as [|op opinions Hop _ IH]; simpl; constructor; [|done].
  split; [done|apply role_weight_pos].
Qed.




(** ** The confidence interval *)

Lemma weighted_confidence_value (op : AgentOpinion) (opinions : list AgentOpinion) :
  ConsensusMatrix.weighted_confidence (op :: opinions)
  = inr (Py.np_sum (zip_with Rmult (map confidence (op :: opinions))
                                   (ConsensusMatrix.opinion_weights (op :: opinions)))
         / Py.np_sum (ConsensusMatrix.opinion_weights (op :: opinions))).
Proof.
  unfold ConsensusMatrix.weighted_confidence.
  apply np_average_ok, opinion_weights_sum_pos.
Qed.

Lemma confidence_interval_brackets (confidences weights : list R) (lo hi : R) :
  confidences ≠ [] →
  0 < Py.np_sum weights →
  0 <= Py.np_sum (zip_with Rmult confidences weights) / Py.np_sum weights <= 1 →
  ConsensusMatrix._calculate_confidence_interval confidences weights = inr (lo, hi) →
  lo <= Py.np_sum (zip_with Rmult confidences weights) / Py.np_sum weights <= hi.
Proof.
  intros Hne Hsum Hmean. unfold ConsensusMatrix._calculate_confidence_interval.
  rewrite np_average_ok by done. result_steps.
  rewrite np_average_ok by done. result_steps.
  set (mean := Py.np_sum (zip_with Rmult confidences weights) / Py.np_sum weights) in *.
  set (margin := 1.96 * sqrt _ / sqrt (INR (length confidences))).
  intros [= <- <-].
  assert (0 <= margin) as Hmargin.
  { unfold margin. apply Rmult_le_pos.
    - apply Rmult_le_pos; [lra|apply sqrt_pos].
    - left. apply Rinv_0_lt_compat, sqrt_lt_R0, lt_0_INR.
      destruct confidences; [done|simpl; lia]. }
  unfold Py.max, Py.min. repeat case_decide; lra.
Qed.

(** X2.  For confidences in [0,1] the confidence interval of a result
    contains the weighted mean of the confidences it is built around. *)
Theorem confidence_interval_contains_mean
    (opinions : list AgentOpinion) (r : ConsensusResult) :
  ConsensusMatrix.calculate_consensus opinions = inr r →
  Forall (λ op, 0 <= confidence op <= 1) opinions →
  ∃ mean, ConsensusMatrix.weighted_confidence opinions = inr mean
        ∧ (confidence_interval r).1 <= mean <= (confidence_interval r).2.
Proof.
  intros Hr Hconf.
  destruct (calculate_consensus_inv _ _ Hr) as (Hne & _ & _ & _ & Hci).
  destruct opinions as [|op opinions]; [done|].
  eexists. split; [apply weighted_confidence_value|].
  destruct (confidence_interval r) as [lo hi]. simpl.
  apply confidence_interval_brackets in Hci; [done|done| |].
  - apply opinion_weights_sum_pos.
  - apply weighted_average_between; [|apply opinion_weights_sum_pos].
    by apply opinions_weighted_between.
Qed.

Lemma confidence_interval_contains_mean_witness :
  ∃ r mean, ConsensusMatrix.calculate_consensus biopsy_scenario = inr r
          ∧ ConsensusMatrix.weighted_confidence biopsy_scenario = inr mean
          ∧ (confidence_interval r).1 <= mean <= (confidence_interval r).2.
Proof.
  destruct (calculate_consensus_returns biopsy_oncologist [biopsy_radiologist])
    as (r & Hr & _).
  destruct (confidence_interval_contains_mean biopsy_scenario r Hr) as (mean & Hm & Hin).
  - unfold biopsy_scenario.
    repeat (apply Forall_cons; split; [simpl; lra|]). apply Forall_nil_2.
  - exists r, mean. split; [exact Hr|]. split; [exact Hm|exact Hin].
Defined.



(** ** The counting loop of the consensus score *)

Section DictCounting.
Context {K : Type} `{EqDecision K}.
Implicit Types (k : K) (l : list K).

Lemma dict_keys_set_absent {V} (d : Py.pydict K V) k (v : V) :
  k ∉ Py.dict_keys d → Py.dict_keys (Py.dict_set d k v) = Py.dict_keys d ++ [k].
Proof.
  unfold Py.dict_keys. induction d as [|[k' v'] d IH]; intros Hnin; [done|].
  cbn [Py.dict_set]. apply not_elem_of_cons in Hnin as [Hne Hnin].
  rewrite decide_False by done. cbn. f_equal. by apply IH.
Qed.

Lemma dict_set_keys_NoDup {V} (d : Py.pydict K V) k (v : V) :
  NoDup (Py.dict_keys d) → NoDup (Py.dict_keys (Py.dict_set d k v)).
Proof.
  intros Hnd. destruct (decide (k ∈ Py.dict_keys d)) as [Hin|Hnin].
  - by rewrite dict_keys_set_present.
  - rewrite dict_keys_set_absent by done.
    apply NoDup_app. split; [done|]. split; [|apply NoDup_singleton].
    intros x Hx ->%list_elem_of_singleton. done.
Qed.

Lemma dict_lookup_absent {V} (d : Py.pydict K V) k :
  k ∉ Py.dict_keys d → Py.dict_lookup d k = None.
Proof.
  unfold Py.dict_keys. induction d as [|[k' v'] d IH]; intros Hnin; [done|].
  cbn in Hnin. apply not_elem_of_cons in Hnin as [Hne Hnin].
  cbn [Py.dict_lookup]. rewrite decide_False by done. by apply IH.
Qed.

Lemma count_into_keys_NoDup l (d : Py.pydict K nat) :
  NoDup (Py.dict_keys d) → NoDup (Py.dict_keys (count_into d l)).
Proof.
  revert d. induction l as [|x l IH]; intros d Hd; simpl; [done|].
  by apply IH, dict_set_keys_NoDup.
Qed.

Lemma count_into_get l (d : Py.pydict K nat) k :
  Py.dict_get (count_into d l) k 0%nat
  = (Py.dict_get d k 0 + length (filter (λ x, x = k) l))%nat.
Proof.
  revert d. induction l as [|x l IH]; intros d; simpl; [lia|].
  fold (count_into (Py.dict_set d x (Py.dict_get d x 0 + 1)%nat) l). rewrite IH.
  rewrite filter_cons. destruct (decide (x = k)) as [->|Hne].
  - rewrite dict_get_set_eq. simpl. lia.
  - by rewrite dict_get_set_ne.
Qed.

Lemma dict_get_head {V} (d : Py.pydict K V) k (v dflt : V) :
  Py.dict_get ((k, v) :: d) k dflt = v.
Proof. unfold Py.dict_get. cbn [Py.dict_lookup]. by rewrite decide_True. Qed.

Lemma dict_get_tail {V} (d : Py.pydict K V) k k' (v dflt : V) :
  k' ≠ k → Py.dict_get ((k', v) :: d) k dflt = Py.dict_get d k dflt.
Proof.
  intros Hne. unfold Py.dict_get. cbn [Py.dict_lookup]. by rewrite decide_False.
Qed.

(** On a dict without duplicate keys, summing the selected values is summing
    over the keys. *)
Lemma dict_values_by_key (P : nat → Prop) `{∀ n, Decision (P n)} (d : Py.pydict K nat) :
  NoDup (Py.dict_keys d) →
  sum_list (filter P (Py.dict_values d))
  = sum_list (map (λ k, if decide (P (Py.dict_get d k 0%nat))
                        then Py.dict_get d k 0%nat else 0%nat)
                  (Py.dict_keys d)).
Proof.
  unfold Py.dict_keys, Py.dict_values.
  induction d as [|[k v] d IH]; [done|]. cbn [fmap list_fmap fst snd].
  intros [Hk Hd]%NoDup_cons.
  rewrite filter_cons. cbn [map sum_list sum_list_with].
  rewrite dict_get_head.
  assert (map (λ k0, if decide (P (Py.dict_get ((k, v) :: d) k0 0%nat))
                     then Py.dict_get ((k, v) :: d) k0 0%nat else 0%nat) d.*1
          = map (λ k0, if decide (P (Py.dict_get d k0 0%nat))
                       then Py.dict_get d k0 0%nat else 0%nat) d.*1) as ->.
  { apply map_ext_in. intros k0 Hin%list_elem_of_In.
    rewrite dict_get_tail; [done|]. by intros ->. }
  rewrite <- IH by done. by destruct (decide (P v)).
Qed.

(** Counting the elements of [l] that satisfy [P], key by key. *)
Lemma sum_list_cons (n : nat) (ns : list nat) :
  sum_list (n :: ns) = (n + sum_list ns)%nat.
Proof. reflexivity. Qed.

Lemma sum_list_zero {A} (f : A → nat) (xs : list A) :
  (∀ a, a ∈ xs → f a = 0%nat) → sum_list (map f xs) = 0%nat.
Proof.
  induction xs as [|a xs IH]; intros Hz; [done|].
  cbn [map]. rewrite ?sum_list_cons.
  rewrite (Hz a) by left. rewrite IH; [done|]. intros a' Ha'. apply Hz. by right.
Qed.

Lemma length_filter_eq_cons_ne l (x k : K) :
  x ≠ k → length (filter (λ y, y = k) (x :: l)) = length (filter (λ y, y = k) l).
Proof. intros Hne. rewrite filter_cons. by rewrite decide_False. Qed.

Lemma length_filter_eq_cons_eq l (k : K) :
  length (filter (λ y, y = k) (k :: l)) = S (length (filter (λ y, y = k) l)).
Proof. rewrite filter_cons. by rewrite decide_True. Qed.

Lemma sum_by_key_cons (P : K → Prop) `{∀ k, Decision (P k)} l (x : K) (ks : list K) :
  NoDup ks →
  sum_list (map (λ k, if decide (P k)
                      then length (filter (λ y, y = k) (x :: l)) else 0%nat) ks)
  = (sum_list (map (λ k, if decide (P k)
                         then length (filter (λ y, y = k) l) else 0%nat) ks)
     + (if decide (P x) then (if decide (x ∈ ks) then 1 else 0) else 0))%nat.
Proof.
  induction ks as [|k ks IH]; intros Hnd.
  - cbn [map sum_list sum_list_with]. rewrite (decide_False (P := x ∈ [])).
    + by destruct (decide (P x)).
    + apply not_elem_of_nil.
  - apply NoDup_cons in Hnd as [Hk Hnd]. cbn [map]. rewrite ?sum_list_cons.
    rewrite (IH Hnd). destruct (decide (x = k)) as [->|Hne].
    + rewrite length_filter_eq_cons_eq.
      rewrite (decide_False (P := k ∈ ks)) by done.
      rewrite (decide_True (P := k ∈ k :: ks)) by left.
      destruct (decide (P k)); lia.
    + rewrite length_filter_eq_cons_ne by done.
      destruct (decide (x ∈ ks)) as [Hin|Hnin].
      * rewrite (decide_True (P := x ∈ k :: ks)) by (by right). lia.
      * rewrite (decide_False (P := x ∈ k :: ks)); [lia|].
        intros [?|?]%elem_of_cons; done.
Qed.

Lemma length_filter_by_key (P : K → Prop) `{∀ k, Decision (P k)} l (ks : list K) :
  NoDup ks →
  (∀ x, x ∈ l → x ∈ ks) →
  length (filter P l)
  = sum_list (map (λ k, if decide (P k) then length (filter (λ x, x = k) l) else 0%nat)
                  ks).
Proof.
  intros Hnd. induction l as [|x l IH]; intros Hin.
  - rewrite sum_list_zero; [done|]. intros k _. by destruct (decide (P k)).
  - rewrite sum_by_key_cons by done. rewrite filter_cons.
    rewrite <- IH by (intros y Hy; apply Hin; by right).
    rewrite (decide_True (P := x ∈ ks)) by (apply Hin; left).
    destruct (decide (P x)); simpl; lia.
Qed.

End DictCounting.

Lemma mentions_pos (rec : string) (recs : list string) :
  rec ∈ recs → (0 < mentions rec recs)%nat.
Proof.
  intros Hin. unfold mentions.
  assert (rec ∈ filter (λ r, r = rec) recs) as Hf by (by apply list_elem_of_filter).
  destruct (filter (λ r, r = rec) recs); [by apply elem_of_nil in Hf|simpl; lia].
Qed.

Lemma recommendation_counts_get (recs : list string) (rec : string) :
  Py.dict_get (ConsensusMatrix.recommendation_counts recs) rec 0%nat = mentions rec recs.
Proof.
  change (ConsensusMatrix.recommendation_counts recs) with (count_into [] recs).
  by rewrite count_into_get.
Qed.

Lemma recommendation_counts_keys_NoDup (recs : list string) :
  NoDup (Py.dict_keys (ConsensusMatrix.recommendation_counts recs)).
Proof.
  change (ConsensusMatrix.recommendation_counts recs) with (count_into [] recs).
  apply count_into_keys_NoDup. constructor.
Qed.

Lemma recommendation_counts_keys (recs : list string) (rec : string) :
  rec ∈ recs → rec ∈ Py.dict_keys (ConsensusMatrix.recommendation_counts recs).
Proof.
  intros Hin.
  destruct (decide (rec ∈ Py.dict_keys (ConsensusMatrix.recommendation_counts recs)))
    as [|Hnin]; [done|].
  pose proof (recommendation_counts_get recs rec) as Hget.
  unfold Py.dict_get in Hget. rewrite dict_lookup_absent in Hget by done.
  pose proof (mentions_pos rec recs Hin). lia.
Qed.

Lemma overlapping_count_mentions (recs : list string) :
  ConsensusMatrix.overlapping_count recs
  = length (filter (λ rec, (1 < mentions rec recs)%nat) recs).
Proof.
  unfold ConsensusMatrix.overlapping_count.
  rewrite (dict_values_by_key (λ count, (1 < count)%nat))
    by apply recommendation_counts_keys_NoDup.
  rewrite (length_filter_by_key (λ rec, (1 < mentions rec recs)%nat) recs
             (Py.dict_keys (ConsensusMatrix.recommendation_counts recs))).
  - f_equal. apply map_ext. intros rec. by rewrite recommendation_counts_get.
  - apply recommendation_counts_keys_NoDup.
  - apply recommendation_counts_keys.
Qed.

Lemma overlapping_count_le (recs : list string) :
  (ConsensusMatrix.overlapping_count recs <= length recs)%nat.
Proof. rewrite overlapping_count_mentions. apply length_filter. Qed.

(** X4.  The counting loop of [_calculate_consensus_score] computes the number
    of recommendation mentions whose text is mentioned more than once: the
    overlapping count of a list of recommendations is the number of its
    entries that occur in it at least twice.  So it never exceeds the number
    of recommendations. *)
Theorem overlapping_count_spec (recs : list string) :
  ConsensusMatrix.overlapping_count recs
  = length (filter (λ rec, (1 < mentions rec recs)%nat) recs)
  ∧ (ConsensusMatrix.overlapping_count recs <= length recs)%nat.
Proof. split; [apply overlapping_count_mentions|apply overlapping_count_le]. Qed.

(** ** The clamp of the consensus score *)

Lemma overlap_ratio_le_1 (opinions : list AgentOpinion) :
  ConsensusMatrix.all_recommendations opinions ≠ [] →
  ConsensusMatrix.overlap_ratio opinions <= 1.
Proof.
  intros Hne. unfold ConsensusMatrix.overlap_ratio.
  set (recs := ConsensusMatrix.all_recommendations opinions) in *.
  assert (0 < INR (length recs)) as Hpos.
  { apply lt_0_INR. destruct recs; [done|simpl; lia]. }
  pose proof (le_INR _ _ (overlapping_count_le recs)) as Hle.
  apply (Rmult_le_reg_r (INR (length recs))); [done|].
  unfold Rdiv. rewrite Rmult_assoc, Rinv_l by lra. lra.
Qed.

Lemma consensus_score_unclamped (opinions : list AgentOpinion) :
  (2 <= length opinions)%nat →
  ConsensusMatrix.all_recommendations opinions ≠ [] →
  ConsensusMatrix._calculate_consensus_score opinions
  = 0.7 * ConsensusMatrix.overlap_ratio opinions
    + 0.3 * ConsensusMatrix.confidence_consistency opinions.
Proof.
  intros Hlen Hne. unfold ConsensusMatrix._calculate_consensus_score.
  destruct (Nat.leb_spec (length opinions) 1) as [|_]; [lia|].
  destruct (Nat.eqb_spec (length (ConsensusMatrix.all_recommendations opinions)) 0)
    as [Hz|_].
  { by apply nil_length_inv in Hz. }
  pose proof (overlap_ratio_le_1 opinions Hne).
  pose proof (confidence_consistency_range opinions).
  unfold Py.min. rewrite decide_False; [done|]. lra.
Qed.

(** X5.  With at least two opinions and at least one recommendation, the
    blend [0.7 * overlap + 0.3 * consistency] is itself at most 1, so the
    final [min(final_consensus, 1.0)] never changes it: the score is the
    blend. *)
Theorem consensus_score_is_the_blend (opinions : list AgentOpinion) :
  (2 <= length opinions)%nat →
  ConsensusMatrix.all_recommendations opinions ≠ [] →
  ConsensusMatrix._calculate_consensus_score opinions
  = 0.7 * ConsensusMatrix.overlap_ratio opinions
    + 0.3 * ConsensusMatrix.confidence_consistency opinions
  ∧ 0 <= ConsensusMatrix.overlap_ratio opinions <= 1
  ∧ 0 <= ConsensusMatrix.confidence_consistency opinions <= 1.
Proof.
  intros Hlen Hne. split; [by apply consensus_score_unclamped|].
  split; [|apply confidence_consistency_range].
  split; [by apply overlap_ratio_nonneg|by apply overlap_ratio_le_1].
Qed.

Lemma consensus_score_is_the_blend_witness :
  ConsensusMatrix._calculate_consensus_score biopsy_scenario
  = 0.7 * ConsensusMatrix.overlap_ratio biopsy_scenario
    + 0.3 * ConsensusMatrix.confidence_consistency biopsy_scenario
  ∧ 0 <= ConsensusMatrix.overlap_ratio biopsy_scenario <= 1
  ∧ 0 <= ConsensusMatrix.confidence_consistency biopsy_scenario <= 1.
Proof.
  apply (consensus_score_is_the_blend biopsy_scenario).
  - simpl. lia.
  - discriminate.
Defined.

(** ** The order of the opinions *)









(** ** Full consensus *)










(** * Further properties of the decision engine *)

(** ** The rules of the next steps *)

Section NextSteps.
Variables (r : ConsensusResult) (case : MedicalCase).

Let steps := DecisionEngine._determine_next_steps r case.
Let score := consensus_score r.
Let priority := weighted_priority r.
Let medical := Py.dict_get (risk_assessment r) "medical_risk" 0.
Let psychological := Py.dict_get (risk_assessment r) "psychological_risk" 0.
Let economic := Py.dict_get (risk_assessment r) "economic_risk" 0.

Ltac next_steps_cases :=
  subst steps score priority medical psychological economic;
  let L := fresh "L" in
  let HL := fresh "HL" in
  remember (DecisionEngine._determine_next_steps r case) as L eqn:HL;
  unfold DecisionEngine._determine_next_steps in HL; cbv zeta in HL;
  destruct (decide (consensus_score r < 0.5));
  destruct (decide (Py.dict_get (risk_assessment r) "medical_risk" 0 > 0.7));
  destruct (decide (Py.dict_get (risk_assessment r) "psychological_risk" 0 > 0.5));
  destruct (decide (Py.dict_get (risk_assessment r) "economic_risk" 0 > 0.5));
  (destruct (decide (weighted_priority r > 8.0));
   [|destruct (decide (weighted_priority r > 6.0))]);
  cbn [app] in HL; subst L.

(** Settles [s ∈ l ↔ Q] for a given string, a given list and a condition on
    numbers that the hypotheses decide. *)
Ltac decided_iff :=
  lazymatch goal with
  | |- ?s ∈ ?l ↔ _ =>
      first
        [ assert (s ∈ l) by string_mem;
          split; [intros _; repeat split; lra|done]
        | assert (s ∉ l) by string_mem;
          split; [done|intros Hside; exfalso; decompose [and] Hside; lra] ]
  end.

Lemma next_steps_discussion :
  score < 0.5 →
  "需要进一步的多学科讨论" ∈ steps ∧ "考虑获取第二诊疗意见" ∈ steps.
Proof. intros Hs. next_steps_cases; try lra; split; string_mem. Qed.

Lemma next_steps_urgent : medical > 0.7 → "紧急医疗评估和监护" ∈ steps.
Proof. intros Hs. next_steps_cases; try lra; string_mem. Qed.

(** X8.  The rules of [_determine_next_steps], read as a specification:
    the list is never empty and has at most six steps; each fixed step is in
    the list exactly when its rule fires (the two discussion steps when
    [consensus_score < 0.5], the urgent evaluation when the medical risk
    exceeds 0.7, the psychological and the social-work step when their risk
    exceeds 0.5, the high-priority step when [weighted_priority > 8.0], the
    moderate one when it is in (6.0, 8.0]); and the default step is there
    exactly when no rule fires, in which case it is the only step. *)
Theorem next_steps_rules :
  steps ≠ [] ∧ (length steps <= 6)%nat
  ∧ ("需要进一步的多学科讨论" ∈ steps ↔ score < 0.5)
  ∧ ("考虑获取第二诊疗意见" ∈ steps ↔ score < 0.5)
  ∧ ("紧急医疗评估和监护" ∈ steps ↔ medical > 0.7)
  ∧ ("心理健康专业干预" ∈ steps ↔ psychological > 0.5)
  ∧ ("社会工作者介入，评估经济支持需求" ∈ steps ↔ economic > 0.5)
  ∧ (DecisionEngine.high_priority_step ∈ steps ↔ priority > 8.0)
  ∧ (DecisionEngine.moderate_priority_step ∈ steps ↔ 6.0 < priority <= 8.0)
  ∧ (DecisionEngine.default_step ∈ steps
     ↔ score >= 0.5 ∧ medical <= 0.7 ∧ psychological <= 0.5 ∧ economic <= 0.5
       ∧ priority <= 6.0)
  ∧ (DecisionEngine.default_step ∈ steps → steps = [DecisionEngine.default_step]).
Proof.
  next_steps_cases.
  all: split; [discriminate|].
  all: split; [simpl; lia|].
  all: do 8 (split; [decided_iff|]).
  all: first [ intros _; reflexivity
             | intros Hside; exfalso; revert Hside;
               apply (bool_decide_eq_false_1 _); vm_compute; reflexivity ].
Qed.

End NextSteps.

(** ** What a report is made of *)

Lemma decision_report_inv (case : MedicalCase) (opinions : list AgentOpinion)
    (report : DecisionReport) :
  DecisionEngine.decision_report case opinions = inr report →
  ConsensusMatrix.calculate_consensus opinions = inr (report_consensus_result report)
  ∧ DecisionEngine._calculate_quality_metrics opinions (report_consensus_result report)
    = inr (report_quality_metrics report)
  ∧ report_case_id report = case_id case
  ∧ report_agent_opinions report = opinions
  ∧ report_decision_summary report
    = DecisionEngine._generate_decision_summary (report_consensus_result report)
  ∧ report_next_steps report
    = DecisionEngine._determine_next_steps (report_consensus_result report) case
  ∧ report_follow_up_plan report
    = DecisionEngine._create_follow_up_plan (report_consensus_result report).
Proof.
  unfold DecisionEngine.decision_report.
  destruct (ConsensusMatrix.calculate_consensus opinions) as [e|cr]; [discriminate|].
  result_steps.
  destruct (DecisionEngine._calculate_quality_metrics opinions cr) as [e|qm] eqn:Hqm;
    [discriminate|].
  result_steps. intros [= <-].
  cbn [report_consensus_result report_quality_metrics report_case_id
       report_agent_opinions report_decision_summary report_next_steps
       report_follow_up_plan].
  by rewrite Hqm.
Qed.

Lemma make_decision_inv (self : DecisionEngine.state) (case : MedicalCase)
    (opinions : list AgentOpinion) (report : DecisionReport) :
  (DecisionEngine.make_decision self case opinions).1 = inr report →
  DecisionEngine.decision_report case opinions = inr report.
Proof.
  unfold DecisionEngine.make_decision.
  by destruct (DecisionEngine.decision_report case opinions).
Qed.

Lemma make_decision_returns (self : DecisionEngine.state) (case : MedicalCase)
    (op : AgentOpinion) (opinions : list AgentOpinion) :
  ∃ report, (DecisionEngine.make_decision self case (op :: opinions)).1 = inr report.
Proof.
  destruct (decision_report_returns case op opinions) as (report & Hrep & _).
  exists report. unfold DecisionEngine.make_decision. by rewrite Hrep.
Qed.

(** ** Recommendations that nobody shares *)

Lemma mentions_absent (rec : string) (recs : list string) :
  rec ∉ recs → mentions rec recs = 0%nat.
Proof.
  unfold mentions. induction recs as [|y recs IH]; intros Hnin; [done|].
  apply not_elem_of_cons in Hnin as [Hne Hnin].
  rewrite filter_cons, decide_False by (intros Heq; by apply Hne). by apply IH.
Qed.

Lemma mentions_NoDup (rec : string) (recs : list string) :
  NoDup recs → (mentions rec recs <= 1)%nat.
Proof.
  induction 1 as [|x recs Hx _ IH]; [unfold mentions; simpl; lia|].
  unfold mentions in *. rewrite filter_cons.
  destruct (decide (x = rec)) as [->|]; [|done].
  pose proof (mentions_absent rec recs Hx) as Hz. unfold mentions in Hz.
  simpl. lia.
Qed.

Lemma overlapping_count_NoDup (recs : list string) :
  NoDup recs → ConsensusMatrix.overlapping_count recs = 0%nat.
Proof.
  intros Hnd. rewrite overlapping_count_mentions.
  assert (∀ l, length (filter (λ rec, (1 < mentions rec recs)%nat) l) = 0%nat) as Hz.
  { induction l as [|x l IH]; [done|].
    rewrite filter_cons, decide_False; [done|].
    pose proof (mentions_NoDup x recs Hnd). lia. }
  apply Hz.
Qed.

Lemma consensus_score_NoDup (opinions : list AgentOpinion) :
  (2 <= length opinions)%nat →
  NoDup (ConsensusMatrix.all_recommendations opinions) →
  ConsensusMatrix._calculate_consensus_score opinions <= 0.3.
Proof.
  intros Hlen Hnd.
  destruct (decide (ConsensusMatrix.all_recommendations opinions = [])) as [Hnil|Hne].
  - unfold ConsensusMatrix._calculate_consensus_score.
    destruct (Nat.leb_spec (length opinions) 1) as [|_]; [lia|].
    rewrite Hnil. simpl. lra.
  - rewrite consensus_score_unclamped by done.
    unfold ConsensusMatrix.overlap_ratio. rewrite overlapping_count_NoDup by done.
    pose proof (confidence_consistency_range opinions).
    simpl INR. unfold Rdiv. rewrite Rmult_0_l. lra.
Qed.

(** X9.  When at least two opinions are given and no recommendation text is
    mentioned twice, the consensus score is at most 0.3, and [make_decision]
    puts both discussion steps (further multidisciplinary discussion, second
    opinion) into the next steps. *)
Theorem unshared_recommendations_call_for_discussion
    (self : DecisionEngine.state) (case : MedicalCase) (opinions : list AgentOpinion) :
  (2 <= length opinions)%nat →
  NoDup (ConsensusMatrix.all_recommendations opinions) →
  ∃ report,
    (DecisionEngine.make_decision self case opinions).1 = inr report
    ∧ consensus_score (report_consensus_result report) <= 0.3
    ∧ "需要进一步的多学科讨论" ∈ report_next_steps report
    ∧ "考虑获取第二诊疗意见" ∈ report_next_steps report.
Proof.
  intros Hlen Hnd. destruct opinions as [|op opinions]; [simpl in Hlen; lia|].
  destruct (make_decision_returns self case op opinions) as [report Hrep].
  exists report. split; [done|].
  apply make_decision_inv, decision_report_inv in Hrep
    as (Hcr & _ & _ & _ & _ & Hsteps & _).
  apply calculate_consensus_inv in Hcr as (_ & Hscore & _).
  assert (consensus_score (report_consensus_result report) <= 0.3) as Hlow.
  { rewrite Hscore. by apply consensus_score_NoDup. }
  split; [done|]. rewrite Hsteps. apply next_steps_discussion. lra.
Qed.

Lemma unshared_recommendations_call_for_discussion_witness :
  (2 <= length disagreeing_panel)%nat
  ∧ ConsensusMatrix.all_recommendations disagreeing_panel = ["biopsy"; "MRI"; "PET-CT"]
  ∧ NoDup (ConsensusMatrix.all_recommendations disagreeing_panel)
  ∧ ∃ report,
      (DecisionEngine.make_decision DecisionEngine.init sample_case
         disagreeing_panel).1 = inr report
      ∧ consensus_score (report_consensus_result report) <= 0.3
      ∧ "需要进一步的多学科讨论" ∈ report_next_steps report
      ∧ "考虑获取第二诊疗意见" ∈ report_next_steps report.
Proof.
  assert (2 <= length disagreeing_panel)%nat as Hlen by (simpl; lia).
  assert (ConsensusMatrix.all_recommendations disagreeing_panel
          = ["biopsy"; "MRI"; "PET-CT"]) as Hall by reflexivity.
  assert (NoDup (ConsensusMatrix.all_recommendations disagreeing_panel)) as Hnd.
  { rewrite Hall. repeat (apply NoDup_cons; split; [string_mem|]). apply NoDup_nil_2. }
  split; [exact Hlen|]. split; [exact Hall|]. split; [exact Hnd|].
  exact (unshared_recommendations_call_for_discussion
           DecisionEngine.init sample_case disagreeing_panel Hlen Hnd).
Defined.

(** ** The follow-up plan *)

Lemma existsb_bool_decide {A} (P : A → Prop) `{∀ x, Decision (P x)} (l : list A) :
  existsb (λ x, bool_decide (P x)) l = bool_decide (Exists P l).
Proof.
  induction l as [|x l IH]; cbn [existsb].
  - symmetry. apply bool_decide_eq_false_2. by intros ?%Exists_nil.
  - rewrite IH. destruct (decide (P x)) as [HP|HP].
    + rewrite (bool_decide_eq_true_2 (P x)) by done. cbn [orb].
      symmetry. apply bool_decide_eq_true_2. by left.
    + rewrite (bool_decide_eq_false_2 (P x)) by done. cbn [orb].
      apply bool_decide_ext. rewrite Exists_cons.
      split; [by right|]. by intros [?|?].
Qed.

Lemma follow_up_plan_closed_form (r : ConsensusResult) :
  DecisionEngine._create_follow_up_plan r
  = [ ("short_term",
       if decide (Exists (λ risk, risk > 0.6) (Py.dict_values (risk_assessment r)))
       then DecisionEngine.short_term_items else []);
      ("medium_term", DecisionEngine.medium_term_items);
      ("long_term", DecisionEngine.long_term_items) ].
Proof.
  unfold DecisionEngine._create_follow_up_plan. cbv zeta.
  rewrite (existsb_bool_decide (λ risk, risk > 0.6)).
  destruct (decide (Exists (λ risk, risk > 0.6) (Py.dict_values (risk_assessment r))))
    as [Hex|Hno].
  - by rewrite bool_decide_eq_true_2.
  - by rewrite bool_decide_eq_false_2.
Qed.

(** X10.  The follow-up plan always has the three buckets [short_term],
    [medium_term], [long_term], in this order; the short-term bucket is the
    fixed three-item checklist exactly when some value of the risk assessment
    exceeds 0.6 and is empty otherwise; the other two buckets are always their
    fixed checklists. *)
Theorem follow_up_plan_trigger (r : ConsensusResult) :
  DecisionEngine._create_follow_up_plan r
  = [ ("short_term",
       if decide (Exists (λ risk, risk > 0.6) (Py.dict_values (risk_assessment r)))
       then ["症状监测和评估"; "治疗反应评价"; "副作用管理"] else []);
      ("medium_term", ["疗效评估"; "生活质量评估"; "心理状态评估"]);
      ("long_term", ["定期复查"; "复发监测"; "康复评估"]) ].
Proof. apply follow_up_plan_closed_form. Qed.

(** ** From an alarmed oncologist to urgent care *)

Lemma dict_lookup_values {K V} `{EqDecision K} (d : Py.pydict K V) (k : K) (v : V) :
  Py.dict_lookup d k = Some v → v ∈ Py.dict_values d.
Proof.
  unfold Py.dict_values. induction d as [|[k' v'] d IH]; [done|].
  cbn [Py.dict_lookup]. destruct (decide (k' = k)).
  - intros [= ->]. left.
  - intros Hl. right. by apply IH.
Qed.

(** X11.  When the last oncologist in the input has more than 70% of his
    concerns hit by a medical risk keyword, [make_decision] reports that
    ratio as the medical risk, puts the urgent medical evaluation among the
    next steps and fills the short-term follow-up checklist. *)
Theorem alarmed_oncologist_gets_urgent_care
    (self : DecisionEngine.state) (case : MedicalCase)
    (pre : list AgentOpinion) (op : AgentOpinion) (post : list AgentOpinion) :
  role op = ONCOLOGIST →
  Forall (λ later, role later ≠ ONCOLOGIST) post →
  ConsensusMatrix.risk_ratio ConsensusMatrix.risk_keywords (concerns op) > 0.7 →
  ∃ report,
    (DecisionEngine.make_decision self case (pre ++ op :: post)).1 = inr report
    ∧ Py.dict_lookup (risk_assessment (report_consensus_result report)) "medical_risk"
      = Some (ConsensusMatrix.risk_ratio ConsensusMatrix.risk_keywords (concerns op))
    ∧ "紧急医疗评估和监护" ∈ report_next_steps report
    ∧ Py.dict_lookup (report_follow_up_plan report) "short_term"
      = Some ["症状监测和评估"; "治疗反应评价"; "副作用管理"].
Proof.
  intros Hrole Hpost Hratio.
  assert (∃ op0 rest, pre ++ op :: post = op0 :: rest) as (op0 & rest & Heq).
  { destruct pre; simpl; eauto. }
  destruct (make_decision_returns self case op0 rest) as [report Hrep].
  rewrite <- Heq in Hrep. exists report. split; [done|].
  apply make_decision_inv, decision_report_inv in Hrep
    as (Hcr & _ & _ & _ & _ & Hsteps & Hplan).
  apply calculate_consensus_inv in Hcr as (_ & _ & _ & Hrisk & _).
  assert (Py.dict_lookup (risk_assessment (report_consensus_result report)) "medical_risk"
          = Some (ConsensusMatrix.risk_ratio ConsensusMatrix.risk_keywords (concerns op)))
    as Hmed.
  { rewrite Hrisk.
    apply (assess_risks_last_wins ONCOLOGIST "medical_risk"
             ConsensusMatrix.risk_keywords pre op post);
      [unfold risk_authority; apply elem_of_cons; by left|exact Hrole|exact Hpost]. }
  split; [done|]. split.
  - rewrite Hsteps. apply next_steps_urgent. unfold Py.dict_get. by rewrite Hmed.
  - rewrite Hplan, follow_up_plan_closed_form. rewrite decide_True; [done|].
    apply Exists_exists.
    exists (ConsensusMatrix.risk_ratio ConsensusMatrix.risk_keywords (concerns op)).
    split; [by eapply dict_lookup_values|lra].
Qed.

Lemma first_oncologist_ratio :
  ConsensusMatrix.risk_ratio ConsensusMatrix.risk_keywords (concerns first_oncologist) = 1.
Proof. rewrite (risk_ratio_eval _ _ 2 2) by (reflexivity || lia). simpl. lra. Qed.

Lemma alarmed_oncologist_gets_urgent_care_witness :
  ∃ report,
    (DecisionEngine.make_decision DecisionEngine.init sample_case
       ([ward_nurse] ++ first_oncologist :: [])).1 = inr report
    ∧ Py.dict_lookup (risk_assessment (report_consensus_result report)) "medical_risk"
      = Some (ConsensusMatrix.risk_ratio ConsensusMatrix.risk_keywords
                (concerns first_oncologist))
    ∧ "紧急医疗评估和监护" ∈ report_next_steps report
    ∧ Py.dict_lookup (report_follow_up_plan report) "short_term"
      = Some ["症状监测和评估"; "治疗反应评价"; "副作用管理"].
Proof.
  apply (alarmed_oncologist_gets_urgent_care
           DecisionEngine.init sample_case [ward_nurse] first_oncologist []).
  - reflexivity.
  - apply Forall_nil_2.
  - rewrite first_oncologist_ratio. lra.
Defined.

(** ** The quality metrics *)

Lemma np_mean_between (lo hi : R) (a : list R) :
  a ≠ [] → Forall (λ x, lo <= x <= hi) a → lo <= Py.np_sum a / INR (length a) <= hi.
Proof.
  intros Hne Hall.
  assert (0 < INR (length a)) as Hn.
  { apply lt_0_INR. destruct a; [done|simpl; lia]. }
  assert (lo * INR (length a) <= Py.np_sum a <= hi * INR (length a)) as [Hlo Hhi].
  { clear Hne Hn. induction Hall as [|x a Hx _ IH]; [simpl; lra|].
    cbn [Py.np_sum foldr length]. fold (Py.np_sum a). rewrite S_INR. lra. }
  split; apply (Rmult_le_reg_r (INR (length a))); try done;
    unfold Rdiv; rewrite Rmult_assoc, Rinv_l by lra; lra.
Qed.

Lemma distinct_roles_le (roles : list AgentRole) :
  (length (remove_dups roles) <= length AgentRole_members)%nat.
Proof.
  apply submseteq_length, NoDup_submseteq; [apply NoDup_remove_dups|].
  intros r _. unfold AgentRole_members. destruct r; set_solver.
Qed.

Lemma ratio_of_counts_range (n m : nat) :
  (n <= m)%nat → (0 < m)%nat → 0 <= INR n / INR m <= 1.
Proof.
  intros Hle Hpos. apply le_INR in Hle. apply lt_0_INR in Hpos.
  pose proof (pos_INR n). split.
  - apply Rmult_le_pos; [done|]. left. by apply Rinv_0_lt_compat.
  - apply (Rmult_le_reg_r (INR m)); [done|].
    unfold Rdiv. rewrite Rmult_assoc, Rinv_l by lra. lra.
Qed.

Lemma quality_metrics_value (op : AgentOpinion) (opinions : list AgentOpinion)
    (r : ConsensusResult) :
  risk_assessment r = ConsensusMatrix._assess_risks (op :: opinions) →
  DecisionEngine._calculate_quality_metrics (op :: opinions) r
  = inr [ ("opinion_diversity",
           INR (length (remove_dups (map role (op :: opinions))))
           / INR (length AgentRole_members));
          ("average_confidence",
           Py.np_sum (map confidence (op :: opinions)) / INR (length (op :: opinions)));
          ("consensus_strength", consensus_score r);
          ("risk_coverage",
           INR (length (filter (λ v, v > 0) (Py.dict_values (risk_assessment r))))
           / INR (length (risk_assessment r)));
          ("recommendation_completeness",
           Py.min (INR (DecisionEngine.count_lines (final_recommendation r)) / 10) 1.0) ].
Proof.
  intros Hr. unfold DecisionEngine._calculate_quality_metrics.
  rewrite !py_div_ok
    by first [ lra
             | apply not_0_INR; done
             | rewrite Hr, assess_risks_length; apply not_0_INR; done ].
  reflexivity.
Qed.

(** X12.  For a report that [make_decision] returns on opinions whose
    confidences lie in [0,1], the quality metrics are the five entries
    [opinion_diversity], [average_confidence], [consensus_strength],
    [risk_coverage], [recommendation_completeness], in this order, every
    value lies in [0,1], and [consensus_strength] is the consensus score of
    the result. *)
Theorem quality_metrics_range (self : DecisionEngine.state) (case : MedicalCase)
    (opinions : list AgentOpinion) (report : DecisionReport) :
  (DecisionEngine.make_decision self case opinions).1 = inr report →
  Forall (λ op, 0 <= confidence op <= 1) opinions →
  Py.dict_keys (report_quality_metrics report)
  = [ "opinion_diversity"; "average_confidence"; "consensus_strength";
      "risk_coverage"; "recommendation_completeness" ]
  ∧ Forall (λ v, 0 <= v <= 1) (Py.dict_values (report_quality_metrics report))
  ∧ Py.dict_lookup (report_quality_metrics report) "consensus_strength"
    = Some (consensus_score (report_consensus_result report)).
Proof.
  intros Hrep Hconf.
  apply make_decision_inv, decision_report_inv in Hrep as (Hcr & Hqm & _).
  destruct (calculate_consensus_inv _ _ Hcr) as (Hne & Hscore & _ & Hrisk & _).
  destruct opinions as [|op opinions]; [done|].
  rewrite quality_metrics_value in Hqm by done.
  apply (inj inr) in Hqm. rewrite <- Hqm.
  split; [reflexivity|]. split; [|reflexivity].
  unfold Py.dict_values. cbn [fmap list_fmap snd].
  repeat (apply Forall_cons; split); [..|apply Forall_nil_2].
  - apply ratio_of_counts_range; [apply distinct_roles_le|simpl; lia].
  - rewrite <- (length_map confidence (op :: opinions)).
    apply np_mean_between; [done|by apply Forall_map].
  - rewrite Hscore. apply consensus_score_range.
  - apply ratio_of_counts_range; [|rewrite Hrisk, assess_risks_length; lia].
    unfold Py.dict_values. rewrite <- (length_fmap snd (risk_assessment _)).
    apply length_filter.
  - split; [apply min_glb; [|lra]|eapply Rle_trans; [apply min_le_r|lra]].
    apply Rmult_le_pos; [apply pos_INR|lra].
Qed.

Lemma quality_metrics_range_witness :
  ∃ report,
    (DecisionEngine.make_decision DecisionEngine.init sample_case biopsy_scenario).1
    = inr report
    ∧ Py.dict_keys (report_quality_metrics report)
      = [ "opinion_diversity"; "average_confidence"; "consensus_strength";
          "risk_coverage"; "recommendation_completeness" ]
    ∧ Forall (λ v, 0 <= v <= 1) (Py.dict_values (report_quality_metrics report))
    ∧ Py.dict_lookup (report_quality_metrics report) "consensus_strength"
      = Some (consensus_score (report_consensus_result report)).
Proof.
  destruct (make_decision_returns DecisionEngine.init sample_case
              biopsy_oncologist [biopsy_radiologist]) as [report Hrep].
  exists report. split; [exact Hrep|].
  apply (quality_metrics_range DecisionEngine.init sample_case biopsy_scenario report Hrep).
  unfold biopsy_scenario.
  repeat (apply Forall_cons; split; [simpl; lra|]). apply Forall_nil_2.
Defined.

(** X13.  Called on its own with an empty opinion list,
    [_calculate_quality_metrics] raises [ZeroDivisionError] at the average
    confidence; [make_decision] never reaches it with an empty list, because
    [calculate_consensus] has raised [ValueError] before. *)
Theorem quality_metrics_empty_raises (r : ConsensusResult) :
  DecisionEngine._calculate_quality_metrics [] r = inl Py.ZeroDivisionError
  ∧ ∀ case, ∃ msg, DecisionEngine.decision_report case [] = inl (Py.ValueError msg).
Proof.
  split.
  - unfold DecisionEngine._calculate_quality_metrics.
    rewrite (py_div_ok _ (INR (length AgentRole_members)))
      by (apply not_0_INR; done).
    result_steps.
    assert (DecisionEngine.py_div (Py.np_sum (map confidence [])) (INR (length []))
            = inl Py.ZeroDivisionError) as ->; [|reflexivity].
    unfold DecisionEngine.py_div. by rewrite decide_True.
  - intros case. eexists. reflexivity.
Qed.

(** ** The decision history over many calls *)

Lemma make_decision_empty_state (self : DecisionEngine.state) (case : MedicalCase) :
  (DecisionEngine.make_decision self case []).2 = self.
Proof. reflexivity. Qed.

Lemma make_decision_appends (self : DecisionEngine.state) (case : MedicalCase)
    (op : AgentOpinion) (opinions : list AgentOpinion) :
  ∃ report,
    DecisionEngine.decision_history
      (DecisionEngine.make_decision self case (op :: opinions)).2
    = DecisionEngine.decision_history self ++ [report]
    ∧ report_case_id report = case_id case
    ∧ report_agent_opinions report = op :: opinions.
Proof.
  destruct (decision_report_returns case op opinions) as (report & Hrep & _ & Hid & Hops).
  exists report. unfold DecisionEngine.make_decision. rewrite Hrep. done.
Qed.

(** X14.  The decision history is append-only.  After any sequence of
    [make_decision] calls on one engine, the history is the old history
    followed by one report for each call that had at least one opinion, in
    call order, each carrying the case id and the opinions of its call; calls
    with an empty opinion list leave no trace. *)
Theorem decision_history_append_only (self : DecisionEngine.state)
    (calls : list (MedicalCase * list AgentOpinion)) :
  ∃ new,
    DecisionEngine.decision_history (make_decisions self calls)
    = DecisionEngine.decision_history self ++ new
    ∧ map report_case_id new
      = map (λ call, case_id call.1) (filter (λ call, call.2 ≠ []) calls)
    ∧ map report_agent_opinions new
      = map snd (filter (λ call, call.2 ≠ []) calls).
Proof.
  revert self. induction calls as [|[case opinions] calls IH]; intros self.
  - exists []. by rewrite app_nil_r.
  - unfold make_decisions. cbn [fold_left fst snd]. fold (make_decisions
      (DecisionEngine.make_decision self case opinions).2 calls).
    destruct (IH (DecisionEngine.make_decision self case opinions).2)
      as (new & Hhist & Hids & Hops).
    rewrite filter_cons. destruct opinions as [|op opinions].
    + rewrite decide_False by (by intros []). exists new.
      by rewrite Hhist, make_decision_empty_state.
    + rewrite decide_True by done.
      destruct (make_decision_appends self case op opinions)
        as (report & Hstate & Hid & Hrep).
      exists (report :: new). rewrite Hhist, Hstate, <- app_assoc.
      split; [done|]. cbn [map fst snd]. by rewrite Hid, Hrep, Hids, Hops.
Qed.

(** ** Dissent below the threshold *)

Lemma elem_of_flat_map {A B} (f : A → list B) (l : list A) (y : B) :
  y ∈ flat_map f l ↔ ∃ x, x ∈ l ∧ y ∈ f x.
Proof.
  rewrite list_elem_of_In, in_flat_map. split.
  - intros (x & Hx & Hy). exists x. by rewrite !list_elem_of_In.
  - intros (x & Hx & Hy). exists x. by rewrite <- !list_elem_of_In.
Qed.

Lemma flat_map_nil_iff {A B} (f : A → list B) (l : list A) :
  flat_map f l = [] ↔ Forall (λ x, f x = []) l.
Proof.
  induction l as [|x l IH]; simpl; [split; [constructor|done]|].
  rewrite Forall_cons, <- IH. split.
  - by intros [? ?]%app_eq_nil.
  - by intros [-> ->].
Qed.

Lemma flat_map_length_le {A B} (f : A → list B) (n : nat) (l : list A) :
  (∀ x, length (f x) <= n)%nat → (length (flat_map f l) <= n * length l)%nat.
Proof.
  intros Hf. induction l as [|x l IH]; simpl; [lia|].
  rewrite length_app. specialize (Hf x). lia.
Qed.

Lemma other_concerns_elem (opinions : list AgentOpinion) (op : AgentOpinion) (c : string) :
  c ∈ ConsensusMatrix.other_concerns opinions op
  ↔ ∃ other, other ∈ opinions ∧ agent_id other ≠ agent_id op ∧ c ∈ concerns other.
Proof.
  unfold ConsensusMatrix.other_concerns. rewrite elem_of_flat_map. split.
  - intros (other & [Hid Hin]%list_elem_of_filter & Hc). by exists other.
  - intros (other & Hin & Hid & Hc). exists other. split; [|done].
    by apply list_elem_of_filter.
Qed.

Lemma unique_concerns_empty (opinions : list AgentOpinion) (op : AgentOpinion) :
  ConsensusMatrix.unique_concerns opinions op = ∅
  ↔ ∀ c, c ∈ concerns op → c ∈ ConsensusMatrix.other_concerns opinions op.
Proof.
  unfold ConsensusMatrix.unique_concerns. split.
  - intros Hempty c Hc.
    destruct (decide (c ∈ ConsensusMatrix.other_concerns opinions op)) as [|Hnot]; [done|].
    assert (c ∈ (∅ : gset string)) as Habs; [|by apply not_elem_of_empty in Habs].
    rewrite <- Hempty. apply elem_of_difference.
    by rewrite !elem_of_list_to_set.
  - intros Hall. apply leibniz_equiv, elem_of_equiv_empty. intros c.
    rewrite elem_of_difference, !elem_of_list_to_set. intros [Hc Hnot].
    by apply Hnot, Hall.
Qed.

Lemma dissent_of_nil (opinions : list AgentOpinion) (op : AgentOpinion) :
  ConsensusMatrix.dissent_of opinions op = []
  ↔ confidence op >= 0.5 ∧ ConsensusMatrix.unique_concerns opinions op = ∅.
Proof.
  unfold ConsensusMatrix.dissent_of.
  destruct (decide (confidence op < 0.5)) as [Hlow|Hok];
    destruct (decide (ConsensusMatrix.unique_concerns opinions op = ∅)) as [He|Hne];
    simpl; split; try done; try (intros [? ?]; first [lra|done]).
  intros _. split; [lra|done].
Qed.

Lemma dissent_of_length (opinions : list AgentOpinion) (op : AgentOpinion) :
  (length (ConsensusMatrix.dissent_of opinions op) <= 2)%nat.
Proof.
  unfold ConsensusMatrix.dissent_of. repeat case_decide; simpl; lia.
Qed.

(** X15.  With a consensus score of at most 0.8, [dissenting_opinions] has
    at most two entries per opinion; it holds the low-confidence entry of
    every opinion whose confidence is below 0.5; and it is empty exactly when
    every opinion has a confidence of at least 0.5 and shares each of its
    concerns with an opinion of another [agent_id]. *)
Theorem dissent_below_threshold (opinions : list AgentOpinion) (score : R) :
  score <= 0.8 →
  (length (ConsensusMatrix._identify_dissenting_opinions opinions score)
   <= 2 * length opinions)%nat
  ∧ (∀ op, op ∈ opinions → confidence op < 0.5 →
       LowConfidence (AgentRole_value (role op)) (confidence op)
                     (Py.str_take 100 (opinion op))
       ∈ ConsensusMatrix._identify_dissenting_opinions opinions score)
  ∧ (ConsensusMatrix._identify_dissenting_opinions opinions score = []
     ↔ Forall (λ op, confidence op >= 0.5
                   ∧ ∀ c, c ∈ concerns op →
                       ∃ other, other ∈ opinions
                              ∧ agent_id other ≠ agent_id op
                              ∧ c ∈ concerns other)
              opinions).
Proof.
  intros Hscore. unfold ConsensusMatrix._identify_dissenting_opinions.
  rewrite decide_False by lra. split; [|split].
  - apply flat_map_length_le, dissent_of_length.
  - intros op Hin Hlow. apply elem_of_flat_map. exists op. split; [done|].
    unfold ConsensusMatrix.dissent_of. rewrite decide_True by done.
    apply elem_of_app. left. apply list_elem_of_singleton. reflexivity.
  - rewrite flat_map_nil_iff. apply Forall_proper; [|done].
    intros op. rewrite dissent_of_nil, unique_concerns_empty.
    apply and_iff_compat_l. split.
    + intros Hall c Hc. by apply other_concerns_elem, Hall.
    + intros Hall c Hc. by apply other_concerns_elem, Hall.
Qed.

Lemma dissent_below_threshold_witness :
  (length (ConsensusMatrix._identify_dissenting_opinions biopsy_scenario 0.5)
   <= 2 * length biopsy_scenario)%nat
  ∧ (∀ op, op ∈ biopsy_scenario → confidence op < 0.5 →
       LowConfidence (AgentRole_value (role op)) (confidence op)
                     (Py.str_take 100 (opinion op))
       ∈ ConsensusMatrix._identify_dissenting_opinions biopsy_scenario 0.5)
  ∧ (ConsensusMatrix._identify_dissenting_opinions biopsy_scenario 0.5 = []
     ↔ Forall (λ op, confidence op >= 0.5
                   ∧ ∀ c, c ∈ concerns op →
                       ∃ other, other ∈ biopsy_scenario
                              ∧ agent_id other ≠ agent_id op
                              ∧ c ∈ concerns other)
              biopsy_scenario).
Proof. apply (dissent_below_threshold biopsy_scenario 0.5). lra. Defined.

(** * Further properties of the final recommendation *)

(** ** The accumulated weights *)

Lemma dict_keys_set_elem {K V} `{EqDecision K} (d : Py.pydict K V) (k x : K) (v : V) :
  x ∈ Py.dict_keys (Py.dict_set d k v) ↔ x ∈ Py.dict_keys d ∨ x = k.
Proof.
  destruct (decide (k ∈ Py.dict_keys d)) as [Hin|Hnin].
  - rewrite dict_keys_set_present by done. split; [by left|]. by intros [?| ->].
  - rewrite dict_keys_set_absent by done.
    rewrite elem_of_app, list_elem_of_singleton. done.
Qed.

(** The inner loop of [_generate_final_recommendation]: one opinion adds its
    weight to each of its recommendations. *)
Lemma accumulate_keys (weight : R) (recs : list string) (d : Py.pydict string R) :
  let d' := fold_left (λ d rec, match Py.dict_lookup d rec with
                               | Some acc => Py.dict_set d rec (acc + weight)
                               | None => Py.dict_set d rec weight
                               end) recs d in
  (NoDup (Py.dict_keys d) → NoDup (Py.dict_keys d'))
  ∧ ∀ x, x ∈ Py.dict_keys d' ↔ x ∈ Py.dict_keys d ∨ x ∈ recs.
Proof.
  revert d. induction recs as [|rec recs IH]; intros d; cbn [fold_left].
  - split; [done|]. intros x. rewrite elem_of_nil. tauto.
  - set (d1 := match Py.dict_lookup d rec with
               | Some acc => Py.dict_set d rec (acc + weight)
               | None => Py.dict_set d rec weight
               end).
    assert (∃ v, d1 = Py.dict_set d rec v) as [v Hd1].
    { unfold d1. destruct (Py.dict_lookup d rec); eauto. }
    destruct (IH d1) as [Hnd Hkeys]. split.
    + intros Hd. apply Hnd. rewrite Hd1. by apply dict_set_keys_NoDup.
    + intros x. rewrite Hkeys, Hd1, dict_keys_set_elem, elem_of_cons. tauto.
Qed.

Lemma weighted_recommendations_keys (pairs : list (AgentOpinion * R))
    (d : Py.pydict string R) :
  let d' := fold_left
              (λ d '(op, w),
                 let weight := w * confidence op in
                 fold_left (λ d rec, match Py.dict_lookup d rec with
                                    | Some acc => Py.dict_set d rec (acc + weight)
                                    | None => Py.dict_set d rec weight
                                    end) (recommendations op) d)
              pairs d in
  (NoDup (Py.dict_keys d) → NoDup (Py.dict_keys d'))
  ∧ ∀ x, x ∈ Py.dict_keys d'
         ↔ x ∈ Py.dict_keys d ∨ x ∈ flat_map (λ p, recommendations p.1) pairs.
Proof.
  revert d. induction pairs as [|[op w] pairs IH]; intros d; cbn [fold_left flat_map].
  - split; [done|]. intros x. rewrite elem_of_nil. tauto.
  - cbv zeta.
    destruct (accumulate_keys (w * confidence op) (recommendations op) d)
      as [Hnd1 Hkeys1].
    cbv zeta in Hnd1, Hkeys1.
    set (d1 := fold_left _ (recommendations op) d) in *.
    destruct (IH d1) as [Hnd Hkeys]. cbv zeta in Hnd, Hkeys. split.
    + intros Hd. by apply Hnd, Hnd1.
    + intros x. rewrite Hkeys, Hkeys1, elem_of_app. cbn [fst]. tauto.
Qed.

Lemma zip_opinion_weights (opinions : list AgentOpinion) :
  flat_map (λ p : AgentOpinion * R, recommendations p.1)
           (zip opinions (ConsensusMatrix.opinion_weights opinions))
  = ConsensusMatrix.all_recommendations opinions.
Proof.
  unfold ConsensusMatrix.all_recommendations, ConsensusMatrix.opinion_weights.
  induction opinions as [|op opinions IH]; [done|].
  cbn [map zip zip_with flat_map fst]. by rewrite <- IH.
Qed.

Lemma weighted_of_keys (opinions : list AgentOpinion) :
  NoDup (Py.dict_keys (weighted_of opinions))
  ∧ ∀ rec, rec ∈ Py.dict_keys (weighted_of opinions)
           ↔ rec ∈ ConsensusMatrix.all_recommendations opinions.
Proof.
  destruct (weighted_recommendations_keys
              (zip opinions (ConsensusMatrix.opinion_weights opinions)) [])
    as [Hnd Hkeys].
  cbv zeta in Hnd, Hkeys. split.
  - apply Hnd. constructor.
  - intros rec. unfold weighted_of, ConsensusMatrix.weighted_recommendations.
    rewrite Hkeys, zip_opinion_weights. cbn. rewrite elem_of_nil. tauto.
Qed.

(** ** The ranking *)






(** The text is rendered from these locals. *)
Lemma final_recommendation_locals (opinions : list AgentOpinion) :
  ConsensusMatrix._generate_final_recommendation opinions
    (ConsensusMatrix.opinion_weights opinions)
  = let final_rec := "综合多学科意见，推荐治疗方案：" +:+ Py.NL +:+ Py.NL in
    let final_rec :=
      match high_priority opinions with
      | [] => final_rec
      | _ => final_rec +:+ "核心推荐：" +:+ Py.NL
               +:+ ConsensusMatrix.numbered_lines (take 5 (high_priority opinions))
      end in
    let final_rec :=
      match other_recommendations opinions with
      | [] => final_rec
      | _ => final_rec +:+ Py.NL +:+ "补充建议：" +:+ Py.NL
               +:+ ConsensusMatrix.numbered_lines (take 3 (other_recommendations opinions))
      end in
    match flat_map concerns opinions with
    | [] => final_rec
    | _ => final_rec +:+ Py.NL +:+ "重要关注点：" +:+ Py.NL
             +:+ ConsensusMatrix.numbered_lines (ConsensusMatrix.shown_concerns opinions)
    end.
Proof. reflexivity. Qed.


(** X17.  Opinions without any recommendation and without any concern give
    the bare header as final recommendation: the ranking is empty, the mean
    of no weights is never compared with anything, and the text has three
    lines in the sense of [split] on newlines. *)
Theorem final_recommendation_bare (opinions : list AgentOpinion) :
  Forall (λ op, recommendations op = [] ∧ concerns op = []) opinions →
  ConsensusMatrix._generate_final_recommendation opinions
    (ConsensusMatrix.opinion_weights opinions)
  = "综合多学科意见，推荐治疗方案：" +:+ Py.NL +:+ Py.NL
  ∧ DecisionEngine.count_lines
      (ConsensusMatrix._generate_final_recommendation opinions
         (ConsensusMatrix.opinion_weights opinions)) = 3%nat.
Proof.
  intros Hbare.
  assert (weighted_of opinions = []) as Hw.
  { destruct (weighted_of_keys opinions) as [_ Hkeys].
    destruct (weighted_of opinions) as [|[rec w] d] eqn:Hd; [done|].
    assert (rec ∈ ConsensusMatrix.all_recommendations opinions) as Hin.
    { apply Hkeys. left. }
    rewrite all_recommendations_empty in Hin.
    - by apply elem_of_nil in Hin.
    - eapply Forall_impl; [exact Hbare|]. by intros op [? _]. }
  assert (flat_map concerns opinions = []) as Hc.
  { apply flat_map_nil_iff. eapply Forall_impl; [exact Hbare|]. by intros op [_ ?]. }
  assert (ConsensusMatrix._generate_final_recommendation opinions
            (ConsensusMatrix.opinion_weights opinions)
          = "综合多学科意见，推荐治疗方案：" +:+ Py.NL +:+ Py.NL) as Htext.
  { rewrite final_recommendation_locals.
    unfold high_priority, other_recommendations, sorted_recommendations.
    rewrite Hw, Hc. reflexivity. }
  split; [done|]. rewrite Htext. reflexivity.
Qed.

Lemma final_recommendation_bare_witness :
  ConsensusMatrix._generate_final_recommendation no_recommendations
    (ConsensusMatrix.opinion_weights no_recommendations)
  = "综合多学科意见，推荐治疗方案：" +:+ Py.NL +:+ Py.NL
  ∧ DecisionEngine.count_lines
      (ConsensusMatrix._generate_final_recommendation no_recommendations
         (ConsensusMatrix.opinion_weights no_recommendations)) = 3%nat.
Proof.
  apply (final_recommendation_bare no_recommendations).
  unfold no_recommendations.
  repeat (apply Forall_cons; split; [by split|]). apply Forall_nil_2.
Defined.

(** * Properties of the evaluator *)

Section EvaluatorFacts.
Variable lower : string → string.

(** ** Overlap of recommendations *)

Lemma evaluator_overlap_range (opinions : list AgentOpinion) :
  0 <= MedicalAIEvaluator._calculate_recommendation_overlap lower opinions <= 1.
Proof.
  unfold MedicalAIEvaluator._calculate_recommendation_overlap. cbv zeta.
  destruct (flat_map _ opinions) as [|rec recs] eqn:Hrecs; [lra|].
  apply ratio_of_counts_range; [apply overlapping_count_le|simpl; lia].
Qed.

Lemma flat_map_lower_id (opinions : list AgentOpinion) :
  Forall (λ rec, lower rec = rec) (ConsensusMatrix.all_recommendations opinions) →
  flat_map (λ op, map lower (recommendations op)) opinions
  = ConsensusMatrix.all_recommendations opinions.
Proof.
  unfold ConsensusMatrix.all_recommendations.
  induction opinions as [|op opinions IH]; [done|]. cbn [flat_map].
  intros [Hop Hrest]%Forall_app. rewrite IH by done. f_equal.
  rewrite <- (map_id (recommendations op)) at 2. apply map_ext_in.
  intros rec Hin%list_elem_of_In. by eapply Forall_forall in Hop.
Qed.

(** X18.  The evaluator's recommendation overlap lies in [0,1] and is 0.0
    without recommendations; and when the recommendations are already in
    lower case and there is at least one, it is the overlap ratio that the
    consensus matrix blends into its score. *)
Theorem evaluator_overlap_agrees (opinions : list AgentOpinion) :
  0 <= MedicalAIEvaluator._calculate_recommendation_overlap lower opinions <= 1
  ∧ (Forall (λ op, recommendations op = []) opinions →
     MedicalAIEvaluator._calculate_recommendation_overlap lower opinions = 0)
  ∧ (Forall (λ rec, lower rec = rec) (ConsensusMatrix.all_recommendations opinions) →
     ConsensusMatrix.all_recommendations opinions ≠ [] →
     MedicalAIEvaluator._calculate_recommendation_overlap lower opinions
     = ConsensusMatrix.overlap_ratio opinions).
Proof.
  split; [apply evaluator_overlap_range|]. split.
  - intros Hnone. unfold MedicalAIEvaluator._calculate_recommendation_overlap.
    cbv zeta.
    assert (flat_map (λ op, map lower (recommendations op)) opinions = []) as ->.
    { apply flat_map_nil_iff. eapply Forall_impl; [exact Hnone|].
      simpl. by intros op ->. }
    lra.
  - intros Hlow Hne. unfold MedicalAIEvaluator._calculate_recommendation_overlap.
    cbv zeta. rewrite flat_map_lower_id by done.
    unfold ConsensusMatrix.overlap_ratio.
    by destruct (ConsensusMatrix.all_recommendations opinions).
Qed.

(** ** The diagnosis score *)

Lemma diagnostic_role (op : AgentOpinion) :
  AgentRole_value (role op) ∈ ["oncologist"; "radiologist"]
  ↔ role op = ONCOLOGIST ∨ role op = RADIOLOGIST.
Proof.
  destruct (role op); split; intros Hr;
    first [ by left | by right | string_mem
          | exfalso; revert Hr; string_mem
          | by destruct Hr as [?|?] ].
Qed.

Lemma diagnosis_loop (diagnosis : string) (opinions : list AgentOpinion)
    (mentioned total : nat) :
  fold_left
    (λ '(mentioned, total) op,
       if bool_decide (AgentRole_value (role op) ∈ ["oncologist"; "radiologist"])
       then (if Py.str_contains (lower diagnosis) (lower (opinion op))
             then S mentioned else mentioned,
             S total)
       else (mentioned, total))
    opinions (mentioned, total)
  = let doctors :=
      filter (λ op, role op = ONCOLOGIST ∨ role op = RADIOLOGIST) opinions in
    ((mentioned
      + length (filter (λ op, Py.str_contains (lower diagnosis) (lower (opinion op)) = true)
                       doctors))%nat,
     (total + length doctors)%nat).
Proof.
  cbv zeta. revert mentioned total.
  induction opinions as [|op opinions IH]; intros mentioned total.
  - cbn. f_equal; lia.
  - cbn [fold_left]. rewrite filter_cons.
    destruct (decide (role op = ONCOLOGIST ∨ role op = RADIOLOGIST)) as [Hdoc|Hno].
    + rewrite bool_decide_eq_true_2 by (by apply diagnostic_role).
      rewrite IH, filter_cons.
      destruct (Py.str_contains (lower diagnosis) (lower (opinion op))) eqn:Hm.
      * rewrite decide_True by done. cbn [length]. f_equal; lia.
      * rewrite decide_False by done. cbn [length]. f_equal; lia.
    + rewrite bool_decide_eq_false_2 by (by rewrite diagnostic_role). apply IH.
Qed.

Lemma evaluate_diagnosis_closed_form (opinions : list AgentOpinion) (c : ascii)
    (rest : string) :
  let diagnosis := String c rest in
  let doctors :=
    filter (λ op, role op = ONCOLOGIST ∨ role op = RADIOLOGIST) opinions in
  MedicalAIEvaluator._evaluate_diagnosis lower opinions (Some diagnosis)
  = match doctors with
    | [] => 0
    | _ => INR (length (filter (λ op, Py.str_contains (lower diagnosis)
                                        (lower (opinion op)) = true) doctors))
           / INR (length doctors)
    end.
Proof.
  cbv zeta. unfold MedicalAIEvaluator._evaluate_diagnosis.
  rewrite diagnosis_loop. cbv zeta. cbn [Nat.add].
  destruct (filter (λ op, role op = ONCOLOGIST ∨ role op = RADIOLOGIST) opinions)
    as [|doc doctors]; [cbn; lra|].
  reflexivity.
Qed.

Lemma evaluate_diagnosis_eq (opinions : list AgentOpinion)
    (true_diagnosis : option string) :
  MedicalAIEvaluator._evaluate_diagnosis lower opinions true_diagnosis
  = match true_diagnosis,
          filter (λ op, role op = ONCOLOGIST ∨ role op = RADIOLOGIST) opinions with
    | None, _ | Some EmptyString, _ | _, [] => 0
    | Some diagnosis, doctors =>
        INR (length (filter (λ op, Py.str_contains (lower diagnosis)
                                     (lower (opinion op)) = true) doctors))
        / INR (length doctors)
    end.
Proof.
  destruct true_diagnosis as [[|c rest]|].
  - unfold MedicalAIEvaluator._evaluate_diagnosis. lra.
  - rewrite evaluate_diagnosis_closed_form. cbv zeta.
    by destruct (filter _ opinions).
  - unfold MedicalAIEvaluator._evaluate_diagnosis. lra.
Qed.

Lemma evaluate_diagnosis_range (opinions : list AgentOpinion)
    (true_diagnosis : option string) :
  0 <= MedicalAIEvaluator._evaluate_diagnosis lower opinions true_diagnosis <= 1.
Proof.
  rewrite evaluate_diagnosis_eq.
  destruct true_diagnosis as [[|c rest]|]; try lra.
  destruct (filter _ opinions) as [|doc doctors]; [lra|].
  apply ratio_of_counts_range; [apply length_filter|simpl; lia].
Qed.

(** X19.  The diagnosis score is 0.0 when the ground truth names no
    diagnosis (missing or empty); otherwise it is the share of the
    oncologist and radiologist opinions whose text contains the diagnosis,
    both in lower case, and 0.0 when there is no such opinion; opinions of
    other roles never matter; the score lies in [0,1]. *)
Theorem evaluate_diagnosis_spec (opinions : list AgentOpinion)
    (true_diagnosis : option string) :
  0 <= MedicalAIEvaluator._evaluate_diagnosis lower opinions true_diagnosis <= 1
  ∧ MedicalAIEvaluator._evaluate_diagnosis lower opinions true_diagnosis
    = match true_diagnosis,
            filter (λ op, role op = ONCOLOGIST ∨ role op = RADIOLOGIST) opinions with
      | None, _ | Some EmptyString, _ | _, [] => 0
      | Some diagnosis, doctors =>
          INR (length (filter (λ op, Py.str_contains (lower diagnosis)
                                       (lower (opinion op)) = true) doctors))
          / INR (length doctors)
      end.
Proof. split; [apply evaluate_diagnosis_range|apply evaluate_diagnosis_eq]. Qed.

(** ** The treatment score *)

Lemma treatment_loop_range (treatments : list string) (opinions : list AgentOpinion)
    (score : R) (total : nat) :
  0 <= score <= INR total →
  let '(score', total') :=
    fold_left
      (λ '(score, total) op,
         if bool_decide (AgentRole_value (role op) ∈ ["oncologist"; "nurse"])
         then
           let opinion_recommendations : gset string :=
             list_to_set (map lower (recommendations op)) in
           let ground_truth_treatments : gset string :=
             list_to_set (map lower treatments) in
           let overlap := size (opinion_recommendations ∩ ground_truth_treatments) in
           (if (0 <? size ground_truth_treatments)%nat
            then score + INR overlap / INR (size ground_truth_treatments)
            else score,
            S total)
         else (score, total))
      opinions (score, total) in
  0 <= score' <= INR total'.
Proof.
  revert score total. induction opinions as [|op opinions IH]; intros score total Hinv.
  - done.
  - cbn [fold_left]. case_bool_decide; [|by apply IH]. cbv zeta.
    apply IH. rewrite S_INR.
    destruct (Nat.ltb_spec 0 (size (list_to_set (map lower treatments) : gset string)))
      as [Hpos|_]; [|lra].
    pose proof (ratio_of_counts_range
                  (size ((list_to_set (map lower (recommendations op)) : gset string)
                         ∩ list_to_set (map lower treatments)))
                  (size (list_to_set (map lower treatments) : gset string))) as Hr.
    destruct Hr as [Hr0 Hr1]; [|done|lra].
    apply subseteq_size, intersection_subseteq_r.
Qed.

Lemma evaluate_treatment_bounds (opinions : list AgentOpinion)
    (recommended_treatment : option (list string)) :
  0 <= MedicalAIEvaluator._evaluate_treatment lower opinions recommended_treatment <= 1.
Proof.
  unfold MedicalAIEvaluator._evaluate_treatment.
  destruct recommended_treatment as [[|treatment treatments]|]; try lra.
  pose proof (treatment_loop_range (treatment :: treatments) opinions 0.0 0) as Hloop.
  destruct (fold_left _ opinions (0.0, 0%nat)) as [score total].
  destruct Hloop as [H0 H1]; [simpl; lra|].
  destruct (Nat.ltb_spec 0 total) as [Hpos|_]; [|lra].
  apply lt_0_INR in Hpos. split.
  - apply Rmult_le_pos; [done|]. left. by apply Rinv_0_lt_compat.
  - apply (Rmult_le_reg_r (INR total)); [done|].
    unfold Rdiv. rewrite Rmult_assoc, Rinv_l by lra. lra.
Qed.

(** X20.  The treatment score lies in [0,1], and it is 0.0 when the ground
    truth recommends no treatment (missing or empty list). *)
Theorem evaluate_treatment_range (opinions : list AgentOpinion)
    (recommended_treatment : option (list string)) :
  0 <= MedicalAIEvaluator._evaluate_treatment lower opinions recommended_treatment <= 1
  ∧ (default [] recommended_treatment = [] →
     MedicalAIEvaluator._evaluate_treatment lower opinions recommended_treatment = 0).
Proof.
  split; [apply evaluate_treatment_bounds|].
  unfold MedicalAIEvaluator._evaluate_treatment.
  destruct recommended_treatment as [[|treatment treatments]|]; simpl; intros;
    first [lra|done].
Qed.

(** ** Coverage of the expected concerns *)

Lemma coverage_loop (all_concerns expected : list string) (covered : nat) :
  fold_left
    (λ covered expected,
       if existsb (λ concern, Py.str_contains (lower expected) concern) all_concerns
       then S covered else covered)
    expected covered
  = (covered
     + length (filter (λ expected,
                         existsb (λ concern, Py.str_contains (lower expected) concern)
                                 all_concerns = true) expected))%nat.
Proof.
  revert covered. induction expected as [|e expected IH]; intros covered.
  - cbn. lia.
  - cbn [fold_left]. rewrite IH, filter_cons.
    destruct (existsb _ all_concerns) eqn:He.
    + rewrite decide_True by done. cbn [length]. lia.
    + rewrite decide_False by done. lia.
Qed.

Lemma evaluate_concern_coverage_eq (opinions : list AgentOpinion)
    (ground_truth : GroundTruth) :
  MedicalAIEvaluator._evaluate_concern_coverage lower opinions ground_truth
  = match default [] (expected_concerns ground_truth) with
    | [] => 1
    | expected =>
        INR (length (filter (λ e, existsb (λ concern, Py.str_contains (lower e) concern)
                                    (flat_map (λ op, map lower (concerns op)) opinions)
                                  = true) expected))
        / INR (length expected)
    end.
Proof.
  unfold MedicalAIEvaluator._evaluate_concern_coverage.
  destruct (default [] (expected_concerns ground_truth)) as [|e expected]; [lra|].
  rewrite coverage_loop. cbn [Nat.add]. reflexivity.
Qed.

Lemma evaluate_concern_coverage_range (opinions : list AgentOpinion)
    (ground_truth : GroundTruth) :
  0 <= MedicalAIEvaluator._evaluate_concern_coverage lower opinions ground_truth <= 1.
Proof.
  rewrite evaluate_concern_coverage_eq.
  destruct (default [] (expected_concerns ground_truth)) as [|e expected]; [lra|].
  apply ratio_of_counts_range; [apply length_filter|simpl; lia].
Qed.

(** X21.  The concern coverage is 1.0 when the ground truth expects no
    concern (missing or empty list); otherwise it is the share of the
    expected concerns that occur, in lower case, inside some lower-cased
    concern of some opinion, a number in [0,1]. *)
Theorem evaluate_concern_coverage_spec (opinions : list AgentOpinion)
    (ground_truth : GroundTruth) :
  let all_concerns := flat_map (λ op, map lower (concerns op)) opinions in
  0 <= MedicalAIEvaluator._evaluate_concern_coverage lower opinions ground_truth <= 1
  ∧ MedicalAIEvaluator._evaluate_concern_coverage lower opinions ground_truth
    = match default [] (expected_concerns ground_truth) with
      | [] => 1
      | expected =>
          INR (length (filter (λ e, existsb (λ concern, Py.str_contains (lower e) concern)
                                            all_concerns = true) expected))
          / INR (length expected)
      end.
Proof.
  cbv zeta.
  split; [apply evaluate_concern_coverage_range|apply evaluate_concern_coverage_eq].
Qed.

(** ** The consensus quality *)

Lemma np_std_le_half (a : list R) :
  a ≠ [] → Forall (λ x, 0.5 <= x <= 1) a → Py.np_std a <= 0.5 ∧ 0.5 <= Py.np_mean a.
Proof.
  intros Hne Hall.
  pose proof (np_mean_between 0.5 1 a Hne Hall) as Hmean.
  fold (Py.np_mean a) in Hmean. split; [|lra].
  unfold Py.np_std. replace 0.5 with (sqrt 0.25) at 1.
  2: { replace 0.25 with (0.5 * 0.5) by lra. apply sqrt_square. lra. }
  apply sqrt_le_1_alt.
  set (sq := map (λ x, (x - Py.np_mean a) ^ 2) a).
  assert (sq ≠ []) as Hsq by (unfold sq; by destruct a).
  pose proof (np_mean_between 0 0.25 sq Hsq) as Hvar.
  fold (Py.np_mean sq) in Hvar. apply Hvar.
  unfold sq. apply Forall_map. eapply Forall_impl; [exact Hall|].
  cbn beta. intros x Hx.
  assert (-0.5 <= x - Py.np_mean a <= 0.5) as Hd by lra.
  generalize dependent (x - Py.np_mean a). intros d Hd.
  cbn [pow]. nra.
Qed.

Lemma size_list_to_set_le (l : list string) :
  (size (list_to_set l : gset string) <= length l)%nat.
Proof.
  induction l as [|c cs IH]; [by rewrite list_to_set_nil, size_empty|].
  cbn [list_to_set length]. rewrite size_union_alt, size_singleton.
  assert (size ((list_to_set cs : gset string) ∖ {[c]})
          <= size (list_to_set cs : gset string))%nat
    by (apply subseteq_size, subseteq_difference_l; done).
  lia.
Qed.

Lemma concern_diversity_range (all_concerns : list string) :
  0 <= (if (0 <? length all_concerns)%nat
        then INR (size (list_to_set all_concerns : gset string))
             / INR (length all_concerns)
        else 0) <= 1.
Proof.
  destruct (Nat.ltb_spec 0 (length all_concerns)) as [Hpos|_]; [|lra].
  apply ratio_of_counts_range; [apply size_list_to_set_le|done].
Qed.

Lemma split_panel_spread :
  Py.np_mean (map confidence split_panel) = 1 / 3
  ∧ 1 / 3 < Py.np_std (map confidence split_panel).
Proof.
  assert (Py.np_mean (map confidence split_panel) = 1 / 3) as Hmean.
  { unfold Py.np_mean, Py.np_sum, split_panel. cbn [map confidence mk_opinion foldr length].
    replace (INR 3) with 3 by (simpl; lra). lra. }
  split; [done|].
  unfold Py.np_std. rewrite Hmean.
  replace (1 / 3) with (sqrt ((1 / 3) * (1 / 3))) at 1 by (apply sqrt_square; lra).
  apply sqrt_lt_1_alt.
  unfold Py.np_mean, Py.np_sum, split_panel. cbn [map confidence mk_opinion foldr length pow].
  replace (INR 3) with 3 by (simpl; lra). lra.
Qed.

Lemma consensus_quality_le_1 (opinions : list AgentOpinion) :
  MedicalAIEvaluator._evaluate_consensus_quality lower opinions <= 1.
Proof.
  unfold MedicalAIEvaluator._evaluate_consensus_quality.
  destruct (length opinions <=? 1)%nat; [lra|].
  cbv zeta. eapply Rle_trans; [apply min_le_r|lra].
Qed.

Lemma consensus_quality_nonneg (opinions : list AgentOpinion) :
  Forall (λ op, 0.5 <= confidence op <= 1) opinions →
  0 <= MedicalAIEvaluator._evaluate_consensus_quality lower opinions.
Proof.
  intros Hconf. unfold MedicalAIEvaluator._evaluate_consensus_quality.
  destruct (Nat.leb_spec (length opinions) 1) as [_|Hlen]; [lra|].
  cbv zeta.
  assert (map confidence opinions ≠ []) as Hne
    by (destruct opinions; [simpl in Hlen; lia|done]).
  destruct (np_std_le_half (map confidence opinions) Hne) as [Hstd Hmean];
    [by apply Forall_map|].
  rewrite (decide_True (P := Py.np_mean (map confidence opinions) > 0)) by lra.
  pose proof (evaluator_overlap_range opinions) as Hoverlap.
  pose proof (concern_diversity_range (flat_map concerns opinions)) as Hdiv.
  assert (Py.np_std (map confidence opinions) / Py.np_mean (map confidence opinions)
          <= 1) as Hcv.
  { apply (Rmult_le_reg_r (Py.np_mean (map confidence opinions))); [lra|].
    unfold Rdiv. rewrite Rmult_assoc, Rinv_l by lra. lra. }
  apply min_glb; lra.
Qed.

(** X22. [_evaluate_consensus_quality] never exceeds 1 and is 1 for at most
    one opinion.  It is not below 0 when every confidence lies in [0.5, 1];
    for confidences in [0, 1] it can be negative, since the spread of the
    confidences may exceed their mean. *)
Theorem consensus_quality_range (opinions : list AgentOpinion) :
  MedicalAIEvaluator._evaluate_consensus_quality lower opinions <= 1
  ∧ ((length opinions <= 1)%nat →
     MedicalAIEvaluator._evaluate_consensus_quality lower opinions = 1)
  ∧ (Forall (λ op, 0.5 <= confidence op <= 1) opinions →
     0 <= MedicalAIEvaluator._evaluate_consensus_quality lower opinions)
  ∧ ∃ panel,
      Forall (λ op, 0 <= confidence op <= 1) panel
      ∧ MedicalAIEvaluator._evaluate_consensus_quality lower panel < 0.
Proof.
  split; [|split; [|split]].
  - apply consensus_quality_le_1.
  - intros Hlen. unfold MedicalAIEvaluator._evaluate_consensus_quality.
    apply Nat.leb_le in Hlen. rewrite Hlen. lra.
  - apply consensus_quality_nonneg.
  - exists split_panel. split.
    { unfold split_panel. repeat constructor; cbn [confidence mk_opinion]; lra. }
    destruct split_panel_spread as [Hmean Hstd].
    unfold MedicalAIEvaluator._evaluate_consensus_quality.
    change (length split_panel <=? 1)%nat with false. cbv zeta.
    rewrite (decide_True (P := Py.np_mean (map confidence split_panel) > 0))
      by (rewrite Hmean; lra).
    assert (MedicalAIEvaluator._calculate_recommendation_overlap lower split_panel = 0)
      as ->.
    { unfold MedicalAIEvaluator._calculate_recommendation_overlap, split_panel.
      cbn [flat_map map recommendations mk_opinion app]. lra. }
    change (flat_map concerns split_panel) with (@nil string).
    change (0 <? length (@nil string))%nat with false. cbv iota.
    rewrite Hmean.
    eapply Rle_lt_trans; [apply min_le_l|]. lra.
Qed.

(** ** The analysis of one case *)

(** X26. In the result of [evaluate_case_analysis] the diagnosis score, the
    treatment score, the recommendation overlap and the concern coverage lie
    in [0,1], and the consensus score and the overall score are at most 1.
    The overall score is not negative when every confidence is in [0.5, 1],
    and it is at most 0.2 when the ground truth holds neither a diagnosis
    nor a treatment. *)
Theorem case_analysis_ranges (case : MedicalCase) (opinions : list AgentOpinion)
    (ground_truth : GroundTruth) :
  let results :=
    MedicalAIEvaluator.evaluate_case_analysis lower case opinions ground_truth in
  0 <= res_diagnosis_score results <= 1
  ∧ 0 <= res_treatment_score results <= 1
  ∧ res_consensus_score results <= 1
  ∧ res_overall_score results <= 1
  ∧ 0 <= recommendation_overlap (res_detail_scores results) <= 1
  ∧ 0 <= concern_coverage (res_detail_scores results) <= 1
  ∧ (Forall (λ op, 0.5 <= confidence op <= 1) opinions →
     0 <= res_overall_score results)
  ∧ (true_diagnosis ground_truth = None →
     recommended_treatment ground_truth = None →
     res_overall_score results = res_consensus_score results * 0.2
     ∧ res_overall_score results <= 0.2).
Proof.
  cbv zeta. unfold MedicalAIEvaluator.evaluate_case_analysis. cbv zeta.
  cbn [res_diagnosis_score res_treatment_score res_consensus_score
       res_overall_score res_detail_scores recommendation_overlap concern_coverage].
  pose proof (evaluate_diagnosis_range opinions (true_diagnosis ground_truth)) as Hd.
  pose proof (evaluate_treatment_bounds opinions (recommended_treatment ground_truth))
    as Ht.
  pose proof (consensus_quality_le_1 opinions) as Hc.
  pose proof (evaluator_overlap_range opinions) as Ho.
  pose proof (evaluate_concern_coverage_range opinions ground_truth) as Hcov.
  split; [exact Hd|]. split; [exact Ht|]. split; [exact Hc|]. split; [lra|].
  split; [exact Ho|]. split; [exact Hcov|]. split.
  - intros Hconf. pose proof (consensus_quality_nonneg opinions Hconf). lra.
  - intros Hnd Hnt. rewrite Hnd, Hnt in *.
    unfold MedicalAIEvaluator._evaluate_diagnosis,
      MedicalAIEvaluator._evaluate_treatment. cbn [default]. split; lra.
Qed.
End EvaluatorFacts.

Lemma consensus_quality_range_witness :
  (length [first_oncologist] <= 1)%nat
  ∧ Forall (λ op, 0.5 <= confidence op <= 1) [first_oncologist]
  ∧ MedicalAIEvaluator._evaluate_consensus_quality (λ s, s) [first_oncologist] = 1
  ∧ 0 <= MedicalAIEvaluator._evaluate_consensus_quality (λ s, s) [first_oncologist].
Proof.
  assert (Forall (λ op, 0.5 <= confidence op <= 1) [first_oncologist]) as Hconf
    by (repeat constructor; cbn [confidence first_oncologist mk_opinion]; lra).
  assert (length [first_oncologist] <= 1)%nat as Hlen by (simpl; lia).
  destruct (consensus_quality_range (λ s, s) [first_oncologist])
    as (_ & Hone & Hpos & _).
  split; [exact Hlen|]. split; [exact Hconf|]. split; [exact (Hone Hlen)|exact (Hpos Hconf)].
Defined.

(** ** Batches *)

Lemma batch_loop_raised (lower : string → string) (e : exception)
    (test_cases : list TestCase) :
  fold_left
    (λ acc test_case,
       match acc with
       | inl e => inl e
       | inr case_results =>
           MedicalAIEvaluator.evaluate_batch_step lower case_results test_case
       end)
    test_cases (inl e) = inl e.
Proof. induction test_cases as [|tc tcs IH]; [reflexivity|exact IH]. Qed.

Lemma evaluate_batch_outcome (lower : string → string)
    (test_cases : list TestCase) :
  MedicalAIEvaluator.evaluate_batch lower test_cases
  = match test_cases with
    | [] => inl (Raised Py.ZeroDivisionError)
    | _ :: _ => inl (TypeError "object is not subscriptable")
    end.
Proof.
  destruct test_cases as [|tc tcs]; [reflexivity|].
  unfold MedicalAIEvaluator.evaluate_batch. cbn [fold_left].
  unfold MedicalAIEvaluator.evaluate_batch_step at 2.
  unfold case_getitem.
  by rewrite batch_loop_raised.
Qed.

(** X23. [evaluate_batch] returns no result for any batch: on the empty
    batch the reliability ratio divides by zero, and on any other batch the
    first progress line subscripts the case object, which raises. *)
Theorem evaluate_batch_always_raises (lower : string → string)
    (test_cases : list TestCase) :
  MedicalAIEvaluator.evaluate_batch lower test_cases
  = match test_cases with
    | [] => inl (Raised Py.ZeroDivisionError)
    | _ :: _ => inl (TypeError "object is not subscriptable")
    end.
Proof. apply evaluate_batch_outcome. Qed.

(** X24. [_generate_summary_metrics] raises on a batch without cases.
    Otherwise the reliability is the share of high performers, one area for
    improvement is listed per average below 0.7 and one strength per average
    of at least 0.8, so no dimension is both; recommendations are given
    exactly when there is an area for improvement. *)
Theorem summary_metrics_rules (total_cases : nat) (avg_scores : AvgScores)
    (score_distribution : ScoreDistribution) :
  let averages :=
    [avg_diagnosis avg_scores; avg_treatment avg_scores; avg_consensus avg_scores] in
  (total_cases = 0%nat →
   MedicalAIEvaluator._generate_summary_metrics total_cases avg_scores
     score_distribution = inl Py.ZeroDivisionError)
  ∧ ((0 < total_cases)%nat →
     ∃ metrics,
       MedicalAIEvaluator._generate_summary_metrics total_cases avg_scores
         score_distribution = inr metrics
       ∧ system_reliability metrics
         = INR (high_performers score_distribution) / INR total_cases
       ∧ ((high_performers score_distribution <= total_cases)%nat →
          0 <= system_reliability metrics <= 1)
       ∧ length (areas_for_improvement metrics)
         = length (filter (λ x, x < 0.7) averages)
       ∧ length (strength_areas metrics)
         = length (filter (λ x, x >= 0.8) averages)
       ∧ (length (areas_for_improvement metrics)
          + length (strength_areas metrics) <= 3)%nat
       ∧ (summary_recommendations metrics = [] ↔ areas_for_improvement metrics = [])).
Proof.
  cbv zeta. split.
  - intros ->. reflexivity.
  - intros Hpos. unfold MedicalAIEvaluator._generate_summary_metrics,
      MedicalAIEvaluator.int_div.
    destruct (Nat.eqb_spec total_cases 0) as [->|_]; [lia|].
    result_steps. eexists. split; [reflexivity|].
    cbn [system_reliability areas_for_improvement strength_areas
         summary_recommendations].
    split; [reflexivity|]. split.
    { intros Hle. by apply ratio_of_counts_range. }
    rewrite !filter_cons, filter_nil.
    repeat case_decide; try lra; cbn [app length Nat.ltb Nat.leb Nat.add];
      (split; [reflexivity|]); (split; [reflexivity|]); (split; [lia|]); done.
Qed.

Lemma summary_metrics_rules_witness :
  (0 < 4)%nat ∧ (3 <= 4)%nat
  ∧ ∃ metrics,
      MedicalAIEvaluator._generate_summary_metrics 4
        {| avg_overall := 0.8; avg_diagnosis := 0.9; avg_treatment := 0.75;
           avg_consensus := 0.6 |}
        {| overall_std := 0.1; high_performers := 3; low_performers := 1 |}
      = inr metrics
      ∧ 0 <= system_reliability metrics <= 1
      ∧ length (areas_for_improvement metrics) = 1%nat
      ∧ length (strength_areas metrics) = 1%nat.
Proof.
  assert (0 < 4)%nat as Hpos by lia.
  assert (3 <= 4)%nat as Hle by lia.
  split; [exact Hpos|]. split; [exact Hle|].
  destruct (summary_metrics_rules 4
              {| avg_overall := 0.8; avg_diagnosis := 0.9; avg_treatment := 0.75;
                 avg_consensus := 0.6 |}
              {| overall_std := 0.1; high_performers := 3; low_performers := 1 |})
    as [_ Hsome].
  destruct (Hsome Hpos) as (metrics & Hmetrics & _ & Hrange & Hareas & Hstrengths & _).
  exists metrics. split; [exact Hmetrics|]. split; [exact (Hrange Hle)|].
  rewrite Hareas, Hstrengths. cbn [avg_diagnosis avg_treatment avg_consensus].
  rewrite !filter_cons, filter_nil.
  repeat case_decide; try lra. split; reflexivity.
Defined.

(** ** Guidelines *)

(** X25. The guideline adherence is 0, 1/2 or 1.  No deviation is reported
    exactly when the diagnosis and the treatment score are both at least
    0.8; for a guideline with both criteria this is the case of adherence 1,
    while a guideline with neither criterion has adherence 0 whatever the
    scores. *)
Theorem guideline_adherence_and_deviations {V : Type} (case_result : CaseResult)
    (guideline : Py.pydict string V) :
  let adherence :=
    MedicalAIEvaluator._calculate_guideline_adherence case_result guideline in
  let deviations := MedicalAIEvaluator._identify_deviations case_result guideline in
  (adherence = 0 ∨ adherence = 1 / 2 ∨ adherence = 1)
  ∧ (deviations = []
     ↔ res_diagnosis_score case_result >= 0.8
       ∧ res_treatment_score case_result >= 0.8)
  ∧ ("diagnosis_criteria" ∈ Py.dict_keys guideline →
     "treatment_criteria" ∈ Py.dict_keys guideline →
     (adherence = 1 ↔ deviations = []))
  ∧ ("diagnosis_criteria" ∉ Py.dict_keys guideline →
     "treatment_criteria" ∉ Py.dict_keys guideline →
     adherence = 0).
Proof.
  cbv zeta. unfold MedicalAIEvaluator._calculate_guideline_adherence,
    MedicalAIEvaluator._identify_deviations.
  split; [|split; [|split]].
  - repeat case_bool_decide; repeat case_decide;
      cbn [Nat.ltb Nat.leb INR]; lra.
  - repeat case_decide; cbn [app]; split; intros Hside;
      first [lra | discriminate | done | destruct Hside; lra].
  - intros Hd Ht. rewrite !bool_decide_eq_true_2 by done.
    repeat case_decide; cbn [Nat.ltb Nat.leb INR app]; split; intros Hside;
      first [done | discriminate | lra].
  - intros Hd Ht. rewrite !bool_decide_eq_false_2 by done.
    cbn [Nat.ltb Nat.leb]. lra.
Qed.

Lemma guideline_adherence_and_deviations_witness :
  let case_result :=
    {| res_overall_score := 0.9; res_diagnosis_score := 0.9;
       res_treatment_score := 0.85; res_consensus_score := 1;
       res_detail_scores :=
         {| agent_confidence_avg := 0.8; agent_confidence_std := 0;
            recommendation_overlap := 0; concern_coverage := 1 |};
       res_case_id := None |} in
  let guideline : Py.pydict string nat :=
    [("diagnosis_criteria", 1%nat); ("treatment_criteria", 2%nat)] in
  "diagnosis_criteria" ∈ Py.dict_keys guideline
  ∧ "treatment_criteria" ∈ Py.dict_keys guideline
  ∧ (MedicalAIEvaluator._calculate_guideline_adherence case_result guideline = 1
     ↔ MedicalAIEvaluator._identify_deviations case_result guideline = []).
Proof.
  cbv zeta.
  set (case_result := {| res_overall_score := 0.9 |}).
  set (guideline := [("diagnosis_criteria", 1%nat); ("treatment_criteria", 2%nat)]
                    : Py.pydict string nat).
  assert ("diagnosis_criteria" ∈ Py.dict_keys guideline) as Hd by string_mem.
  assert ("treatment_criteria" ∈ Py.dict_keys guideline) as Ht by string_mem.
  split; [exact Hd|]. split; [exact Ht|].
  destruct (guideline_adherence_and_deviations case_result guideline)
    as (_ & _ & Hboth & _).
  exact (Hboth Hd Ht).
Defined.

Lemma evaluator_overlap_agrees_witness :
  Forall (λ op, recommendations op = []) no_recommendations
  ∧ MedicalAIEvaluator._calculate_recommendation_overlap (λ s, s) no_recommendations = 0
  ∧ Forall (λ rec, (λ s : string, s) rec = rec)
      (ConsensusMatrix.all_recommendations biopsy_scenario)
  ∧ ConsensusMatrix.all_recommendations biopsy_scenario ≠ []
  ∧ MedicalAIEvaluator._calculate_recommendation_overlap (λ s, s) biopsy_scenario
    = ConsensusMatrix.overlap_ratio biopsy_scenario.
Proof.
  assert (Forall (λ op, recommendations op = []) no_recommendations) as Hnone
    by (repeat constructor).
  assert (Forall (λ rec, (λ s : string, s) rec = rec)
            (ConsensusMatrix.all_recommendations biopsy_scenario)) as Hlow
    by (repeat constructor).
  assert (ConsensusMatrix.all_recommendations biopsy_scenario ≠ []) as Hne by done.
  split; [exact Hnone|].
  split; [exact (proj1 (proj2 (evaluator_overlap_agrees (λ s, s) no_recommendations))
                   Hnone)|].
  split; [exact Hlow|]. split; [exact Hne|].
  exact (proj2 (proj2 (evaluator_overlap_agrees (λ s, s) biopsy_scenario)) Hlow Hne).
Defined.

Lemma evaluate_treatment_range_witness :
  default [] (@None (list string)) = []
  ∧ MedicalAIEvaluator._evaluate_treatment (λ s, s) biopsy_scenario None = 0.
Proof.
  assert (default [] (@None (list string)) = []) as Hnone by reflexivity.
  split; [exact Hnone|].
  exact (proj2 (evaluate_treatment_range (λ s, s) biopsy_scenario None) Hnone).
Defined.

Lemma case_analysis_ranges_witness :
  let ground_truth :=
    {| true_diagnosis := None; recommended_treatment := None;
       expected_concerns := None |} in
  let results :=
    MedicalAIEvaluator.evaluate_case_analysis (λ s, s) sample_case
      [first_oncologist; ward_nurse] ground_truth in
  Forall (λ op, 0.5 <= confidence op <= 1) [first_oncologist; ward_nurse]
  ∧ true_diagnosis ground_truth = None
  ∧ recommended_treatment ground_truth = None
  ∧ 0 <= res_overall_score results <= 0.2.
Proof.
  cbv zeta.
  set (ground_truth := {| true_diagnosis := None; recommended_treatment := None;
                          expected_concerns := None |}).
  assert (Forall (λ op, 0.5 <= confidence op <= 1) [first_oncologist; ward_nurse])
    as Hconf
    by (repeat constructor; cbn [confidence first_oncologist ward_nurse mk_opinion]; lra).
  assert (true_diagnosis ground_truth = None) as Hd by reflexivity.
  assert (recommended_treatment ground_truth = None) as Ht by reflexivity.
  split; [exact Hconf|]. split; [exact Hd|]. split; [exact Ht|].
  destruct (case_analysis_ranges (λ s, s) sample_case [first_oncologist; ward_nurse]
              ground_truth) as (_ & _ & _ & _ & _ & _ & Hpos & Hnone).
  split; [exact (Hpos Hconf)|exact (proj2 (Hnone Hd Ht))].
Defined.

(** ** The performance metrics of the runner *)

Lemma runner_sum_np_sum (a : list R) : ExperimentRunner.sum a = Py.np_sum a.
Proof.
  unfold ExperimentRunner.sum, Py.np_sum.
  rewrite (fold_symmetric Rplus); [reflexivity|intros; lra|intros; lra].
Qed.

Lemma runner_div_ok (a b : R) : b ≠ 0 → ExperimentRunner.div a b = inr (a / b).
Proof. intros Hb. unfold ExperimentRunner.div. by rewrite decide_False. Qed.


Lemma insert_asc_perm (x : R) (a : list R) : ExperimentRunner.insert_asc x a ≡ₚ x :: a.
Proof.
  induction a as [|y a IH]; [done|].
  cbn [ExperimentRunner.insert_asc]. case_decide; [|done].
  rewrite IH. apply Permutation_swap.
Qed.

Lemma runner_sorted_perm (a : list R) : ExperimentRunner.sorted a ≡ₚ a.
Proof.
  unfold ExperimentRunner.sorted.
  induction a as [|x a IH]; [done|].
  cbn [foldr]. by rewrite insert_asc_perm, IH.
Qed.



Lemma runner_median_ok (x : R) (a : list R) :
  ∃ m, ExperimentRunner.getitem (ExperimentRunner.sorted (x :: a))
         (length (x :: a) / 2) = inr m
       ∧ m ∈ x :: a.
Proof.
  unfold ExperimentRunner.getitem.
  destruct (lookup_lt_is_Some_2 (ExperimentRunner.sorted (x :: a))
              (length (x :: a) / 2)) as [m Hm].
  { rewrite (Permutation_length (runner_sorted_perm (x :: a))).
    apply Nat.div_lt; [simpl; lia|lia]. }
  exists m. rewrite Hm. split; [reflexivity|].
  rewrite <- (runner_sorted_perm (x :: a)). by eapply list_elem_of_lookup_2.
Qed.

Lemma performance_metrics_returns (case_results : list SingleResult) :
  case_results ≠ [] →
  ExperimentRunner.sum (map sr_analysis_time case_results) ≠ 0 →
  ∃ metrics,
    ExperimentRunner._calculate_performance_metrics case_results = inr (Some metrics).
Proof.
  intros Hne Hsum. destruct case_results as [|first others]; [done|].
  set (case_results := first :: others) in *.
  assert (INR (length (map sr_analysis_time case_results)) ≠ 0) as Hn
    by (apply not_0_INR; done).
  assert (INR (length (map (λ r, res_overall_score (sr_evaluation_result r))
                         case_results)) ≠ 0) as Hn'
    by (apply not_0_INR; done).
  destruct (runner_median_ok (sr_analysis_time first) (map sr_analysis_time others))
    as (median & Hmedian & _).
  change (sr_analysis_time first :: map sr_analysis_time others)
    with (map sr_analysis_time case_results) in Hmedian.
  unfold ExperimentRunner._calculate_performance_metrics. fold case_results.
  cbv zeta. rewrite !runner_div_ok by done. rewrite Hmedian.
  eexists. reflexivity.
Qed.



(** X28. In the metrics that [_calculate_performance_metrics] returns, the
    average score and the score deviation are the mean and the population
    standard deviation of the overall scores, as [np.mean] and [np.std]
    give them for [evaluate_batch]; the deviation is not negative, and the
    high and the low scoring cases are disjoint groups of the cases. *)
Theorem performance_metrics_scores (case_results : list SingleResult)
    (metrics : PerformanceMetrics) :
  let scores := map (λ r, res_overall_score (sr_evaluation_result r)) case_results in
  ExperimentRunner._calculate_performance_metrics case_results = inr (Some metrics) →
  average_score metrics = Py.np_mean scores
  ∧ score_std metrics = Py.np_std scores
  ∧ 0 <= score_std metrics
  ∧ high_score_cases metrics = length (filter (λ s, s >= 0.8) scores)
  ∧ low_score_cases metrics = length (filter (λ s, s < 0.6) scores)
  ∧ (high_score_cases metrics + low_score_cases metrics <= length case_results)%nat.
Proof.
  cbv zeta. intros Hmetrics.
  destruct case_results as [|first others]; [done|].
  set (case_results := first :: others) in *.
  assert (INR (length (map sr_analysis_time case_results)) ≠ 0) as Hn
    by (apply not_0_INR; done).
  assert (INR (length (map (λ r, res_overall_score (sr_evaluation_result r))
                         case_results)) ≠ 0) as Hn'
    by (apply not_0_INR; done).
  destruct (runner_median_ok (sr_analysis_time first) (map sr_analysis_time others))
    as (median & Hmedian & _).
  change (sr_analysis_time first :: map sr_analysis_time others)
    with (map sr_analysis_time case_results) in Hmedian.
  unfold ExperimentRunner._calculate_performance_metrics in Hmetrics.
  fold case_results in Hmetrics. cbv zeta in Hmetrics.
  rewrite !runner_div_ok in Hmetrics by done. rewrite Hmedian in Hmetrics.
  destruct (ExperimentRunner.div _ (ExperimentRunner.sum _)) as [|per_second];
    [done|].
  apply (inj inr), (inj Some) in Hmetrics. subst metrics.
  cbn [average_score score_std high_score_cases low_score_cases].
  rewrite !runner_sum_np_sum.
  split; [reflexivity|].
  split; [unfold Py.np_std, Py.np_mean; by rewrite !length_map|].
  split; [apply sqrt_pos|].
  split; [reflexivity|]. split; [reflexivity|].
  rewrite <- (length_map (λ r, res_overall_score (sr_evaluation_result r))
                case_results).
  generalize (map (λ r, res_overall_score (sr_evaluation_result r)) case_results).
  intros scores. induction scores as [|s scores IH]; [done|].
  rewrite !filter_cons. cbn [length].
  repeat case_decide; cbn [length]; lra || lia.
Qed.

Lemma performance_metrics_scores_witness :
  let case_results := [timed_result 3 0.9; timed_result 1 0.5; timed_result 2 0.7] in
  ∃ metrics,
    ExperimentRunner._calculate_performance_metrics case_results = inr (Some metrics)
    ∧ high_score_cases metrics = 1%nat
    ∧ low_score_cases metrics = 1%nat.
Proof.
  cbv zeta.
  set (case_results := [timed_result 3 0.9; timed_result 1 0.5; timed_result 2 0.7]).
  assert (case_results ≠ []) as Hne by done.
  assert (ExperimentRunner.sum (map sr_analysis_time case_results) ≠ 0) as Hsum
    by (unfold ExperimentRunner.sum; cbn; lra).
  destruct (performance_metrics_returns case_results Hne Hsum)
    as (metrics & Hmetrics).
  exists metrics. split; [exact Hmetrics|].
  destruct (performance_metrics_scores case_results metrics Hmetrics)
    as (_ & _ & _ & -> & -> & _).
  cbn [map case_results timed_result sr_evaluation_result res_overall_score].
  rewrite !filter_cons, !filter_nil.
  repeat case_decide; try lra. split; reflexivity.
Defined.

(** ** The batch experiment *)

Section RunnerFacts.
Context {W : Type}.
Variable lower : string → string.
Variable analyze_case : AgentRole → MedicalCase → W → option AgentOpinion * W.
Variable time : W → R * W.
Variable config : Config.

Let not_subscriptable : exception := TypeError "object is not subscriptable".

(** The loop has raised in the handler, or it holds a case result. *)
Let settled (st : ExperimentRunner.xresult (list SingleResult)
                  * DecisionEngine.state * W) : Prop :=
  st.1.1 = inl not_subscriptable
  ∨ ∃ case_results, st.1.1 = inr case_results ∧ case_results ≠ [].

Let batch_step
    : ExperimentRunner.xresult (list SingleResult) * DecisionEngine.state * W →
      DatasetCase →
      ExperimentRunner.xresult (list SingleResult) * DecisionEngine.state * W :=
  λ '(acc, engine, w) test_case,
    match acc with
    | inl e => (inl e, engine, w)
    | inr case_results =>
        match ExperimentRunner.run_single_case_experiment lower analyze_case time
                config test_case engine w with
        | (inr case_result, engine, w) =>
            (inr (case_results ++ [case_result]), engine, w)
        | (inl _, engine, w) =>
            match case_getitem (ACase (ds_case test_case)) "case_id" with
            | inl e => (inl e, engine, w)
            | inr _ => (inr case_results, engine, w)
            end
        end
    end.

Lemma batch_step_settles st (test_case : DatasetCase) :
  (settled st ∨ ∃ case_results, st.1.1 = inr case_results) →
  settled (batch_step st test_case).
Proof.
  destruct st as [[[e|case_results] engine] w]; cbn [fst snd batch_step].
  - intros [Hst|[? ?]]; [exact Hst|done].
  - intros _.
    destruct (ExperimentRunner.run_single_case_experiment _ _ _ _ _ _ _)
      as [[[e|case_result] engine'] w'].
    + unfold case_getitem. by left.
    + right. eexists. split; [reflexivity|]. by destruct case_results.
Qed.

Lemma batch_loop_settled (batch : list DatasetCase) st :
  settled st → settled (fold_left batch_step batch st).
Proof.
  revert st. induction batch as [|test_case batch IH]; intros st Hst; [done|].
  cbn [fold_left]. apply IH, batch_step_settles. by left.
Qed.

Lemma run_batch_settled (batch : list DatasetCase) (case_results : list SingleResult)
    (engine : DecisionEngine.state) (w : W) :
  batch ≠ [] ∨ case_results ≠ [] →
  settled (ExperimentRunner.run_batch lower analyze_case time config batch
             case_results engine w).
Proof.
  intros Hne. unfold ExperimentRunner.run_batch.
  change (fold_left _ batch ?st) with (fold_left batch_step batch st).
  destruct batch as [|test_case batch].
  - destruct Hne as [?|Hne]; [done|]. right. by exists case_results.
  - cbn [fold_left]. apply batch_loop_settled, batch_step_settles.
    right. by exists case_results.
Qed.

Let batches_step (test_cases : list DatasetCase)
    : ExperimentRunner.xresult (list SingleResult) * DecisionEngine.state * W →
      nat →
      ExperimentRunner.xresult (list SingleResult) * DecisionEngine.state * W :=
  λ '(acc, engine, w) i,
    match acc with
    | inl e => (inl e, engine, w)
    | inr case_results =>
        let batch := take (Z.to_nat (batch_size config)) (drop i test_cases) in
        ExperimentRunner.run_batch lower analyze_case time config batch case_results
          engine w
    end.

Lemma batches_loop_settled (test_cases : list DatasetCase) (starts : list nat) st :
  settled st → settled (fold_left (batches_step test_cases) starts st).
Proof.
  revert st. induction starts as [|i starts IH]; intros st Hst; [done|].
  cbn [fold_left]. apply IH.
  destruct st as [[[e|case_results] engine] w]; cbn [batches_step]; [exact Hst|].
  apply run_batch_settled. right.
  destruct Hst as [Hst|(? & [= <-] & Hne)]; done.
Qed.

Lemma evaluate_batch_performance_raises (case_results : list SingleResult) :
  ExperimentRunner._evaluate_batch_performance lower case_results
  = inl match case_results with
        | [] => Raised Py.ZeroDivisionError
        | _ :: _ => not_subscriptable
        end.
Proof.
  unfold ExperimentRunner._evaluate_batch_performance. cbv zeta.
  rewrite evaluate_batch_outcome. by destruct case_results.
Qed.

(** X29. [run_batch_experiment] returns no result, whatever the agents
    answer: a batch size of 0 is refused by [range]; without a case to
    process (no test case, or a negative batch size) the batch evaluation
    divides by zero; in every other run a [TypeError] comes up, in the
    handler of the first case that fails or else in the batch evaluation,
    from a subscript on a case object. *)
Theorem run_batch_experiment_never_returns (test_cases : list DatasetCase)
    (engine : DecisionEngine.state) (w : W) :
  (ExperimentRunner.run_batch_experiment lower analyze_case time config
     test_cases engine w).1.1
  = inl (if decide (batch_size config = 0)%Z
         then Raised (Py.ValueError "range() arg 3 must not be zero")
         else match test_cases with
              | [] => Raised Py.ZeroDivisionError
              | _ :: _ =>
                  if decide (batch_size config < 0)%Z
                  then Raised Py.ZeroDivisionError
                  else TypeError "object is not subscriptable"
              end).
Proof.
  unfold ExperimentRunner.run_batch_experiment.
  destruct (time w) as [start_time w1]. cbv zeta.
  unfold ExperimentRunner.range.
  destruct (decide (batch_size config = 0)%Z) as [Hzero|Hzero]; [reflexivity|].
  change (fold_left _ ?starts ?st) with (fold_left (batches_step test_cases) starts st).
  assert (∀ st, st.1.1 = inr [] ∨ settled st →
            (let '(looped, engine, w) := st in
             match looped with
             | inl e => (inl e, engine, w)
             | inr case_results =>
                 let '(end_time, w) := time w in
                 match ExperimentRunner._evaluate_batch_performance lower
                         case_results with
                 | inl e => (inl e, engine, w)
                 | inr batch_evaluation =>
                     match ExperimentRunner._calculate_performance_metrics
                             case_results with
                     | inl e => (inl e, engine, w)
                     | inr performance_metrics =>
                         (inr {| experiment_config := config;
                                 start_time := start_time;
                                 er_case_results := case_results;
                                 batch_evaluation := batch_evaluation;
                                 performance_metrics := performance_metrics;
                                 end_time := end_time;
                                 total_duration := end_time - start_time |},
                          engine, w)
                     end
                 end
             end).1.1
            = inl match st.1.1 with
                  | inr [] => Raised Py.ZeroDivisionError
                  | _ => not_subscriptable
                  end) as Hend.
  { intros [[[e|case_results] engine'] w'] Hst; cbn [fst snd] in *.
    - by destruct Hst as [?|[[= ->]|(? & ? & _)]].
    - destruct (time w') as [end_time w2].
      rewrite evaluate_batch_performance_raises. cbn [fst].
      by destruct case_results. }
  destruct (decide (batch_size config < 0)%Z) as [Hneg|Hpos].
  { cbn [fold_left].
    etrans; [exact (Hend (inr [], engine, w1) (or_introl eq_refl))|].
    by destruct test_cases. }
  destruct test_cases as [|test_case test_cases].
  { cbn [length Nat.add]. rewrite Nat.div_small by lia.
    cbn [seq map fold_left].
    exact (Hend (inr [], engine, w1) (or_introl eq_refl)). }
  set (cases := test_case :: test_cases).
  assert (∃ count, ((length cases + Z.to_nat (batch_size config) - 1)
                    / Z.to_nat (batch_size config))%nat = S count) as [count ->].
  { assert (1 <= (length cases + Z.to_nat (batch_size config) - 1)
                 / Z.to_nat (batch_size config))%nat as Hone.
    { apply Nat.div_le_lower_bound; [lia|]. unfold cases. cbn [length]. lia. }
    destruct (_ / _)%nat as [|count]; [lia|]. by exists count. }
  cbn [seq map fold_left]. cbn [batches_step]. rewrite Nat.mul_0_l, drop_0.
  match goal with
  | |- context [fold_left (batches_step cases) ?starts ?st] =>
      assert (settled (fold_left (batches_step cases) starts st)) as Hloop
  end.
  { apply batches_loop_settled, run_batch_settled. left.
    assert (Z.to_nat (batch_size config) ≠ 0%nat) as Hbs by lia.
    destruct (Z.to_nat (batch_size config)); done. }
  etrans; [exact (Hend _ (or_intror Hloop))|].
  destruct (fold_left (batches_step cases) _ _) as [[[e|case_results] engine'] w'];
    destruct Hloop as [Hloop|(results & Hloop & Hne)]; cbn [fst] in Hloop |- *;
    simplify_eq; try done.
  by destruct results.
Qed.
End RunnerFacts.

(** ** One case of the experiment *)

Section SingleCaseFacts.
Context {W : Type}.
Variable lower : string → string.
Variable analyze_case : AgentRole → MedicalCase → W → option AgentOpinion * W.
Variable time : W → R * W.
Variable config : Config.

Lemma collect_loop_length (case : MedicalCase) (roles : list AgentRole)
    (agent_opinions : list AgentOpinion) (w : W) :
  (length (fold_left
             (λ '(agent_opinions, w) role,
                if bool_decide (AgentRole_value role ∈ include_agents config)
                then match analyze_case role case w with
                     | (Some opinion, w) => (agent_opinions ++ [opinion], w)
                     | (None, w) => (agent_opinions, w)
                     end
                else (agent_opinions, w))
             roles (agent_opinions, w)).1
   <= length agent_opinions + length roles)%nat.
Proof.
  revert agent_opinions w.
  induction roles as [|role roles IH]; intros agent_opinions w; [simpl; lia|].
  cbn [fold_left length]. case_bool_decide.
  - destruct (analyze_case role case w) as [[opinion|] w'].
    + etrans; [apply IH|]. rewrite length_app. simpl. lia.
    + etrans; [apply IH|]. lia.
  - etrans; [apply IH|]. lia.
Qed.

Lemma collect_loop_excluded (case : MedicalCase) (roles : list AgentRole)
    (agent_opinions : list AgentOpinion) (w : W) :
  Forall (λ role, AgentRole_value role ∉ include_agents config) roles →
  fold_left
    (λ '(agent_opinions, w) role,
       if bool_decide (AgentRole_value role ∈ include_agents config)
       then match analyze_case role case w with
            | (Some opinion, w) => (agent_opinions ++ [opinion], w)
            | (None, w) => (agent_opinions, w)
            end
       else (agent_opinions, w))
    roles (agent_opinions, w) = (agent_opinions, w).
Proof.
  induction 1 as [|role roles Hrole _ IH]; [done|].
  cbn [fold_left]. by rewrite bool_decide_eq_false_2.
Qed.

(** X30. [run_single_case_experiment] gathers at most five opinions, none
    when no agent is included.  Without an opinion it raises the ValueError
    of the consensus matrix and leaves the decision engine as it was.
    Otherwise it returns: the result carries the id of the case, the
    gathered opinions, the evaluation of these opinions against the ground
    truth and, as analysis time, the difference of the clock after the
    decision and before the first agent; the decision engine has recorded
    the report of the result as its newest decision. *)
Theorem single_case_experiment_spec (test_case : DatasetCase)
    (engine : DecisionEngine.state) (w : W) :
  let outcome :=
    ExperimentRunner.run_single_case_experiment lower analyze_case time config
      test_case engine w in
  let started := time w in
  let collected :=
    ExperimentRunner.collect_opinions analyze_case config (ds_case test_case)
      started.2 in
  (length collected.1 <= 5)%nat
  ∧ (Forall (λ role, AgentRole_value role ∉ include_agents config) AgentRole_members →
     collected.1 = [])
  ∧ (collected.1 = [] →
     (∃ msg, outcome.1.1 = inl (Raised (Py.ValueError msg)))
     ∧ outcome.1.2 = engine)
  ∧ (collected.1 ≠ [] →
     ∃ result,
       outcome.1.1 = inr result
       ∧ sr_case_id result = case_id (ds_case test_case)
       ∧ sr_agent_opinions result = collected.1
       ∧ sr_ground_truth result = ds_ground_truth test_case
       ∧ sr_evaluation_result result
         = MedicalAIEvaluator.evaluate_case_analysis lower (ds_case test_case)
             collected.1 (ds_ground_truth test_case)
       ∧ sr_analysis_time result = (time collected.2).1 - started.1
       ∧ report_case_id (sr_decision_result result) = case_id (ds_case test_case)
       ∧ report_agent_opinions (sr_decision_result result) = collected.1
       ∧ DecisionEngine.decision_history outcome.1.2
         = DecisionEngine.decision_history engine ++ [sr_decision_result result]).
Proof.
  cbv zeta. unfold ExperimentRunner.run_single_case_experiment. cbv zeta.
  destruct (time w) as [start_time w1]. cbn [fst snd].
  split; [apply (collect_loop_length (ds_case test_case) AgentRole_members [] w1)|].
  split.
  { intros Hnone. unfold ExperimentRunner.collect_opinions.
    by rewrite collect_loop_excluded. }
  destruct (ExperimentRunner.collect_opinions analyze_case config (ds_case test_case) w1)
    as [[|opinion agent_opinions] w2]; cbn [fst snd].
  - split; [|done]. intros _. split; [|reflexivity].
    eexists. reflexivity.
  - split; [done|]. intros _.
    destruct (decision_report_returns (ds_case test_case) opinion agent_opinions)
      as (report & Hreport & _ & Hid & Hopinions).
    unfold DecisionEngine.make_decision. rewrite Hreport.
    destruct (time w2) as [now w3]. cbn [fst snd].
    eexists. split; [reflexivity|].
    cbn [sr_case_id sr_agent_opinions sr_ground_truth sr_evaluation_result
         sr_analysis_time sr_decision_result DecisionEngine.decision_history].
    repeat split; done.
Qed.
End SingleCaseFacts.

Lemma single_case_experiment_spec_witness :
  Forall (λ role, AgentRole_value role ∉ include_agents no_agent) AgentRole_members
  ∧ (ExperimentRunner.collect_opinions two_agents no_agent sample_case 1%nat).1 = []
  ∧ (ExperimentRunner.run_single_case_experiment (λ s, s) two_agents ticking_clock
       no_agent sample_test_case DecisionEngine.init 0%nat).1.2
    = DecisionEngine.init
  ∧ (ExperimentRunner.collect_opinions two_agents every_agent sample_case 1%nat).1 ≠ []
  ∧ ∃ result,
      (ExperimentRunner.run_single_case_experiment (λ s, s) two_agents ticking_clock
         every_agent sample_test_case DecisionEngine.init 0%nat).1.1 = inr result
      ∧ sr_agent_opinions result = [first_oncologist; ward_nurse]
      ∧ sr_analysis_time result = 1.
Proof.
  assert (Forall (λ role, AgentRole_value role ∉ include_agents no_agent)
            AgentRole_members) as Hnone.
  { apply Forall_forall. intros role _. apply not_elem_of_nil. }
  assert ((ExperimentRunner.collect_opinions two_agents every_agent sample_case
             1%nat).1 = [first_oncologist; ward_nurse]) as Hsome.
  { unfold ExperimentRunner.collect_opinions, AgentRole_members.
    cbn [fold_left].
    rewrite !bool_decide_eq_true_2 by string_mem. reflexivity. }
  pose proof (single_case_experiment_spec (λ s, s) two_agents ticking_clock no_agent
                sample_test_case DecisionEngine.init 0%nat) as Hno.
  pose proof (single_case_experiment_spec (λ s, s) two_agents ticking_clock every_agent
                sample_test_case DecisionEngine.init 0%nat) as Hevery.
  cbv zeta in Hno, Hevery.
  destruct Hno as (_ & Hempty & Hraise & _).
  destruct Hevery as (_ & _ & _ & Hreturn).
  change (ticking_clock 0).2 with 1%nat in *.
  change (ds_case sample_test_case) with sample_case in *.
  split; [exact Hnone|]. split; [exact (Hempty Hnone)|].
  split; [exact (proj2 (Hraise (Hempty Hnone)))|].
  assert ((ExperimentRunner.collect_opinions two_agents every_agent sample_case
             1%nat).1 ≠ []) as Hne by (by rewrite Hsome).
  split; [exact Hne|].
  destruct (Hreturn Hne) as (result & Hresult & _ & Hopinions & _ & _ & Htime & _).
  exists result. split; [exact Hresult|]. split; [by rewrite Hopinions, Hsome|].
  rewrite Htime.
  assert ((ExperimentRunner.collect_opinions two_agents every_agent sample_case
             1%nat).2 = 1%nat) as ->.
  { unfold ExperimentRunner.collect_opinions, AgentRole_members.
    cbn [fold_left].
    rewrite !bool_decide_eq_true_2 by string_mem. reflexivity. }
  unfold ticking_clock. cbn [fst snd INR]. lra.
Defined.
